(** * Allocation state of the portfolio backtester

    A shallow embedding of the two Streamlit front ends of the repository,
    [app_v3.py] (callback driven: [validate_ticker], [normalize_weights],
    [handle_ticker_change]) and [app.py] (script driven: the ticker loop, the
    [prev_tickers] reset block, [update_weight_from_text] and the auto-balance
    block), together with the properties of their weight tables.

    Conventions of the embedding.
    - [st.session_state] is an explicit record that every function takes and
      returns; [st.error] appends to a list of messages returned next to it.
    - A Python [dict] is an association list in insertion order with distinct
      keys ([Dict]); a Python [list] is a [list].
    - Python numbers are a parameter of the development ([Arith]).  The
      programs are written once and run on two instances: IEEE binary64
      ([float], what CPython computes with) and the exact rationals ([Qc]),
      on which the algebraic laws are proved.  The integer [0] that
      [handle_ticker_change] stores is the zero of the instance: under [sum],
      [==], [/] and [*] it is indistinguishable from [0.0].
    - Text is ASCII: [str.strip] and [str.upper] are given on ASCII texts
      ([Text.is_ascii]), where they are what Python computes.  Python also
      strips white space outside ASCII and upper-cases letters outside ASCII;
      a statement that classifies a text takes the text to be ASCII.
    - Of Streamlit the contract the code relies on is kept: a widget holds
      its value under its key, a callback runs before the script does, and
      the script runs after every interaction.  So are the three checks of
      Streamlit that end a run of these scripts: a second widget with a key
      already used in the run ([DuplicateWidgetID]), a text input whose key
      holds a number ([TypeError]), and a write to the key of a widget that
      the run has drawn ([StreamlitAPIException]).  The life time of widget
      state and the external services (prices, backtest, charts) are outside
      the embedding. *)

From Stdlib Require Import QArith Qcanon Floats Uint63 Ascii String.
From stdpp Require Import base numbers list gmap strings.

Local Open Scope string_scope.
Local Open Scope list_scope.

(** ** Arithmetic of Python numbers *)

Class Arith (W : Type) := {
  of_nat : nat -> W;          (* an [int] used as a number: [0], [100], [len(..)] *)
  tenth : W;                  (* the literal [0.1] *)
  add : W -> W -> W;
  sub : W -> W -> W;
  mul : W -> W -> W;
  div : W -> W -> W;          (* [/] with a divisor known to be non-zero *)
  absv : W -> W;
  eqb : W -> W -> bool;       (* [==] *)
  ltb : W -> W -> bool        (* [<] *)
}.

(** The exceptions of the two scripts.  Python raises [ZeroDivisionError] on
    a zero divisor, also for floats; the last three are raised by Streamlit. *)
Inductive exn :=
| ZeroDivisionError | KeyError | ValueError
| TypeError | DuplicateWidgetID | StreamlitAPIException.

Definition py_div `{Arith W} (a b : W) : exn + W :=
  if eqb b (of_nat 0) then inl ZeroDivisionError else inr (div a b).

(** Exact rationals. *)
Definition Qc_of_nat (n : nat) : Qc := Q2Qc (inject_Z (Z.of_nat n)).

Definition Qc_ltb (a b : Qc) : bool := bool_decide (a < b)%Qc.

Definition Qc_abs (a : Qc) : Qc := if Qc_ltb a 0%Qc then (- a)%Qc else a.

#[export] Instance Arith_Qc : Arith Qc := {|
  of_nat := Qc_of_nat;
  tenth := Q2Qc (1 # 10);
  add := Qcplus;
  sub := Qcminus;
  mul := Qcmult;
  div := Qcdiv;
  absv := Qc_abs;
  eqb := Qc_eq_bool;
  ltb := Qc_ltb
|}.

(** IEEE 754 binary64, the arithmetic of CPython's [float]. *)
Definition float_of_nat (n : nat) : float :=
  PrimFloat.of_uint63 (Uint63.of_Z (Z.of_nat n)).

#[export] Instance Arith_float : Arith float := {|
  of_nat := float_of_nat;
  tenth := 0x1.999999999999ap-4%float;
  add := PrimFloat.add;
  sub := PrimFloat.sub;
  mul := PrimFloat.mul;
  div := PrimFloat.div;
  absv := PrimFloat.abs;
  eqb := PrimFloat.eqb;
  ltb := PrimFloat.ltb
|}.

(** ** Text: [str.strip], [str.upper] and the ticker pattern *)

Module Text.

(** [str.isspace] on ASCII: TAB, LF, VT, FF, CR, FS, GS, RS, US and space. *)
Definition is_space (c : ascii) : bool :=
  let n := nat_of_ascii c in
  (((9 <=? n) && (n <=? 13)) || ((28 <=? n) && (n <=? 32)))%nat.

Definition is_upper (c : ascii) : bool :=
  let n := nat_of_ascii c in ((65 <=? n) && (n <=? 90))%nat.

Definition is_lower (c : ascii) : bool :=
  let n := nat_of_ascii c in ((97 <=? n) && (n <=? 122))%nat.

Definition upper_char (c : ascii) : ascii :=
  if is_lower c then ascii_of_nat (nat_of_ascii c - 32) else c.

Definition newline : ascii := ascii_of_nat 10.

(** The texts of the embedding: every character is below 128.  On these
    [strip] and [upper] below are [str.strip] and [str.upper]. *)
Definition is_ascii (s : string) : Prop :=
  Forall (fun c => (nat_of_ascii c < 128)%nat) (list_ascii_of_string s).

(** Leading white space removed. *)
Fixpoint lstrip_chars (l : list ascii) : list ascii :=
  match l with
  | [] => []
  | c :: r => if is_space c then lstrip_chars r else l
  end.

Definition strip_chars (l : list ascii) : list ascii :=
  reverse (lstrip_chars (reverse (lstrip_chars l))).

(** [s.strip()], for an ASCII text [s] *)
Definition strip (s : string) : string :=
  string_of_list_ascii (strip_chars (list_ascii_of_string s)).

(** [s.upper()], for an ASCII text [s] *)
Definition upper (s : string) : string :=
  string_of_list_ascii (upper_char <$> list_ascii_of_string s).

(** The body of the pattern, [[A-Z]{1,5}], against a whole text. *)
Definition letters_1_5_chars (l : list ascii) : bool :=
  ((1 <=? length l) && (length l <=? 5))%nat && forallb is_upper l.

Definition letters_1_5 (s : string) : bool :=
  letters_1_5_chars (list_ascii_of_string s).

(** [re.match(r'^[A-Z]{1,5}$', s)] as a truth value.  Without [re.MULTILINE]
    the anchor [$] matches at the end of the string and also just before a
    newline that ends it. *)
Definition re_match_ticker (s : string) : bool :=
  letters_1_5 s ||
  match reverse (list_ascii_of_string s) with
  | c :: r => Ascii.eqb c newline && letters_1_5_chars (reverse r)
  | [] => false
  end.

(** The value of a single-line text field holds no line feed. *)
Definition single_line (s : string) : Prop :=
  newline ∉ list_ascii_of_string s.

End Text.

(** ** Python containers *)

(** A [dict] with string keys: pairs in insertion order.  Every operation keeps
    the keys distinct when they were ([Dict.wf]). *)
Module Dict.
Section Dict.
Context {V : Type}.

Definition keys (d : list (string * V)) : list string := fst <$> d.

Definition values (d : list (string * V)) : list V := snd <$> d.

Definition wf (d : list (string * V)) : Prop := NoDup (keys d).

(** [k in d] *)
Definition mem (k : string) (d : list (string * V)) : bool :=
  bool_decide (k ∈ keys d).

(** [d.get(k)] *)
Fixpoint get (k : string) (d : list (string * V)) : option V :=
  match d with
  | [] => None
  | (k', v) :: r => if decide (k = k') then Some v else get k r
  end.

(** [d[k] = v]: an existing key keeps its place, a new one goes last. *)
Fixpoint set (k : string) (v : V) (d : list (string * V)) : list (string * V) :=
  match d with
  | [] => [(k, v)]
  | (k', v') :: r => if decide (k = k') then (k, v) :: r else (k', v') :: set k v r
  end.

(** [del d[k]], for a key that is present. *)
Fixpoint del (k : string) (d : list (string * V)) : list (string * V) :=
  match d with
  | [] => []
  | (k', v') :: r => if decide (k = k') then r else (k', v') :: del k r
  end.

(** [{k: f(k) for k in l}] *)
Definition comprehension (f : string -> V) (l : list string) : list (string * V) :=
  fold_left (fun d k => set k (f k) d) l [].

End Dict.
End Dict.

Module PyList.

(** [l.remove(x)]: drops the first occurrence (the caller checks [x in l]). *)
Fixpoint remove (x : string) (l : list string) : list string :=
  match l with
  | [] => []
  | y :: r => if decide (x = y) then r else y :: remove x r
  end.

(** [sum(l)]: left to right from the integer [0]. *)
Definition sum `{Arith W} (l : list W) : W := fold_left add l (of_nat 0).

End PyList.

(** ** app_v3.py *)

Module AppV3.

(** One entry of [st.session_state.ticker_data]. *)
Record ticker_state := {
  ts_enabled : bool;
  ts_value : string;
  ts_valid : bool
}.

(** [st.session_state]: the widget values under the keys [ticker_<i>] and
    [enable_<i>], and the three tables the script initialises empty. *)
Record session (W : Type) := {
  ticker_ : nat -> string;
  enable_ : nat -> bool;
  ticker_data : gmap nat ticker_state;
  weights : list (string * W);
  valid_tickers : list string
}.
Arguments ticker_ {W} _ _.
Arguments enable_ {W} _ _.
Arguments ticker_data {W} _.
Arguments weights {W} _.
Arguments valid_tickers {W} _.

Definition init {W : Type} : session W := {|
  ticker_ := fun _ => "";
  enable_ := fun _ => false;
  ticker_data := ∅;
  weights := [];
  valid_tickers := []
|}.

Definition validate_ticker (ticker : string) : bool :=
  Text.re_match_ticker ticker.

Section Program.
Context {W : Type} `{Arith W}.

Definition set_weights (w : list (string * W)) (s : session W) : session W :=
  {| ticker_ := ticker_ s; enable_ := enable_ s; ticker_data := ticker_data s;
     weights := w; valid_tickers := valid_tickers s |}.

Definition set_valid_tickers (l : list string) (s : session W) : session W :=
  {| ticker_ := ticker_ s; enable_ := enable_ s; ticker_data := ticker_data s;
     weights := weights s; valid_tickers := l |}.

Definition set_ticker_data (d : gmap nat ticker_state) (s : session W) : session W :=
  {| ticker_ := ticker_ s; enable_ := enable_ s; ticker_data := d;
     weights := weights s; valid_tickers := valid_tickers s |}.

(** The [else] branch of [normalize_weights]: every value becomes
    [(value / total) * 100]; [total] was read before the loop. *)
Definition rescale (total : W) (w : list (string * W)) : list (string * W) :=
  prod_map id (fun v => mul (div v total) (of_nat 100)) <$> w.

Definition normalize_weights (s : session W) : session W :=
  let total := PyList.sum (Dict.values (weights s)) in
  if eqb total (of_nat 0) then
    let equal_weight :=
      match valid_tickers s with
      | [] => of_nat 0
      | _ => div (of_nat 100) (of_nat (length (valid_tickers s)))
      end in
    set_weights (Dict.comprehension (fun _ => equal_weight) (valid_tickers s)) s
  else
    set_weights (rescale total (weights s)) s.

(** [st.session_state.ticker_data.get(index, {}).get('value', '')] *)
Definition stored_value (index : nat) (s : session W) : string :=
  match ticker_data s !! index with
  | Some d => ts_value d
  | None => ""
  end.

(** "Clear invalid data when ticker changes" *)
Definition clear_changed (index : nat) (ticker : string) (s : session W) : session W :=
  if negb (bool_decide (ticker = stored_value index s)) then
    let s1 :=
      if bool_decide (ticker ∈ valid_tickers s)
      then set_valid_tickers (PyList.remove ticker (valid_tickers s)) s else s in
    if Dict.mem ticker (weights s1)
    then set_weights (Dict.del ticker (weights s1)) s1 else s1
  else s.

(** "Validate new ticker"; the second component is what [st.error] shows. *)
Definition validate_new (enabled : bool) (ticker : string) (s : session W)
  : session W * list string :=
  if enabled && negb (bool_decide (ticker = "")) then
    if validate_ticker ticker then
      let s1 :=
        if negb (bool_decide (ticker ∈ valid_tickers s))
        then set_valid_tickers (valid_tickers s ++ [ticker]) s else s in
      let s2 :=
        if negb (Dict.mem ticker (weights s1))
        then set_weights (Dict.set ticker (of_nat 0) (weights s1)) s1 else s1 in
      (s2, [])
    else (s, ["Invalid ticker format: " +:+ ticker])
  else (s, []).

(** "Store ticker state" *)
Definition store_ticker_state (index : nat) (enabled : bool) (ticker : string)
  (s : session W) : session W :=
  set_ticker_data
    (<[index := {| ts_enabled := enabled; ts_value := ticker;
                   ts_valid := if enabled then validate_ticker ticker else false |}]>
       (ticker_data s)) s.

Definition handle_ticker_change (index : nat) (s : session W)
  : session W * list string :=
  let ticker := Text.upper (Text.strip (ticker_ s index)) in
  let enabled := enable_ s index in
  let s1 := clear_changed index ticker s in
  let '(s2, errors) := validate_new enabled ticker s1 in
  let s3 := store_ticker_state index enabled ticker s2 in
  (normalize_weights s3, errors).

(** The session after the user acts on the widgets of row [i]. *)
Definition with_ticker (i : nat) (raw : string) (s : session W) : session W :=
  {| ticker_ := fun j => if decide (j = i) then raw else ticker_ s j;
     enable_ := enable_ s; ticker_data := ticker_data s;
     weights := weights s; valid_tickers := valid_tickers s |}.

Definition with_enable (i : nat) (b : bool) (s : session W) : session W :=
  {| ticker_ := ticker_ s;
     enable_ := fun j => if decide (j = i) then b else enable_ s j;
     ticker_data := ticker_data s;
     weights := weights s; valid_tickers := valid_tickers s |}.

(** The two slot operations: Streamlit stores the new widget value and calls
    [on_change=handle_ticker_change] with [args=(i,)]. *)
Definition setSlotText (i : nat) (raw : string) (s : session W)
  : session W * list string :=
  handle_ticker_change i (with_ticker i raw s).

Definition setSlotEnabled (i : nat) (b : bool) (s : session W)
  : session W * list string :=
  handle_ticker_change i (with_enable i b s).

(** The third column of a sidebar row: the weight input is shown for an enabled
    row whose text, as typed, passes [validate_ticker], and what it returns is
    stored.  [weight_ t] is the value of the input with key [weight_<t>]. *)
Definition weight_row (weight_ : string -> W) (s : session W) (i : nat) : session W :=
  let enabled := enable_ s i in
  let ticker := ticker_ s i in
  if enabled && negb (bool_decide (ticker = "")) && validate_ticker ticker
  then set_weights (Dict.set ticker (weight_ ticker) (weights s)) s
  else s.

(** Whether row [i] gets a weight input: the test of [weight_row]. *)
Definition shows_weight (s : session W) (i : nat) : bool :=
  enable_ s i && negb (bool_decide (ticker_ s i = "")) && validate_ticker (ticker_ s i).

(** The rows [rows] of "Create 5 ticker input rows"; [drawn] lists the tickers
    whose weight input the run has drawn so far.  A second input with the key
    [weight_<ticker>] is refused by Streamlit: the run ends at that row with
    [DuplicateWidgetID], the session keeping what the rows before it stored. *)
Fixpoint weight_rows_from (weight_ : string -> W) (rows : list nat)
  (drawn : list string) (s : session W) : session W * option exn :=
  match rows with
  | [] => (s, None)
  | i :: rest =>
      if shows_weight s i then
        if bool_decide (ticker_ s i ∈ drawn) then (s, Some DuplicateWidgetID)
        else weight_rows_from weight_ rest (ticker_ s i :: drawn) (weight_row weight_ s i)
      else weight_rows_from weight_ rest drawn s
  end.

Definition weight_rows (weight_ : string -> W) (s : session W)
  : session W * option exn :=
  weight_rows_from weight_ (seq 0 5) [] s.

(** "Normalize weights and show allocation", under [if valid_tickers:]. *)
Definition main_area (s : session W) : session W :=
  match valid_tickers s with
  | [] => s
  | _ => normalize_weights s
  end.

(** One run of the script, as far as the session tables are concerned: the
    session it leaves, whether it came to its end or was ended in the rows,
    before the main area. *)
Definition script (weight_ : string -> W) (s : session W) : session W :=
  match weight_rows weight_ s with
  | (s1, None) => main_area s1
  | (s1, Some _) => s1
  end.

(** The tickers of the weight inputs a run draws, in row order. *)
Definition shown_tickers (s : session W) : list string :=
  ticker_ s <$> filter (fun i => shows_weight s i = true) (seq 0 5).

(** What the user interface can do to a session: toggle the checkbox of a row,
    edit the text of an enabled row (the input is [disabled=not enabled]; it is
    a single-line field), change a weight input ([on_change=normalize_weights]),
    and the run of the script that follows every callback. *)
Inductive step : session W -> session W -> Prop :=
| step_enable i b s :
    i < 5 -> step s (setSlotEnabled i b s).1
| step_text i raw s :
    i < 5 -> enable_ s i = true -> Text.single_line raw ->
    step s (setSlotText i raw s).1
| step_weight s :
    step s (normalize_weights s)
| step_script weight_ s :
    step s (script weight_ s).

Inductive reachable : session W -> Prop :=
| reachable_init : reachable init
| reachable_step s s' : reachable s -> step s s' -> reachable s'.

(** Row [i] is enabled and holds the committed Symbol [sym]. *)
Definition holds (s : session W) (i : nat) (sym : string) : Prop :=
  ticker_data s !! i =
    Some {| ts_enabled := true; ts_value := sym; ts_valid := true |}.

End Program.
End AppV3.

(** ** app.py *)

Module App.

(** A value under a [text_<ticker>] key: the string the user typed, or a number
    that a callback stored there. *)
Inductive pyval (W : Type) :=
| PStr (s : string)
| PNum (v : W).
Arguments PStr {W} s.
Arguments PNum {W} v.

(** [st.session_state]: the tables of the script and the widget values under
    the keys [text_<ticker>] and [slider_<ticker>]. *)
Record session (W : Type) := {
  weights : list (string * W);
  tickers : list string;
  prev_tickers : option (list string);
  text_ : list (string * pyval W);
  slider_ : list (string * W)
}.
Arguments weights {W} _.
Arguments tickers {W} _.
Arguments prev_tickers {W} _.
Arguments text_ {W} _.
Arguments slider_ {W} _.

Definition init {W : Type} : session W := {|
  weights := [];
  tickers := replicate 5 "";
  prev_tickers := None;
  text_ := [];
  slider_ := []
|}.

(** How a run of the script ends: normally, or with an uncaught exception;
    either way the session keeps what was written to it. *)
Inductive outcome (W : Type) :=
| Done (s : session W)
| Raised (e : exn) (s : session W).
Arguments Done {W} s.
Arguments Raised {W} e s.

Definition final {W : Type} (o : outcome W) : session W :=
  match o with Done s => s | Raised _ s => s end.

Section Program.
Context {W : Type} `{Arith W}.
(** The builtin [float] on a string ([None]: it raises [ValueError]) and the
    format [f"{v:.1f}"]. *)
Variable float_of_str : string -> option W.
Variable format_1f : W -> string.

Definition set_weights (w : list (string * W)) (s : session W) : session W :=
  {| weights := w; tickers := tickers s; prev_tickers := prev_tickers s;
     text_ := text_ s; slider_ := slider_ s |}.

Definition set_tickers (l : list string) (s : session W) : session W :=
  {| weights := weights s; tickers := l; prev_tickers := prev_tickers s;
     text_ := text_ s; slider_ := slider_ s |}.

Definition set_prev_tickers (p : option (list string)) (s : session W) : session W :=
  {| weights := weights s; tickers := tickers s; prev_tickers := p;
     text_ := text_ s; slider_ := slider_ s |}.

Definition set_text (t : list (string * pyval W)) (s : session W) : session W :=
  {| weights := weights s; tickers := tickers s; prev_tickers := prev_tickers s;
     text_ := t; slider_ := slider_ s |}.

Definition set_slider (l : list (string * W)) (s : session W) : session W :=
  {| weights := weights s; tickers := tickers s; prev_tickers := prev_tickers s;
     text_ := text_ s; slider_ := l |}.

(** "Create 5 ticker input boxes with checkboxes": [enable_ i] and [ticker_ i]
    are what the checkbox and the text input of row [i] return in this run.
    The result is [selected_tickers] and the session with [tickers] updated. *)
Definition ticker_row (enable_ : nat -> bool) (ticker_ : nat -> string)
  (acc : list string * session W) (i : nat) : list string * session W :=
  let '(selected, s) := acc in
  if enable_ i then
    let ticker := Text.upper (Text.strip (ticker_ i)) in
    let selected' :=
      if negb (bool_decide (ticker = "")) then selected ++ [ticker] else selected in
    (selected', set_tickers (<[i := ticker]> (tickers s)) s)
  else (selected, s).

Definition ticker_loop (enable_ : nat -> bool) (ticker_ : nat -> string)
  (s : session W) : list string * session W :=
  fold_left (ticker_row enable_ ticker_) (seq 0 5) ([], s).

(** "Initialize or reset weights when tickers change" *)
Definition reset_weights (selected_tickers : list string) (s : session W) : session W :=
  let current_tickers := selected_tickers in
  if negb (bool_decide (prev_tickers s = Some current_tickers)) then
    let num_selected := length selected_tickers in
    let s1 :=
      if (0 <? num_selected)%nat then
        let equal_weight := div (of_nat 100) (of_nat num_selected) in
        set_weights (Dict.comprehension (fun _ => equal_weight) selected_tickers) s
      else set_weights [] s in
    set_prev_tickers (Some current_tickers) s1
  else s.

(** [float(x)] *)
Definition py_float (x : pyval W) : exn + W :=
  match x with
  | PNum v => inr v
  | PStr t => match float_of_str t with Some v => inr v | None => inl ValueError end
  end.

Definition clamp (value : W) : W :=
  if ltb value (of_nat 0) then of_nat 0
  else if ltb (of_nat 100) value then of_nat 100
  else value.

Definition update_weight_from_slider (ticker : string) (s : session W) : exn + session W :=
  match Dict.get ticker (slider_ s) with
  | Some v => inr (set_text (Dict.set ticker (PNum v) (text_ s)) s)
  | None => inl KeyError
  end.

(** The [try] block of [update_weight_from_text]. *)
Definition update_weight_try (ticker : string) (s : session W) : exn + session W :=
  match Dict.get ticker (text_ s) with
  | None => inl KeyError
  | Some x =>
      match py_float x with
      | inl e => inl e
      | inr value =>
          let value := clamp value in
          let s1 := set_weights (Dict.set ticker value (weights s)) s in
          inr (set_slider (Dict.set ticker value (slider_ s1)) s1)
      end
  end.

(** The bare [except:] catches whatever the [try] block raised, before it
    wrote anything. *)
Definition update_weight_from_text (ticker : string) (s : session W) : session W :=
  match update_weight_try ticker s with
  | inr s' => s'
  | inl _ =>
      let shown := match Dict.get ticker (weights s) with
                   | Some v => v
                   | None => of_nat 0
                   end in
      set_text (Dict.set ticker (PNum shown) (text_ s)) s
  end.

(** "Create weight controls for each selected ticker": the text input and the
    slider of a ticker have the keys [text_<ticker>] and [slider_<ticker>];
    [drawn] lists the tickers whose controls the run has drawn so far.
    Streamlit ends the run at a ticker whose keys the run has used already
    ([DuplicateWidgetID]) and at a text input whose key holds a number, not a
    string ([TypeError]).  The loop assigns nothing: the result is the
    exception that ends the run, if there is one. *)
Fixpoint weight_controls (selected_tickers drawn : list string) (s : session W)
  : option exn :=
  match selected_tickers with
  | [] => None
  | ticker :: rest =>
      if bool_decide (ticker ∈ drawn) then Some DuplicateWidgetID
      else
        match Dict.get ticker (text_ s) with
        | Some (PNum _) => Some TypeError
        | _ => weight_controls rest (ticker :: drawn) s
        end
  end.

(** The loop of the "Auto-balance weights" block; [drawn] lists the tickers
    whose controls the run has drawn.  After the assignment to
    [weights[ticker]], the assignment to [st.session_state["text_<ticker>"]]
    is refused by Streamlit when the text input of the ticker has been drawn
    in the run ([StreamlitAPIException]); the weight just stored stays. *)
Fixpoint balance_loop (drawn : list string) (total_weight : W)
  (selected_tickers : list string) (s : session W) : outcome W :=
  match selected_tickers with
  | [] => Done s
  | ticker :: rest =>
      match Dict.get ticker (weights s) with
      | None => Raised KeyError s
      | Some w =>
          match py_div w total_weight with
          | inl e => Raised e s
          | inr q =>
              let v := mul q (of_nat 100) in
              let s1 := set_weights (Dict.set ticker v (weights s)) s in
              if bool_decide (ticker ∈ drawn) then Raised StreamlitAPIException s1
              else
                let s2 := set_text (Dict.set ticker (PStr (format_1f v)) (text_ s1)) s1 in
                let s3 := set_slider (Dict.set ticker v (slider_ s2)) s2 in
                balance_loop drawn total_weight rest s3
          end
      end
  end.

Definition auto_balance (drawn selected_tickers : list string) (s : session W)
  : outcome W :=
  let total_weight := PyList.sum (Dict.values (weights s)) in
  if ltb tenth (absv (sub total_weight (of_nat 100)))
  then balance_loop drawn total_weight selected_tickers s
  else Done s.

(** One run of the script, as far as the session tables are concerned: the
    ticker rows, the reset block and, when a ticker is selected, the weight
    controls and the auto-balance block, which finds the controls of every
    selected ticker drawn.  An edit of a weight field by the user is a write
    to [text_] followed by [update_weight_from_text], before the run. *)
Definition script (enable_ : nat -> bool) (ticker_ : nat -> string)
  (s : session W) : list string * outcome W :=
  let '(selected_tickers, s1) := ticker_loop enable_ ticker_ s in
  let s2 := reset_weights selected_tickers s1 in
  match selected_tickers with
  | [] => (selected_tickers, Done s2)
  | _ =>
      match weight_controls selected_tickers [] s2 with
      | Some e => (selected_tickers, Raised e s2)
      | None => (selected_tickers, auto_balance selected_tickers selected_tickers s2)
      end
  end.

End Program.
End App.

(** * Properties *)

(** ** Text *)

Module TextFacts.
Import Text.

Lemma upper_is_not_space (c : ascii) :
  is_upper c = true -> is_space c = false /\ upper_char c = c.
Proof.
  destruct c as [[] [] [] [] [] [] [] []]; vm_compute; intros; split; congruence.
Qed.

Lemma upper_char_not_newline (c : ascii) :
  is_space c = false -> upper_char c <> newline.
Proof.
  destruct c as [[] [] [] [] [] [] [] []]; vm_compute; congruence.
Qed.

Lemma lstrip_chars_head (l : list ascii) :
  match lstrip_chars l with
  | [] => True
  | c :: _ => is_space c = false
  end.
Proof.
  induction l as [|c r IH]; simpl; [exact I|].
  destruct (is_space c) eqn:E; [exact IH | exact E].
Qed.

Lemma strip_chars_last (l : list ascii) :
  match reverse (strip_chars l) with
  | [] => True
  | c :: _ => is_space c = false
  end.
Proof.
  unfold strip_chars. rewrite reverse_involutive. apply lstrip_chars_head.
Qed.

Lemma lstrip_chars_upper (l : list ascii) :
  forallb is_upper l = true -> lstrip_chars l = l.
Proof.
  destruct l as [|c r]; simpl; [reflexivity|].
  intros [Hc _]%andb_prop. apply upper_is_not_space in Hc as [-> _]. reflexivity.
Qed.

Lemma forallb_reverse (f : ascii -> bool) (l : list ascii) :
  forallb f (reverse l) = forallb f l.
Proof.
  induction l as [|c r IH]; [reflexivity|].
  rewrite reverse_cons, forallb_app, IH. simpl.
  rewrite andb_true_r. apply andb_comm.
Qed.

Lemma strip_chars_upper (l : list ascii) :
  forallb is_upper l = true -> strip_chars l = l.
Proof.
  intros Hl. unfold strip_chars.
  rewrite (lstrip_chars_upper l Hl).
  rewrite lstrip_chars_upper by (rewrite forallb_reverse; exact Hl).
  apply reverse_involutive.
Qed.

Lemma upper_chars_upper (l : list ascii) :
  forallb is_upper l = true -> upper_char <$> l = l.
Proof.
  induction l as [|c r IH]; simpl; [reflexivity|].
  intros [Hc Hr]%andb_prop. apply upper_is_not_space in Hc as [_ ->].
  f_equal. exact (IH Hr).
Qed.

(** A text that already is one to five capitals is its own normal form. *)
Lemma letters_normal (s : string) :
  letters_1_5 s = true -> upper (strip s) = s.
Proof.
  unfold letters_1_5, letters_1_5_chars, upper, strip.
  intros [_ Hl]%andb_prop.
  rewrite list_ascii_of_string_of_list_ascii, (strip_chars_upper _ Hl).
  rewrite (upper_chars_upper _ Hl). apply string_of_list_ascii_of_string.
Qed.

Lemma letters_nonempty (s : string) : letters_1_5 s = true -> s <> "".
Proof. intros Hs ->. discriminate Hs. Qed.

(** After [strip] and [upper] no line feed ends the text, so the pattern
    accepts exactly the texts of one to five capitals. *)
Lemma re_match_normalized (raw : string) :
  re_match_ticker (upper (strip raw)) = letters_1_5 (upper (strip raw)).
Proof.
  unfold re_match_ticker.
  destruct (reverse (list_ascii_of_string (upper (strip raw)))) as [|c r] eqn:E.
  { apply orb_false_r. }
  unfold upper, strip in E.
  rewrite !list_ascii_of_string_of_list_ascii, <- fmap_reverse in E.
  pose proof (strip_chars_last (list_ascii_of_string raw)) as Hlast.
  destruct (reverse (strip_chars (list_ascii_of_string raw))) as [|c0 r0];
    [discriminate E|].
  simpl in E. injection E as <- _.
  apply upper_char_not_newline in Hlast.
  apply Ascii.eqb_neq in Hlast. rewrite Hlast. apply orb_false_r.
Qed.

Lemma single_line_match (s : string) :
  single_line s -> re_match_ticker s = letters_1_5 s.
Proof.
  unfold single_line, re_match_ticker. intros Hs.
  destruct (reverse (list_ascii_of_string s)) as [|c r] eqn:E.
  { apply orb_false_r. }
  assert (c <> newline) as Hc.
  { intros ->. apply Hs. apply elem_of_reverse. rewrite E. left. }
  apply Ascii.eqb_neq in Hc. rewrite Hc. apply orb_false_r.
Qed.

End TextFacts.

(** ** Containers *)

Module DictFacts.
Section Facts.
Context {V : Type}.
Implicit Types (d : list (string * V)) (k : string) (v : V).

Lemma mem_true k d : Dict.mem k d = true <-> k ∈ Dict.keys d.
Proof. unfold Dict.mem. apply bool_decide_eq_true. Qed.

Lemma mem_false k d : Dict.mem k d = false <-> k ∉ Dict.keys d.
Proof. unfold Dict.mem. apply bool_decide_eq_false. Qed.

Lemma get_none k d : Dict.get k d = None <-> k ∉ Dict.keys d.
Proof.
  induction d as [|[k' v'] r IH]; simpl.
  - split; [intros _; apply not_elem_of_nil | reflexivity].
  - destruct (decide (k = k')) as [->|Hne].
    + split; [discriminate | intros Hn; exfalso; apply Hn; left].
    + rewrite IH, not_elem_of_cons. tauto.
Qed.

Lemma get_some_elem k v d : Dict.get k d = Some v -> (k, v) ∈ d.
Proof.
  induction d as [|[k' v'] r IH]; simpl; [discriminate|].
  destruct (decide (k = k')) as [->|Hne].
  - intros [= ->]. left.
  - intros Hg. right. exact (IH Hg).
Qed.

Lemma elem_get k v d : Dict.wf d -> (k, v) ∈ d -> Dict.get k d = Some v.
Proof.
  unfold Dict.wf, Dict.keys.
  induction d as [|[k' v'] r IH]; simpl; intros Hwf Hin.
  - inversion Hin.
  - apply NoDup_cons in Hwf as [Hk' Hr].
    apply elem_of_cons in Hin as [[= -> ->]|Hin].
    + rewrite decide_True by reflexivity. reflexivity.
    + destruct (decide (k = k')) as [->|Hne].
      * exfalso. apply Hk'. apply list_elem_of_fmap. exists (k', v). split; [reflexivity | exact Hin].
      * exact (IH Hr Hin).
Qed.

(** Storing under a new key appends; under a present key it keeps the keys. *)
Lemma set_fresh k v d : k ∉ Dict.keys d -> Dict.set k v d = d ++ [(k, v)].
Proof.
  induction d as [|[k' v'] r IH]; simpl; [reflexivity|].
  intros [Hne Hr]%not_elem_of_cons.
  rewrite decide_False by exact Hne. f_equal. exact (IH Hr).
Qed.

Lemma keys_set_present k v d : k ∈ Dict.keys d -> Dict.keys (Dict.set k v d) = Dict.keys d.
Proof.
  induction d as [|[k' v'] r IH]; simpl; [intros Hin; inversion Hin|].
  intros Hin. destruct (decide (k = k')) as [->|Hne]; [reflexivity|].
  simpl. f_equal. apply IH. apply elem_of_cons in Hin as [?|?]; [contradiction | assumption].
Qed.

Lemma keys_del k d : Dict.keys (Dict.del k d) = PyList.remove k (Dict.keys d).
Proof.
  induction d as [|[k' v'] r IH]; simpl; [reflexivity|].
  destruct (decide (k = k')); [reflexivity|]. simpl. f_equal. exact IH.
Qed.

Lemma keys_app d d' : Dict.keys (d ++ d') = Dict.keys d ++ Dict.keys d'.
Proof. unfold Dict.keys. apply fmap_app. Qed.

Lemma values_app d d' : Dict.values (d ++ d') = Dict.values d ++ Dict.values d'.
Proof. unfold Dict.values. apply fmap_app. Qed.

(** A comprehension over distinct keys lists them in order. *)
Lemma comprehension_fold (f : string -> V) (l : list string) d :
  NoDup (Dict.keys d ++ l) ->
  fold_left (fun d k => Dict.set k (f k) d) l d = d ++ ((fun k => (k, f k)) <$> l).
Proof.
  revert d. induction l as [|k r IH]; intros d Hnd; simpl.
  - symmetry. apply app_nil_r.
  - assert (k ∉ Dict.keys d) as Hk.
    { apply NoDup_app in Hnd as (_ & Hd & _). intros Hin. apply (Hd _ Hin). left. }
    rewrite (set_fresh _ _ _ Hk), IH.
    + rewrite <- app_assoc. reflexivity.
    + rewrite keys_app. simpl. rewrite <- app_assoc. exact Hnd.
Qed.

Lemma comprehension_nodup (f : string -> V) (l : list string) :
  NoDup l -> Dict.comprehension f l = (fun k => (k, f k)) <$> l.
Proof. intros Hl. unfold Dict.comprehension. rewrite comprehension_fold; [reflexivity | exact Hl]. Qed.

Lemma keys_set_elem k v d k' :
  k' ∈ Dict.keys (Dict.set k v d) <-> k' = k \/ k' ∈ Dict.keys d.
Proof.
  induction d as [|[k0 v0] r IH]; simpl.
  - rewrite list_elem_of_singleton. split; [intros ->; left; reflexivity|].
    intros [->|Hin]; [reflexivity | inversion Hin].
  - destruct (decide (k = k0)) as [->|Hne]; simpl.
    + rewrite !elem_of_cons. tauto.
    + rewrite !elem_of_cons, IH. tauto.
Qed.

(** Whatever the list, a comprehension has exactly its elements as keys. *)
Lemma comprehension_keys_elem (f : string -> V) (l : list string) k :
  k ∈ Dict.keys (Dict.comprehension f l) <-> k ∈ l.
Proof.
  unfold Dict.comprehension.
  assert (forall d, k ∈ Dict.keys (fold_left (fun d k => Dict.set k (f k) d) l d)
                    <-> k ∈ Dict.keys d \/ k ∈ l) as Hgen.
  { induction l as [|k0 r IH]; intros d; simpl.
    - split; [intros ?; left; assumption | intros [?|Hin]; [assumption | inversion Hin]].
    - rewrite IH, keys_set_elem, elem_of_cons. tauto. }
  rewrite Hgen. simpl. split; [intros [Hin|?]; [inversion Hin | assumption] | intros ?; right; assumption].
Qed.

Lemma wf_set k v d : Dict.wf d -> Dict.wf (Dict.set k v d).
Proof.
  unfold Dict.wf. intros Hwf. destruct (decide (k ∈ Dict.keys d)) as [Hin|Hnin].
  - rewrite keys_set_present by exact Hin. exact Hwf.
  - rewrite set_fresh by exact Hnin. rewrite keys_app. simpl.
    apply NoDup_app. split; [exact Hwf|]. split; [|apply NoDup_singleton].
    intros x Hx ->%list_elem_of_singleton. contradiction.
Qed.

Lemma comprehension_wf (f : string -> V) (l : list string) :
  Dict.wf (Dict.comprehension f l).
Proof.
  unfold Dict.comprehension.
  assert (forall d, Dict.wf d -> Dict.wf (fold_left (fun d k => Dict.set k (f k) d) l d)) as Hgen.
  { induction l as [|k r IH]; intros d Hd; simpl; [exact Hd|]. apply IH, wf_set, Hd. }
  apply Hgen. apply NoDup_nil_2.
Qed.

End Facts.

Lemma remove_absent (x : string) (l : list string) : x ∉ l -> PyList.remove x l = l.
Proof.
  induction l as [|y r IH]; simpl; [reflexivity|].
  intros [Hne Hr]%not_elem_of_cons. rewrite decide_False by exact Hne.
  f_equal. exact (IH Hr).
Qed.

Lemma elem_of_remove (x y : string) (l : list string) :
  NoDup l -> (y ∈ PyList.remove x l <-> y ∈ l /\ y <> x).
Proof.
  induction l as [|z r IH]; simpl; intros Hnd.
  - split; [intros Hin; inversion Hin | intros [Hin _]; inversion Hin].
  - apply NoDup_cons in Hnd as [Hz Hr]. destruct (decide (x = z)) as [->|Hne].
    + rewrite elem_of_cons. split.
      * intros Hin. split; [right; exact Hin|]. intros ->. contradiction.
      * intros [[->|Hin] Hne]; [contradiction | exact Hin].
    + rewrite !elem_of_cons, (IH Hr). split.
      * intros [->|[Hin Hyx]]; split; auto.
      * intros [[->|Hin] Hyx]; auto.
Qed.

Lemma NoDup_remove (x : string) (l : list string) : NoDup l -> NoDup (PyList.remove x l).
Proof.
  induction l as [|z r IH]; simpl; intros Hnd; [exact Hnd|].
  apply NoDup_cons in Hnd as [Hz Hr]. destruct (decide (x = z)); [exact Hr|].
  apply NoDup_cons. split; [|exact (IH Hr)].
  intros Hin. apply (elem_of_remove x z r Hr) in Hin as [Hin _]. contradiction.
Qed.

Lemma Forall_remove (P : string -> Prop) (x : string) (l : list string) :
  Forall P l -> Forall P (PyList.remove x l).
Proof.
  induction 1 as [|z r Hz Hr IH]; simpl; [constructor|].
  destruct (decide (x = z)); [exact Hr | constructor; assumption].
Qed.

End DictFacts.

(** ** Exact arithmetic *)

Module QcFacts.
Local Open Scope Qc_scope.

Lemma eqb_eq (x y : Qc) : eqb x y = true <-> x = y.
Proof.
  simpl. unfold Qc_eq_bool. destruct (Qcanon.Qc_eq_dec x y); split; congruence.
Qed.

Lemma eqb_neq (x y : Qc) : eqb x y = false <-> x <> y.
Proof.
  simpl. unfold Qc_eq_bool. destruct (Qcanon.Qc_eq_dec x y); split; congruence.
Qed.

Lemma of_nat_0 : of_nat 0 = 0.
Proof. reflexivity. Qed.

Lemma of_nat_S (n : nat) : of_nat (S n) = of_nat n + 1.
Proof.
  simpl. unfold Qc_of_nat, Qcplus. apply Q2Qc_eq_iff.
  cbn [this Q2Qc]. rewrite Qred_correct, Nat2Z.inj_succ, <- Z.add_1_r, inject_Z_plus.
  reflexivity.
Qed.

Lemma of_nat_nonneg (n : nat) : 0 <= of_nat n.
Proof.
  induction n as [|n IH]; [apply Qcle_refl|].
  rewrite of_nat_S. rewrite <- (Qcplus_0_r 0).
  apply Qcplus_le_compat; [exact IH | discriminate].
Qed.

Lemma of_nat_S_neq_0 (n : nat) : of_nat (S n) <> 0.
Proof.
  rewrite of_nat_S. intros Heq.
  pose proof (of_nat_nonneg n) as Hn.
  assert (of_nat n = - (1)) as Hm.
  { rewrite <- (Qcplus_0_l (- (1))), <- Heq. ring. }
  rewrite Hm in Hn. apply Qcle_not_lt in Hn. apply Hn. reflexivity.
Qed.

Lemma of_nat_100_neq_0 : of_nat 100 <> 0.
Proof. apply (of_nat_S_neq_0 99). Qed.

Lemma sum_from (l : list Qc) (a : Qc) :
  fold_left Qcplus l a = a + fold_left Qcplus l 0.
Proof.
  revert a. induction l as [|x r IH]; intros a; simpl.
  - ring.
  - rewrite (IH (a + x)), (IH (0 + x)). ring.
Qed.

Lemma sum_nil : PyList.sum (W:=Qc) [] = 0.
Proof. reflexivity. Qed.

Lemma sum_cons (x : Qc) (l : list Qc) : PyList.sum (x :: l) = x + PyList.sum l.
Proof.
  change (fold_left Qcplus l (0 + x) = x + fold_left Qcplus l 0).
  rewrite sum_from. ring.
Qed.

Lemma sum_app (l l' : list Qc) : PyList.sum (l ++ l') = PyList.sum l + PyList.sum l'.
Proof.
  induction l as [|x r IH]; simpl.
  - rewrite sum_nil. ring.
  - rewrite !sum_cons, IH. ring.
Qed.

Lemma sum_scale (c : Qc) (l : list Qc) :
  PyList.sum ((fun v => v * c) <$> l) = PyList.sum l * c.
Proof.
  induction l as [|x r IH].
  - rewrite fmap_nil, sum_nil. ring.
  - rewrite fmap_cons, !sum_cons, IH. ring.
Qed.

Lemma sum_const {A : Type} (c : Qc) (l : list A) :
  PyList.sum ((fun _ => c) <$> l) = of_nat (length l) * c.
Proof.
  induction l as [|x r IH].
  - rewrite fmap_nil, sum_nil. cbn [length]. rewrite of_nat_0. ring.
  - rewrite fmap_cons, sum_cons, IH. cbn [length]. rewrite of_nat_S. ring.
Qed.

End QcFacts.

(** ** app_v3.py: the registry and the weight table *)

Module V3Facts.
Import AppV3.

(** The text a row commits: its widget value, stripped and upper-cased. *)
Definition committed {W : Type} (s : session W) (i : nat) : string :=
  Text.upper (Text.strip (ticker_ s i)).

(** The registry list and the weight table agree: same Symbols, same order,
    no duplicates. *)
Record registry_ok {W : Type} (s : session W) : Prop := {
  reg_nodup : NoDup (valid_tickers s);
  reg_keys : Dict.keys (weights s) = valid_tickers s;
  reg_symbols : Forall (fun t => Text.letters_1_5 t = true) (valid_tickers s)
}.

(** The rows agree with the tables: what was stored for a row is what the row
    shows now, an enabled row with a valid text is registered, and the text
    fields hold single lines. *)
Record slots_ok {W : Type} (s : session W) : Prop := {
  slot_stored : forall i, stored_value i s = committed s i;
  slot_data : forall i d, ticker_data s !! i = Some d ->
    d = {| ts_enabled := enable_ s i; ts_value := committed s i;
           ts_valid := if enable_ s i then validate_ticker (committed s i) else false |};
  slot_listed : forall i,
    enable_ s i = true -> validate_ticker (committed s i) = true ->
    committed s i ∈ valid_tickers s;
  slot_line : forall i, Text.single_line (ticker_ s i)
}.

Section Structure.
Context {W : Type} `{Arith W}.
Implicit Types (s : session W) (w : list (string * W)).

(** The table [normalize_weights] leaves, as a function of the two tables it
    reads. *)
Definition renormalize (valid : list string) w : list (string * W) :=
  weights (normalize_weights (set_valid_tickers valid (set_weights w init))).

Lemma normalize_renormalize s :
  weights (normalize_weights s) = renormalize (valid_tickers s) (weights s).
Proof.
  unfold renormalize, normalize_weights. simpl.
  destruct (eqb _ _); reflexivity.
Qed.

Lemma normalize_set_weights s :
  normalize_weights s = set_weights (weights (normalize_weights s)) s.
Proof. unfold normalize_weights. destruct (eqb _ _); reflexivity. Qed.

Lemma keys_rescale (total : W) w : Dict.keys (rescale total w) = Dict.keys w.
Proof.
  unfold rescale, Dict.keys. rewrite <- list_fmap_compose.
  apply list_fmap_ext. intros _ [k v] _. reflexivity.
Qed.

Lemma values_rescale (total : W) w :
  Dict.values (rescale total w) =
  (fun v => mul (div v total) (of_nat 100)) <$> Dict.values w.
Proof.
  unfold rescale, Dict.values. rewrite <- !list_fmap_compose.
  apply list_fmap_ext. intros _ [k v] _. reflexivity.
Qed.

Lemma del_absent (k : string) w : k ∉ Dict.keys w -> Dict.del k w = w.
Proof.
  induction w as [|[k' v'] r IH]; simpl; [reflexivity|].
  intros [Hne Hr]%not_elem_of_cons. rewrite decide_False by exact Hne.
  f_equal. exact (IH Hr).
Qed.

(** [normalize_weights] touches the weight table only. *)
Lemma normalize_frame s :
  let s' := normalize_weights s in
  ticker_ s' = ticker_ s /\ enable_ s' = enable_ s /\
  ticker_data s' = ticker_data s /\ valid_tickers s' = valid_tickers s.
Proof.
  unfold normalize_weights.
  destruct (eqb _ _); simpl; repeat split; reflexivity.
Qed.

Lemma normalize_valid_tickers s :
  valid_tickers (normalize_weights s) = valid_tickers s.
Proof. apply normalize_frame. Qed.

Lemma normalize_keys s :
  NoDup (valid_tickers s) -> Dict.keys (weights s) = valid_tickers s ->
  Dict.keys (weights (normalize_weights s)) = valid_tickers s.
Proof.
  intros Hnd Hk. unfold normalize_weights.
  destruct (eqb _ _); simpl.
  - rewrite DictFacts.comprehension_nodup by exact Hnd.
    unfold Dict.keys. rewrite <- list_fmap_compose. apply list_fmap_id.
  - rewrite keys_rescale. exact Hk.
Qed.

Lemma normalize_registry s : registry_ok s -> registry_ok (normalize_weights s).
Proof.
  intros [Hnd Hk Hs]. split; rewrite ?normalize_valid_tickers; try assumption.
  apply normalize_keys; assumption.
Qed.

(** What [clear_changed] does to the two tables, branch by branch. *)
Lemma clear_changed_tables (index : nat) (ticker : string) s :
  let s' := clear_changed index ticker s in
  ticker_ s' = ticker_ s /\ enable_ s' = enable_ s /\
  ticker_data s' = ticker_data s /\
  valid_tickers s' =
    (if bool_decide (ticker = stored_value index s) then valid_tickers s
     else PyList.remove ticker (valid_tickers s)) /\
  weights s' =
    (if bool_decide (ticker = stored_value index s) then weights s
     else Dict.del ticker (weights s)).
Proof.
  unfold clear_changed.
  destruct (bool_decide (ticker = stored_value index s)); simpl;
    [repeat split; reflexivity|].
  destruct (bool_decide (ticker ∈ valid_tickers s)) eqn:Hv;
    destruct (Dict.mem ticker (weights _)) eqn:Hw; simpl in *;
    repeat split; try reflexivity.
  - symmetry. apply del_absent. apply DictFacts.mem_false. exact Hw.
  - symmetry. apply DictFacts.remove_absent. apply bool_decide_eq_false in Hv. exact Hv.
  - symmetry. apply DictFacts.remove_absent. apply bool_decide_eq_false in Hv. exact Hv.
  - symmetry. apply del_absent. apply DictFacts.mem_false. exact Hw.
Qed.

Lemma clear_changed_registry (index : nat) (ticker : string) s :
  registry_ok s -> registry_ok (clear_changed index ticker s).
Proof.
  intros [Hnd Hk Hs].
  destruct (clear_changed_tables index ticker s) as (_ & _ & _ & Hv & Hw).
  split; rewrite ?Hv, ?Hw; destruct (bool_decide _); try assumption.
  - apply DictFacts.NoDup_remove, Hnd.
  - rewrite DictFacts.keys_del, Hk. reflexivity.
  - apply DictFacts.Forall_remove, Hs.
Qed.

(** What [validate_new] does when it accepts, on a consistent registry. *)
Lemma validate_new_tables (enabled : bool) (ticker : string) s :
  Dict.keys (weights s) = valid_tickers s ->
  let accepted := enabled && negb (bool_decide (ticker = "")) && validate_ticker ticker in
  let s' := (validate_new enabled ticker s).1 in
  ticker_ s' = ticker_ s /\ enable_ s' = enable_ s /\
  ticker_data s' = ticker_data s /\
  valid_tickers s' =
    (if accepted && negb (bool_decide (ticker ∈ valid_tickers s))
     then valid_tickers s ++ [ticker] else valid_tickers s) /\
  weights s' =
    (if accepted && negb (bool_decide (ticker ∈ valid_tickers s))
     then weights s ++ [(ticker, of_nat 0)] else weights s).
Proof.
  intros Hk. unfold validate_new.
  destruct (enabled && negb (bool_decide (ticker = ""))); simpl;
    [|repeat split; reflexivity].
  destruct (validate_ticker ticker); simpl; [|repeat split; reflexivity].
  unfold Dict.mem.
  destruct (bool_decide (ticker ∈ valid_tickers s)) eqn:Hv; simpl.
  - rewrite Hk, Hv. simpl. repeat split; reflexivity.
  - rewrite Hk, Hv. simpl. repeat split; try reflexivity.
    apply DictFacts.set_fresh. rewrite Hk. apply bool_decide_eq_false in Hv. exact Hv.
Qed.

Lemma validate_new_registry (enabled : bool) (ticker : string) s :
  (validate_ticker ticker = true -> Text.letters_1_5 ticker = true) ->
  registry_ok s -> registry_ok (validate_new enabled ticker s).1.
Proof.
  intros Hsym [Hnd Hk Hs].
  destruct (validate_new_tables enabled ticker s Hk) as (_ & _ & _ & Hv & Hw).
  split; rewrite ?Hv, ?Hw.
  - destruct (_ && negb _) eqn:E; [|exact Hnd].
    apply andb_prop in E as [_ Hn]. apply negb_true_iff, bool_decide_eq_false in Hn.
    apply NoDup_app. split; [exact Hnd|]. split; [|apply NoDup_singleton].
    intros x Hx ->%list_elem_of_singleton. contradiction.
  - destruct (_ && negb _); [|exact Hk].
    rewrite DictFacts.keys_app, Hk. reflexivity.
  - destruct (_ && negb _) eqn:E; [|exact Hs].
    apply andb_prop in E as [[_ Hval]%andb_prop _].
    apply Forall_app. split; [exact Hs|]. apply Forall_singleton. exact (Hsym Hval).
Qed.

Lemma validate_committed s i :
  validate_ticker (committed s i) = Text.letters_1_5 (committed s i).
Proof. apply TextFacts.re_match_normalized. Qed.

(** [handle_ticker_change] keeps the registry list and the weight table in
    step, whatever the row and the widget values. *)
Lemma handle_registry (index : nat) s :
  registry_ok s -> registry_ok (handle_ticker_change index s).1.
Proof.
  intros Hs. unfold handle_ticker_change.
  pose proof (clear_changed_registry index (committed s index) s Hs) as H1.
  pose proof (validate_new_registry (enable_ s index) (committed s index) _
                ltac:(rewrite validate_committed; tauto) H1) as H2.
  fold (committed s index).
  destruct (validate_new _ _ _) as [s2 errors]. simpl in *.
  apply normalize_registry. destruct H2 as [Hnd Hk Hsym]. split; assumption.
Qed.

(** The frame of [handle_ticker_change]: widget values stay, and of
    [ticker_data] only the entry of the row changes. *)
Lemma handle_frame (index : nat) s :
  let s' := (handle_ticker_change index s).1 in
  ticker_ s' = ticker_ s /\ enable_ s' = enable_ s /\
  ticker_data s' =
    <[index := {| ts_enabled := enable_ s index; ts_value := committed s index;
                  ts_valid := if enable_ s index
                              then validate_ticker (committed s index) else false |}]>
      (ticker_data s).
Proof.
  unfold handle_ticker_change. fold (committed s index).
  destruct (clear_changed_tables index (committed s index) s) as (Ht & He & Hd & _ & _).
  set (s1 := clear_changed index (committed s index) s) in *.
  assert (ticker_ (validate_new (enable_ s index) (committed s index) s1).1 = ticker_ s1
          /\ enable_ (validate_new (enable_ s index) (committed s index) s1).1 = enable_ s1
          /\ ticker_data (validate_new (enable_ s index) (committed s index) s1).1
             = ticker_data s1) as (Ht2 & He2 & Hd2).
  { unfold validate_new.
    destruct (_ && negb _); [|repeat split; reflexivity].
    destruct (validate_ticker _); [|repeat split; reflexivity].
    destruct (negb (bool_decide _)); destruct (negb (Dict.mem _ _));
      repeat split; reflexivity. }
  destruct (validate_new _ _ s1) as [s2 errors]. simpl in *.
  destruct (normalize_frame (store_ticker_state index (enable_ s index) (committed s index) s2))
    as (Ht3 & He3 & Hd3 & _).
  rewrite Ht3, He3, Hd3. simpl. rewrite Ht2, He2, Hd2, Ht, He, Hd.
  repeat split; reflexivity.
Qed.

(** The registry list after [handle_ticker_change]. *)
Lemma handle_valid_tickers (index : nat) s :
  Dict.keys (weights s) = valid_tickers s ->
  let ticker := committed s index in
  let cleared :=
    if bool_decide (ticker = stored_value index s) then valid_tickers s
    else PyList.remove ticker (valid_tickers s) in
  valid_tickers (handle_ticker_change index s).1 =
    if enable_ s index && negb (bool_decide (ticker = "")) && validate_ticker ticker
       && negb (bool_decide (ticker ∈ cleared))
    then cleared ++ [ticker] else cleared.
Proof.
  intros Hk. unfold handle_ticker_change. fold (committed s index).
  destruct (clear_changed_tables index (committed s index) s) as (_ & _ & _ & Hv & Hw).
  set (s1 := clear_changed index (committed s index) s) in *.
  assert (Dict.keys (weights s1) = valid_tickers s1) as Hk1.
  { rewrite Hv, Hw. destruct (bool_decide _); [exact Hk|].
    rewrite DictFacts.keys_del, Hk. reflexivity. }
  destruct (validate_new_tables (enable_ s index) (committed s index) s1 Hk1)
    as (_ & _ & _ & Hv2 & _).
  destruct (validate_new _ _ s1) as [s2 errors]. simpl in *.
  rewrite normalize_valid_tickers. simpl. rewrite Hv2, Hv. reflexivity.
Qed.

Lemma stored_value_handle (index j : nat) s :
  stored_value j (handle_ticker_change index s).1 =
    if decide (j = index) then committed s index else stored_value j s.
Proof.
  destruct (handle_frame index s) as (_ & _ & Hd).
  unfold stored_value. rewrite Hd.
  destruct (decide (j = index)) as [->|Hne].
  - rewrite lookup_insert_eq. reflexivity.
  - rewrite lookup_insert_ne by congruence. reflexivity.
Qed.

Lemma committed_handle (index j : nat) s :
  committed (handle_ticker_change index s).1 j = committed s j.
Proof.
  destruct (handle_frame index s) as (Ht & _ & _).
  unfold committed. rewrite Ht. reflexivity.
Qed.

(** The rows stay consistent with the tables when the callback runs for a row
    whose stored text is current (a toggle) or that is enabled (an edit). *)
Lemma handle_slots (index : nat) s :
  registry_ok s ->
  (forall j, j <> index -> stored_value j s = committed s j) ->
  (forall j d, j <> index -> ticker_data s !! j = Some d ->
     d = {| ts_enabled := enable_ s j; ts_value := committed s j;
            ts_valid := if enable_ s j then validate_ticker (committed s j) else false |}) ->
  (forall j, j <> index -> enable_ s j = true ->
     validate_ticker (committed s j) = true -> committed s j ∈ valid_tickers s) ->
  (forall j, Text.single_line (ticker_ s j)) ->
  stored_value index s = committed s index \/ enable_ s index = true ->
  slots_ok (handle_ticker_change index s).1.
Proof.
  intros [Hnd Hk Hsym] Hst Hda Hli Hln Hcase.
  pose proof (handle_valid_tickers index s Hk) as Hv. cbv zeta in Hv.
  destruct (handle_frame index s) as (Ht & He & Hd).
  split.
  - intros j. rewrite stored_value_handle, committed_handle.
    destruct (decide (j = index)) as [->|Hne]; [reflexivity | exact (Hst j Hne)].
  - intros j d. rewrite committed_handle, He, Hd.
    destruct (decide (j = index)) as [->|Hne].
    + rewrite lookup_insert_eq. intros [= <-]. reflexivity.
    + rewrite lookup_insert_ne by congruence. apply Hda, Hne.
  - intros j. rewrite committed_handle, He, Hv. intros Hen Hval.
    set (t := committed s index) in *.
    set (cleared := if bool_decide (t = stored_value index s) then valid_tickers s
                    else PyList.remove t (valid_tickers s)) in *.
    assert (committed s j <> "") as Hne0.
    { apply TextFacts.letters_nonempty. rewrite <- validate_committed. exact Hval. }
    assert (forall x, x ∈ cleared ->
              x ∈ (if enable_ s index && negb (bool_decide (t = "")) && validate_ticker t
                      && negb (bool_decide (x ∈ cleared))
                   then cleared ++ [x] else cleared)) as Hkeep.
    { intros x Hx. rewrite (bool_decide_eq_true_2 _ Hx), andb_false_r. exact Hx. }
    assert (enable_ s index = true -> validate_ticker t = true -> t <> "" ->
            t ∈ (if enable_ s index && negb (bool_decide (t = "")) && validate_ticker t
                    && negb (bool_decide (t ∈ cleared))
                 then cleared ++ [t] else cleared)) as Hadd.
    { intros -> -> Hn. rewrite (bool_decide_eq_false_2 _ Hn). simpl.
      destruct (bool_decide (t ∈ cleared)) eqn:E; simpl.
      - apply bool_decide_eq_true in E. exact E.
      - apply elem_of_app. right. left. }
    destruct (decide (j = index)) as [->|Hji].
    + fold t in Hval, Hne0 |- *. apply Hadd; assumption.
    + pose proof (Hli j Hji Hen Hval) as Hin.
      destruct (decide (committed s j = t)) as [Heq|Hneq].
      * rewrite Heq in *. destruct Hcase as [Hsame|Hon].
        -- assert (cleared = valid_tickers s) as Hc.
           { unfold cleared. rewrite bool_decide_eq_true_2 by (symmetry; exact Hsame).
             reflexivity. }
           apply Hkeep. rewrite Hc. exact Hin.
        -- apply Hadd; assumption.
      * assert (committed s j ∈ cleared) as Hc.
        { unfold cleared. destruct (bool_decide _); [exact Hin|].
          apply DictFacts.elem_of_remove; [exact Hnd | split; assumption]. }
        destruct (_ && negb (bool_decide (t ∈ cleared))); [|exact Hc].
        apply elem_of_app. left. exact Hc.
  - intros j. rewrite Ht. apply Hln.
Qed.

(** [slots_ok] does not read the weight table. *)
Lemma slots_ok_frame s s' :
  ticker_ s' = ticker_ s -> enable_ s' = enable_ s ->
  ticker_data s' = ticker_data s -> valid_tickers s' = valid_tickers s ->
  slots_ok s -> slots_ok s'.
Proof.
  intros Ht He Hd Hv [Hst Hda Hli Hln].
  split; unfold committed, stored_value in *; rewrite ?Ht, ?He, ?Hd, ?Hv; assumption.
Qed.

(** A weight input is only shown for a registered Symbol, so storing its value
    adds no key. *)
Lemma weight_row_registry (weight_ : string -> W) s (i : nat) :
  registry_ok s -> slots_ok s -> registry_ok (weight_row weight_ s i).
Proof.
  intros [Hnd Hk Hsym] [Hst Hda Hli Hln]. unfold weight_row.
  destruct (enable_ s i) eqn:Hen; simpl; [|split; assumption].
  destruct (bool_decide (ticker_ s i = "")); simpl; [split; assumption|].
  destruct (validate_ticker (ticker_ s i)) eqn:Hval; [|split; assumption].
  unfold validate_ticker in Hval.
  rewrite (TextFacts.single_line_match _ (Hln i)) in Hval.
  assert (committed s i = ticker_ s i) as Hc by (apply TextFacts.letters_normal, Hval).
  assert (ticker_ s i ∈ valid_tickers s) as Hin.
  { rewrite <- Hc. apply Hli; [exact Hen|]. rewrite validate_committed, Hc. exact Hval. }
  split; simpl; [exact Hnd | | exact Hsym].
  rewrite DictFacts.keys_set_present; [exact Hk | rewrite Hk; exact Hin].
Qed.

Lemma weight_row_frame (weight_ : string -> W) s (i : nat) :
  let s' := weight_row weight_ s i in
  ticker_ s' = ticker_ s /\ enable_ s' = enable_ s /\
  ticker_data s' = ticker_data s /\ valid_tickers s' = valid_tickers s.
Proof.
  unfold weight_row. destruct (_ && _); simpl; repeat split; reflexivity.
Qed.

Lemma shows_weight_frame s s' (i : nat) :
  ticker_ s' = ticker_ s -> enable_ s' = enable_ s ->
  shows_weight s' i = shows_weight s i.
Proof. intros Ht He. unfold shows_weight. rewrite Ht, He. reflexivity. Qed.

Lemma weight_rows_from_frame (weight_ : string -> W) (rows : list nat)
  (drawn : list string) s :
  let s' := (weight_rows_from weight_ rows drawn s).1 in
  ticker_ s' = ticker_ s /\ enable_ s' = enable_ s /\
  ticker_data s' = ticker_data s /\ valid_tickers s' = valid_tickers s.
Proof.
  revert drawn s. induction rows as [|i r IH]; intros drawn s; simpl;
    [repeat split; reflexivity|].
  destruct (shows_weight s i); [|apply IH].
  destruct (bool_decide (ticker_ s i ∈ drawn)); [repeat split; reflexivity|].
  destruct (IH (ticker_ s i :: drawn) (weight_row weight_ s i)) as (Ht & He & Hd & Hv).
  destruct (weight_row_frame weight_ s i) as (Ht' & He' & Hd' & Hv').
  rewrite Ht, He, Hd, Hv. repeat split; assumption.
Qed.

Lemma weight_rows_from_ok (weight_ : string -> W) (rows : list nat)
  (drawn : list string) s :
  registry_ok s -> slots_ok s ->
  registry_ok (weight_rows_from weight_ rows drawn s).1 /\
  slots_ok (weight_rows_from weight_ rows drawn s).1.
Proof.
  revert drawn s. induction rows as [|i r IH]; intros drawn s Hr Hs; simpl;
    [split; assumption|].
  destruct (shows_weight s i); [|apply IH; assumption].
  destruct (bool_decide (ticker_ s i ∈ drawn)); [split; assumption|].
  destruct (weight_row_frame weight_ s i) as (Ht & He & Hd & Hv).
  apply IH.
  - apply weight_row_registry; assumption.
  - exact (slots_ok_frame s _ Ht He Hd Hv Hs).
Qed.

Lemma weight_rows_ok (weight_ : string -> W) s :
  registry_ok s -> slots_ok s ->
  registry_ok (weight_rows weight_ s).1 /\ slots_ok (weight_rows weight_ s).1.
Proof. apply weight_rows_from_ok. Qed.

Lemma weight_rows_frame (weight_ : string -> W) s :
  ticker_ (weight_rows weight_ s).1 = ticker_ s /\
  enable_ (weight_rows weight_ s).1 = enable_ s /\
  ticker_data (weight_rows weight_ s).1 = ticker_data s /\
  valid_tickers (weight_rows weight_ s).1 = valid_tickers s.
Proof. apply (weight_rows_from_frame weight_ (seq 0 5) [] s). Qed.

(** The rows come to their end exactly when no ticker is shown twice. *)
Lemma weight_rows_from_end (weight_ : string -> W) (rows : list nat)
  (drawn : list string) s :
  (weight_rows_from weight_ rows drawn s).2 = None <->
  NoDup (ticker_ s <$> filter (fun i => shows_weight s i = true) rows) /\
  (forall t, t ∈ ticker_ s <$> filter (fun i => shows_weight s i = true) rows ->
             t ∉ drawn).
Proof.
  revert drawn s. induction rows as [|i r IH]; intros drawn s; simpl.
  - split; [intros _; split; [constructor | intros t Ht; inversion Ht] | reflexivity].
  - destruct (shows_weight s i) eqn:Hshow.
    + rewrite filter_cons_True by exact Hshow. rewrite fmap_cons.
      destruct (decide (ticker_ s i ∈ drawn)) as [Hin|Hnin].
      * rewrite (bool_decide_eq_true_2 _ Hin). simpl. split; [discriminate|].
        intros [_ Hd]. exfalso. apply (Hd (ticker_ s i)); [left | exact Hin].
      * rewrite (bool_decide_eq_false_2 _ Hnin).
        destruct (weight_row_frame weight_ s i) as (Ht & He & _ & _).
        rewrite IH, Ht.
        assert (filter (fun j => shows_weight (weight_row weight_ s i) j = true) r
                = filter (fun j => shows_weight s j = true) r) as ->.
        { apply list_filter_iff. intros j. rewrite (shows_weight_frame s _ j Ht He).
          reflexivity. }
        rewrite NoDup_cons. split.
        -- intros [Hnd Hd]. split; [split; [|exact Hnd]|].
           ++ intros Hc. apply (Hd _ Hc). left.
           ++ intros t [->|Hin]%elem_of_cons; [exact Hnin|].
              intros Hc. apply (Hd _ Hin). right. exact Hc.
        -- intros [[Hfirst Hnd] Hd]. split; [exact Hnd|].
           intros t Hin [->|Hc]%elem_of_cons; [contradiction|].
           apply (Hd t); [right; exact Hin | exact Hc].
    + rewrite filter_cons_False by (rewrite Hshow; discriminate). apply IH.
Qed.

Lemma weight_rows_end (weight_ : string -> W) s :
  (weight_rows weight_ s).2 = None <-> NoDup (shown_tickers s).
Proof.
  unfold weight_rows, shown_tickers. rewrite weight_rows_from_end. split.
  - intros [Hnd _]. exact Hnd.
  - intros Hnd. split; [exact Hnd|]. intros t _. apply not_elem_of_nil.
Qed.

Lemma shown_tickers_frame s s' :
  ticker_ s' = ticker_ s -> enable_ s' = enable_ s ->
  shown_tickers s' = shown_tickers s.
Proof.
  intros Ht He. unfold shown_tickers. rewrite Ht. f_equal.
  apply list_filter_iff. intros j. rewrite (shows_weight_frame s s' j Ht He). reflexivity.
Qed.

Lemma main_area_ok s :
  registry_ok s -> slots_ok s -> registry_ok (main_area s) /\ slots_ok (main_area s).
Proof.
  intros Hr Hs. unfold main_area. destruct (valid_tickers s) eqn:E; [split; assumption|].
  destruct (normalize_frame s) as (Ht & He & Hd & Hv).
  split; [apply normalize_registry, Hr | exact (slots_ok_frame s _ Ht He Hd Hv Hs)].
Qed.

Lemma script_ok (weight_ : string -> W) s :
  registry_ok s -> slots_ok s ->
  registry_ok (script weight_ s) /\ slots_ok (script weight_ s).
Proof.
  intros Hr Hs. destruct (weight_rows_ok weight_ s Hr Hs) as [Hr' Hs'].
  unfold script. destruct (weight_rows weight_ s) as [s1 [e|]].
  - split; assumption.
  - apply main_area_ok; assumption.
Qed.

Lemma main_area_frame s :
  ticker_ (main_area s) = ticker_ s /\ enable_ (main_area s) = enable_ s /\
  ticker_data (main_area s) = ticker_data s /\ valid_tickers (main_area s) = valid_tickers s.
Proof.
  unfold main_area. destruct (valid_tickers s) eqn:E.
  - repeat split; try reflexivity. exact E.
  - destruct (normalize_frame s) as (Ht & He & Hd & Hv). rewrite Ht, He, Hd, Hv, E.
    repeat split; reflexivity.
Qed.

Lemma script_frame (weight_ : string -> W) s :
  ticker_ (script weight_ s) = ticker_ s /\ enable_ (script weight_ s) = enable_ s /\
  ticker_data (script weight_ s) = ticker_data s /\
  valid_tickers (script weight_ s) = valid_tickers s.
Proof.
  destruct (weight_rows_frame weight_ s) as (Ht & He & Hd & Hv).
  unfold script. destruct (weight_rows weight_ s) as [s1 [e|]]; simpl in *.
  - repeat split; assumption.
  - destruct (main_area_frame s1) as (Ht' & He' & Hd' & Hv').
    rewrite Ht', He', Hd', Hv'. repeat split; assumption.
Qed.

Lemma init_ok : registry_ok (W:=W) init /\ slots_ok (W:=W) init.
Proof.
  split; split; simpl.
  - apply NoDup_nil_2.
  - reflexivity.
  - apply Forall_nil_2.
  - intros i. reflexivity.
  - intros i d Hd. rewrite lookup_empty in Hd. discriminate Hd.
  - intros i _ Hv. discriminate Hv.
  - intros i. apply not_elem_of_nil.
Qed.

(** One step of the user interface keeps both consistency properties. *)
Lemma step_ok s s' :
  step s s' -> registry_ok s -> slots_ok s -> registry_ok s' /\ slots_ok s'.
Proof.
  intros Hstep Hr Hs. destruct Hs as [Hst Hda Hli Hln].
  destruct Hstep as [i b s _ | i raw s _ Hen Hraw | s | weight_ s].
  - assert (registry_ok (with_enable i b s)) as Hr0 by (destruct Hr; split; assumption).
    split; [apply handle_registry, Hr0|].
    apply handle_slots; [exact Hr0 | | | | exact Hln | left; apply Hst].
    + intros j _. apply Hst.
    + intros j d Hne. unfold committed. simpl.
      rewrite decide_False by exact Hne. apply Hda.
    + intros j Hne. unfold committed. simpl.
      rewrite decide_False by exact Hne. apply Hli.
  - assert (registry_ok (with_ticker i raw s)) as Hr0 by (destruct Hr; split; assumption).
    split; [apply handle_registry, Hr0|].
    apply handle_slots; [exact Hr0 | | | | | right; exact Hen].
    + intros j Hne. unfold committed, stored_value. simpl.
      rewrite decide_False by exact Hne. apply Hst.
    + intros j d Hne. unfold committed. simpl.
      rewrite decide_False by exact Hne. apply Hda.
    + intros j Hne. unfold committed. simpl.
      rewrite decide_False by exact Hne. apply Hli.
    + intros j. simpl. destruct (decide (j = i)); [exact Hraw | apply Hln].
  - destruct (normalize_frame s) as (Ht & He & Hd & Hv).
    split; [apply normalize_registry, Hr|].
    apply (slots_ok_frame s _ Ht He Hd Hv). split; assumption.
  - apply script_ok; [exact Hr | split; assumption].
Qed.

Lemma reachable_ok s : reachable s -> registry_ok s /\ slots_ok s.
Proof.
  induction 1 as [|s s' _ [Hr Hs] Hstep]; [apply init_ok|].
  exact (step_ok s s' Hstep Hr Hs).
Qed.

(** The weight table after [handle_ticker_change]. *)
Lemma handle_weights (index : nat) s :
  Dict.keys (weights s) = valid_tickers s ->
  weights (handle_ticker_change index s).1 =
    renormalize (valid_tickers (handle_ticker_change index s).1)
      (if enable_ s index && negb (bool_decide (committed s index = ""))
          && validate_ticker (committed s index)
          && negb (Dict.mem (committed s index)
                     (if bool_decide (committed s index = stored_value index s)
                      then weights s else Dict.del (committed s index) (weights s)))
       then (if bool_decide (committed s index = stored_value index s)
             then weights s else Dict.del (committed s index) (weights s))
            ++ [(committed s index, of_nat 0)]
       else (if bool_decide (committed s index = stored_value index s)
             then weights s else Dict.del (committed s index) (weights s))).
Proof.
  intros Hk. unfold handle_ticker_change. fold (committed s index).
  destruct (clear_changed_tables index (committed s index) s) as (_ & _ & _ & Hv & Hw).
  set (s1 := clear_changed index (committed s index) s) in *.
  assert (Dict.keys (weights s1) = valid_tickers s1) as Hk1.
  { rewrite Hv, Hw. destruct (bool_decide _); [exact Hk|].
    rewrite DictFacts.keys_del, Hk. reflexivity. }
  destruct (validate_new_tables (enable_ s index) (committed s index) s1 Hk1)
    as (_ & _ & _ & _ & Hw2).
  destruct (validate_new _ _ s1) as [s2 errors]. simpl in *.
  rewrite normalize_renormalize, normalize_valid_tickers. simpl.
  rewrite Hw2. unfold Dict.mem. rewrite <- Hw, Hk1. reflexivity.
Qed.

(** What [handle_ticker_change] reports through [st.error]. *)
Lemma handle_errors (index : nat) s :
  (handle_ticker_change index s).2 =
    if enable_ s index && negb (bool_decide (committed s index = ""))
    then (if validate_ticker (committed s index) then []
          else ["Invalid ticker format: " +:+ committed s index])
    else [].
Proof.
  unfold handle_ticker_change. fold (committed s index).
  unfold validate_new.
  destruct (enable_ s index && negb (bool_decide (committed s index = ""))); [|reflexivity].
  destruct (validate_ticker (committed s index)); reflexivity.
Qed.

End Structure.
End V3Facts.

(** ** app_v3.py in exact arithmetic: sums of the weight table *)

Module V3Exact.
Import AppV3 V3Facts.
Local Open Scope Qc_scope.

(** The weight table is empty or sums to exactly 100. *)
Definition normalized (w : list (string * Qc)) : Prop :=
  w = [] \/ PyList.sum (Dict.values w) = of_nat 100.

Implicit Types (s : session Qc) (w : list (string * Qc)).

Lemma sum_rescale (total : Qc) (l : list Qc) :
  PyList.sum ((fun v => mul (div v total) (of_nat 100)) <$> l)
  = PyList.sum l / total * of_nat 100.
Proof.
  induction l as [|x r IH].
  - rewrite fmap_nil, QcFacts.sum_nil. unfold Qcdiv. ring.
  - rewrite fmap_cons, !QcFacts.sum_cons, IH. simpl. unfold Qcdiv. ring.
Qed.

Lemma div_mul_self (total : Qc) : total <> 0 -> total / total * of_nat 100 = of_nat 100.
Proof.
  intros Hne. unfold Qcdiv. rewrite Qcmult_inv_r by exact Hne. ring.
Qed.

(** The proportional branch brings the sum to 100. *)
Lemma normalize_nonzero_sum s :
  PyList.sum (Dict.values (weights s)) <> 0 ->
  weights (normalize_weights s)
    = rescale (PyList.sum (Dict.values (weights s))) (weights s) /\
  PyList.sum (Dict.values (weights (normalize_weights s))) = of_nat 100.
Proof.
  intros Hne. unfold normalize_weights.
  apply QcFacts.eqb_neq in Hne as Hb. rewrite QcFacts.of_nat_0 in *.
  change (@eqb Qc Arith_Qc) with Qc_eq_bool in *.
  destruct (Qc_eq_bool _ 0) eqn:E.
  { apply Qc_eq_bool_correct in E. contradiction. }
  simpl. split; [reflexivity|].
  rewrite values_rescale, sum_rescale. apply div_mul_self, Hne.
Qed.

(** The equal-split branch lists the registry, each Symbol at [100 / n]. *)
Lemma normalize_zero s :
  PyList.sum (Dict.values (weights s)) = 0 ->
  NoDup (valid_tickers s) ->
  weights (normalize_weights s)
    = (fun t => (t, of_nat 100 / of_nat (length (valid_tickers s)))) <$> valid_tickers s.
Proof.
  intros Hz Hnd. unfold normalize_weights. rewrite Hz.
  rewrite (proj2 (QcFacts.eqb_eq 0 (of_nat 0))) by reflexivity.
  simpl. rewrite DictFacts.comprehension_nodup by exact Hnd.
  destruct (valid_tickers s) as [|t r]; reflexivity.
Qed.

Lemma equal_split_sum {A : Type} (l : list A) :
  l <> [] ->
  PyList.sum ((fun _ => of_nat 100 / of_nat (length l)) <$> l) = of_nat 100.
Proof.
  intros Hl. rewrite QcFacts.sum_const.
  assert (of_nat (length l) <> 0) as Hn.
  { destruct l; [contradiction|]. apply QcFacts.of_nat_S_neq_0. }
  apply Qcmult_div_r. exact Hn.
Qed.

Lemma normalize_normalized s :
  NoDup (valid_tickers s) -> normalized (weights (normalize_weights s)).
Proof.
  intros Hnd.
  destruct (Qcanon.Qc_eq_dec (PyList.sum (Dict.values (weights s))) 0) as [Hz|Hnz].
  - rewrite (normalize_zero s Hz Hnd).
    destruct (valid_tickers s) as [|t r] eqn:E; [left; reflexivity|]. right.
    unfold Dict.values. rewrite <- list_fmap_compose.
    apply (equal_split_sum (t :: r)). discriminate.
  - right. apply normalize_nonzero_sum, Hnz.
Qed.

(** A table that sums to 100 is left as it is. *)
Lemma normalize_fixed s :
  PyList.sum (Dict.values (weights s)) = of_nat 100 ->
  weights (normalize_weights s) = weights s.
Proof.
  intros H100.
  assert (PyList.sum (Dict.values (weights s)) <> 0) as Hne.
  { rewrite H100. apply QcFacts.of_nat_100_neq_0. }
  rewrite (proj1 (normalize_nonzero_sum s Hne)), H100.
  unfold rescale. rewrite <- (list_fmap_id (weights s)) at 2.
  apply list_fmap_ext. intros _ [k v] _. unfold prod_map. simpl. f_equal.
  unfold Qcdiv. rewrite <- Qcmult_assoc, Qcmult_inv_l by apply QcFacts.of_nat_100_neq_0.
  ring.
Qed.

Lemma normalized_fixed s :
  registry_ok s -> normalized (weights s) -> weights (normalize_weights s) = weights s.
Proof.
  intros [Hnd Hk _] [He|H100]; [|apply normalize_fixed, H100].
  rewrite normalize_zero; [|rewrite He; reflexivity | exact Hnd].
  rewrite <- Hk, He. reflexivity.
Qed.

Lemma handle_normalized (index : nat) s :
  registry_ok s -> normalized (weights (handle_ticker_change index s).1).
Proof.
  intros Hr. pose proof (handle_registry index s Hr) as [Hnd _ _].
  revert Hnd. unfold handle_ticker_change.
  destruct (validate_new _ _ _) as [s2 errors]. simpl.
  rewrite normalize_valid_tickers. apply normalize_normalized.
Qed.

Lemma main_area_normalized s :
  registry_ok s -> normalized (weights (main_area s)).
Proof.
  intros [Hnd Hk _]. unfold main_area. destruct (valid_tickers s) eqn:E.
  - left. destruct (weights s); [reflexivity | discriminate Hk].
  - apply normalize_normalized. rewrite E. exact Hnd.
Qed.

(** What holds of the weight table between two interactions: it is empty or
    sums to 100, unless two enabled rows show the same ticker, in which case
    the runs of the script are ended before they renormalise. *)
Definition settled s : Prop :=
  normalized (weights s) \/ ~ NoDup (shown_tickers s).

Lemma script_settled (weight_ : string -> Qc) s :
  registry_ok s -> slots_ok s -> settled (script weight_ s).
Proof.
  intros Hr Hs. destruct (weight_rows_ok weight_ s Hr Hs) as [Hr1 _].
  destruct (script_frame weight_ s) as (Ht & He & _ & _).
  pose proof (weight_rows_end weight_ s) as Hend.
  unfold settled. rewrite (shown_tickers_frame s _ Ht He).
  unfold script. destruct (weight_rows weight_ s) as [s1 [e|]]; simpl in *.
  - right. intros Hnd. apply Hend in Hnd. discriminate Hnd.
  - left. apply main_area_normalized, Hr1.
Qed.

Lemma step_settled s s' :
  step s s' -> registry_ok s -> slots_ok s -> settled s'.
Proof.
  intros Hstep Hr Hs.
  destruct Hstep as [i b s _ | i raw s _ _ _ | s | weight_ s].
  - left. apply handle_normalized. destruct Hr; split; assumption.
  - left. apply handle_normalized. destruct Hr; split; assumption.
  - left. apply normalize_normalized, Hr.
  - apply script_settled; assumption.
Qed.

Lemma reachable_settled s : reachable s -> settled s.
Proof.
  destruct 1 as [|s s' Hs Hstep]; [left; left; reflexivity|].
  destruct (reachable_ok s Hs) as [Hr Hsl].
  exact (step_settled s s' Hstep Hr Hsl).
Qed.

(** A reachable session in which no ticker is shown twice has its weight
    table empty or at a sum of 100. *)
Lemma reachable_normalized s :
  reachable s -> NoDup (shown_tickers s) -> normalized (weights s).
Proof.
  intros Hreach Hnd. destruct (reachable_settled s Hreach) as [Hn|Hdup];
    [exact Hn | contradiction].
Qed.

End V3Exact.

(** ** Renormalisation ([normalize_weights]) *)

Module Renormalize.
Import AppV3 V3Facts V3Exact.
Local Open Scope Qc_scope.

(** A session given by its two tables, the rest as at start-up. *)
Definition tables {W : Type} (valid : list string) (w : list (string * W)) : session W :=
  {| ticker_ := fun _ => ""; enable_ := fun _ => false; ticker_data := ∅;
     weights := w; valid_tickers := valid |}.

(** C10: the two branches of [normalize_weights] treat the keys differently.
    With a non-zero total the keys are kept as they are, in order, and every
    value is rescaled, whether or not its Symbol is in [valid_tickers]; with a
    zero total the keys become exactly the members of [valid_tickers]. *)
Theorem normalize_key_sets {W : Type} `{Arith W} (s : session W) :
  if eqb (PyList.sum (Dict.values (weights s))) (of_nat 0)
  then forall k, k ∈ Dict.keys (weights (normalize_weights s)) <-> k ∈ valid_tickers s
  else weights (normalize_weights s)
         = rescale (PyList.sum (Dict.values (weights s))) (weights s)
       /\ Dict.keys (weights (normalize_weights s)) = Dict.keys (weights s).
Proof.
  unfold normalize_weights.
  destruct (eqb (PyList.sum (Dict.values (weights s))) (of_nat 0)); simpl.
  - intros k. apply DictFacts.comprehension_keys_elem.
  - split; [reflexivity | apply keys_rescale].
Qed.

(** A stale entry survives the proportional branch and is dropped by the
    equal-split branch (run on binary64). *)
Example stale_entry_kept :
  weights (normalize_weights (tables ["B"] [("A", 30%float); ("B", 10%float)]))
  = [("A", 75%float); ("B", 25%float)].
Proof. vm_compute. reflexivity. Qed.

Example stale_entry_dropped :
  weights (normalize_weights (tables ["B"] [("A", 0%float); ("B", 0%float)]))
  = [("B", 100%float)].
Proof. vm_compute. reflexivity. Qed.

Lemma get_const (c : Qc) (l : list string) (k : string) :
  k ∈ l -> Dict.get k ((fun t => (t, c)) <$> l) = Some c.
Proof.
  induction l as [|t r IH]; [intros Hin; inversion Hin|].
  intros Hin. rewrite fmap_cons. simpl.
  destruct (decide (k = t)); [reflexivity|].
  apply IH. apply elem_of_cons in Hin as [?|?]; [contradiction | assumption].
Qed.

(** C4: on a non-empty table whose weights sum to 0 and whose keys are the
    registered Symbols, [normalize_weights] gives every entry [100 / n], [n]
    the number of entries; the keys stay and the sum is 100. *)
Theorem equal_split_on_zero_total (s : session Qc) :
  weights s <> [] ->
  Dict.wf (weights s) ->
  Dict.keys (weights s) ≡ₚ valid_tickers s ->
  PyList.sum (Dict.values (weights s)) = of_nat 0 ->
  (forall k, k ∈ Dict.keys (weights s) ->
     Dict.get k (weights (normalize_weights s))
     = Some (of_nat 100 / of_nat (length (weights s)))) /\
  (forall k, k ∈ Dict.keys (weights (normalize_weights s)) <-> k ∈ Dict.keys (weights s)) /\
  PyList.sum (Dict.values (weights (normalize_weights s))) = of_nat 100.
Proof.
  intros Hne Hwf Hperm Hz.
  assert (NoDup (valid_tickers s)) as Hnd by (rewrite <- Hperm; exact Hwf).
  assert (length (valid_tickers s) = length (weights s)) as Hlen.
  { rewrite <- Hperm. unfold Dict.keys. apply length_fmap. }
  rewrite (normalize_zero s Hz Hnd), Hlen.
  split; [|split].
  - intros k Hk. apply get_const. rewrite <- Hperm. exact Hk.
  - intros k. unfold Dict.keys at 1. rewrite <- list_fmap_compose.
    change (fst ∘ _) with (@id string). rewrite list_fmap_id, Hperm. reflexivity.
  - unfold Dict.values. rewrite <- list_fmap_compose, <- Hlen.
    apply (equal_split_sum (valid_tickers s)).
    intros E. rewrite E in Hlen. destruct (weights s); [contradiction | discriminate].
Qed.

Definition three_zero : session Qc :=
  tables ["A"; "B"; "C"] [("A", of_nat 0); ("B", of_nat 0); ("C", of_nat 0)].

Lemma equal_split_on_zero_total_witness :
  (forall k, k ∈ Dict.keys (weights three_zero) ->
     Dict.get k (weights (normalize_weights three_zero))
     = Some (of_nat 100 / of_nat (length (weights three_zero)))) /\
  (forall k, k ∈ Dict.keys (weights (normalize_weights three_zero))
             <-> k ∈ Dict.keys (weights three_zero)) /\
  PyList.sum (Dict.values (weights (normalize_weights three_zero))) = of_nat 100.
Proof.
  apply (equal_split_on_zero_total three_zero).
  - discriminate.
  - unfold Dict.wf. refine (bool_decide_unpack _ _). vm_compute. exact I.
  - reflexivity.
  - apply Qc_is_canon. reflexivity.
Defined.

(** The example of the specification on binary64: three times 33.33..., and
    their float sum is 100. *)
Example equal_split_three_float :
  weights (normalize_weights
             (tables ["A"; "B"; "C"] [("A", 0%float); ("B", 0%float); ("C", 0%float)]))
  = [("A", 0x1.0aaaaaaaaaaabp+5%float); ("B", 0x1.0aaaaaaaaaaabp+5%float);
     ("C", 0x1.0aaaaaaaaaaabp+5%float)]
  /\ PyList.sum [0x1.0aaaaaaaaaaabp+5%float; 0x1.0aaaaaaaaaaabp+5%float;
                 0x1.0aaaaaaaaaaabp+5%float] = 100%float.
Proof. split; vm_compute; reflexivity. Qed.

(** C9: [normalize_weights] is idempotent -- a second call changes nothing --
    and a table that sums to 100 is a fixed point.  The registry list has no
    duplicates, as in every session the program builds. *)
Theorem normalize_idempotent (s : session Qc) :
  NoDup (valid_tickers s) ->
  normalize_weights (normalize_weights s) = normalize_weights s /\
  (PyList.sum (Dict.values (weights s)) = of_nat 100 ->
   weights (normalize_weights s) = weights s).
Proof.
  intros Hnd. split; [|apply normalize_fixed].
  rewrite (normalize_set_weights (normalize_weights s)).
  assert (weights (normalize_weights (normalize_weights s))
          = weights (normalize_weights s)) as ->.
  { destruct (Qcanon.Qc_eq_dec (PyList.sum (Dict.values (weights s))) 0) as [Hz|Hnz].
    - pose proof (normalize_zero s Hz Hnd) as Hw.
      destruct (valid_tickers s) as [|t r] eqn:E.
      + rewrite normalize_zero; rewrite ?normalize_valid_tickers, ?E, ?Hw; try reflexivity.
        apply NoDup_nil_2.
      + apply normalize_fixed. rewrite Hw.
        unfold Dict.values. rewrite <- list_fmap_compose.
        apply (equal_split_sum (t :: r)). discriminate.
    - apply normalize_fixed, normalize_nonzero_sum, Hnz. }
  rewrite (normalize_set_weights s) at 2 3. reflexivity.
Qed.

Definition one_three : session Qc :=
  tables ["A"; "B"] [("A", of_nat 1); ("B", of_nat 3)].

Lemma normalize_idempotent_witness :
  normalize_weights (normalize_weights one_three) = normalize_weights one_three /\
  (PyList.sum (Dict.values (weights one_three)) = of_nat 100 ->
   weights (normalize_weights one_three) = weights one_three).
Proof.
  apply (normalize_idempotent one_three).
  refine (bool_decide_unpack _ _). vm_compute. exact I.
Defined.

(** On binary64 the same holds up to rounding: after one pass over 0.1, 0.2,
    0.3 the float sum is 100 less a few units in the last place, so a second
    pass moves the last bits of the first weight. *)
Definition tenths : session float :=
  tables ["A"; "B"; "C"]
    [("A", 0x1.999999999999ap-4%float); ("B", 0x1.999999999999ap-3%float);
     ("C", 0x1.3333333333333p-2%float)].

Example second_pass_rounds_again :
  let once := normalize_weights tenths in
  let twice := normalize_weights once in
  eqb (PyList.sum (Dict.values (weights once))) (of_nat 100) = false /\
  ltb (absv (sub (PyList.sum (Dict.values (weights once))) (of_nat 100))) tenth = true /\
  zip_with eqb (Dict.values (weights twice)) (Dict.values (weights once))
    <> [true; true; true].
Proof.
  cbv zeta. split; [vm_compute; reflexivity|].
  split; [vm_compute; reflexivity|]. vm_compute. discriminate.
Qed.

End Renormalize.

(** ** Slot operations ([handle_ticker_change]) *)

Module SlotOperations.
Import AppV3 V3Facts V3Exact.
Local Open Scope Qc_scope.

Section Generic.
Context {W : Type} `{Arith W}.
Implicit Types (s : session W).

(** Registry consistency as the specification words it: every Symbol of the
    weight table is held by exactly one enabled row. *)
Definition held_once s : Prop :=
  forall sym, sym ∈ Dict.keys (weights s) -> exists! i, holds s i sym.

(** The outcome the specification gives for a text that is not a ticker: no
    Symbol committed for the row, the error shown, the weight table as before. *)
Definition rejects (i : nat) (raw : string) s : Prop :=
  (forall sym, ~ holds (setSlotText i raw s).1 i sym) /\
  (setSlotText i raw s).2
    = ["Invalid ticker format: " +:+ Text.upper (Text.strip raw)] /\
  weights (setSlotText i raw s).1 = weights s.

Lemma committed_with_ticker (i : nat) (raw : string) s :
  committed (with_ticker i raw s) i = Text.upper (Text.strip raw).
Proof. unfold committed. simpl. rewrite decide_True by reflexivity. reflexivity. Qed.

Lemma stored_with_ticker (i j : nat) (raw : string) s :
  stored_value j (with_ticker i raw s) = stored_value j s.
Proof. reflexivity. Qed.

Lemma with_ticker_registry (i : nat) (raw : string) s :
  registry_ok s -> registry_ok (with_ticker i raw s).
Proof. intros [? ? ?]. split; assumption. Qed.

Lemma with_enable_registry (i : nat) (b : bool) s :
  registry_ok s -> registry_ok (with_enable i b s).
Proof. intros [? ? ?]. split; assumption. Qed.

(** The tables [handle_ticker_change] builds, before it renormalises, when
    the committed text is not a key yet. *)
Lemma handle_fresh (index : nat) s :
  registry_ok s ->
  committed s index ∉ Dict.keys (weights s) ->
  valid_tickers (handle_ticker_change index s).1 =
    (if enable_ s index && validate_ticker (committed s index)
     then valid_tickers s ++ [committed s index] else valid_tickers s) /\
  weights (handle_ticker_change index s).1 =
    renormalize (valid_tickers (handle_ticker_change index s).1)
      (if enable_ s index && validate_ticker (committed s index)
       then weights s ++ [(committed s index, of_nat 0)] else weights s).
Proof.
  intros [Hnd Hk Hsym] Hfresh.
  assert ((if bool_decide (committed s index = stored_value index s) then weights s
           else Dict.del (committed s index) (weights s)) = weights s) as Hw.
  { destruct (bool_decide _); [reflexivity | apply del_absent, Hfresh]. }
  assert ((if bool_decide (committed s index = stored_value index s) then valid_tickers s
           else PyList.remove (committed s index) (valid_tickers s)) = valid_tickers s) as Hv.
  { destruct (bool_decide _); [reflexivity|]. apply DictFacts.remove_absent.
    rewrite <- Hk. exact Hfresh. }
  assert (validate_ticker (committed s index) = true ->
          bool_decide (committed s index = "") = false) as Hne.
  { intros Hval. apply bool_decide_eq_false_2, TextFacts.letters_nonempty.
    rewrite <- validate_committed. exact Hval. }
  rewrite (handle_weights index s Hk), (handle_valid_tickers index s Hk). cbv zeta.
  rewrite Hw, Hv. unfold Dict.mem.
  assert (committed s index ∉ valid_tickers s) as Hfresh' by (rewrite <- Hk; exact Hfresh).
  rewrite (bool_decide_eq_false_2 _ Hfresh), (bool_decide_eq_false_2 _ Hfresh').
  rewrite !andb_true_r.
  destruct (enable_ s index); simpl; [|split; reflexivity].
  destruct (validate_ticker (committed s index)) eqn:Hval.
  - rewrite (Hne eq_refl). simpl. split; reflexivity.
  - rewrite andb_false_r. split; reflexivity.
Qed.

(** An enabled row and a text that is not a ticker, on any arithmetic: the row
    commits nothing, the error names the normalised text, the registry and
    the keys of the weight table stay, and the table is renormalised. *)
Lemma invalid_text_tables (i : nat) (raw : string) s :
  reachable s ->
  enable_ s i = true ->
  Text.upper (Text.strip raw) <> "" ->
  Text.letters_1_5 (Text.upper (Text.strip raw)) = false ->
  (forall sym, ~ holds (setSlotText i raw s).1 i sym) /\
  (setSlotText i raw s).2
    = ["Invalid ticker format: " +:+ Text.upper (Text.strip raw)] /\
  valid_tickers (setSlotText i raw s).1 = valid_tickers s /\
  Dict.keys (weights (setSlotText i raw s).1) = Dict.keys (weights s) /\
  weights (setSlotText i raw s).1 = renormalize (valid_tickers s) (weights s).
Proof.
  intros Hreach Hen Hne Hbad.
  destruct (reachable_ok s Hreach) as [Hr Hs].
  assert (Text.upper (Text.strip raw) ∉ Dict.keys (weights s)) as Hfresh.
  { destruct Hr as [_ Hk Hsym]. rewrite Hk. intros Hin.
    rewrite Forall_forall in Hsym. rewrite (Hsym _ Hin) in Hbad. discriminate Hbad. }
  pose proof (handle_fresh i (with_ticker i raw s) (with_ticker_registry i raw s Hr)) as Hf.
  rewrite validate_committed, committed_with_ticker in Hf.
  simpl enable_ in Hf. simpl weights in Hf. simpl valid_tickers in Hf.
  rewrite Hen, Hbad in Hf. simpl in Hf. destruct (Hf Hfresh) as [Hv Hw].
  pose proof (handle_registry i (with_ticker i raw s) (with_ticker_registry i raw s Hr))
    as [_ Hk' _].
  unfold setSlotText. split; [|split; [|split; [|split]]].
  - intros sym Hh. unfold holds in Hh.
    destruct (handle_frame i (with_ticker i raw s)) as (_ & _ & Hd).
    rewrite Hd, lookup_insert_eq in Hh. injection Hh as _ _ Hvalid.
    simpl enable_ in Hvalid.
    rewrite Hen, validate_committed, committed_with_ticker, Hbad in Hvalid.
    discriminate Hvalid.
  - rewrite handle_errors, validate_committed, committed_with_ticker.
    simpl enable_. rewrite Hen, Hbad, (bool_decide_eq_false_2 _ Hne). reflexivity.
  - exact Hv.
  - rewrite Hk', Hv. destruct Hr as [_ Hk _]. symmetry. exact Hk.
  - rewrite Hw, Hv. reflexivity.
Qed.

(** C2, as amended: in every reachable session the keys of the weight table
    are the registry list [valid_tickers], in the same order and without
    duplicates, every key is a well-formed Symbol, and every Symbol that an
    enabled row holds is a key (one entry, however many rows hold it). *)
Theorem registry_consistency s :
  reachable s ->
  Dict.wf (weights s) /\
  Dict.keys (weights s) = valid_tickers s /\
  Forall (fun sym => Text.letters_1_5 sym = true) (Dict.keys (weights s)) /\
  (forall i sym, holds s i sym -> sym ∈ Dict.keys (weights s)).
Proof.
  intros Hreach. destruct (reachable_ok s Hreach) as [[Hnd Hk Hsym] [Hst Hda Hli Hln]].
  unfold Dict.wf. rewrite Hk. repeat split; try assumption.
  intros i sym Hh. apply Hda in Hh. injection Hh as Hen Hval Hvalid.
  rewrite <- Hen in Hvalid. rewrite Hval. apply Hli; [symmetry; exact Hen | symmetry; exact Hvalid].
Qed.

End Generic.

(** *** Exact arithmetic *)

Implicit Types (s : session Qc).

Lemma renormalize_fixed (valid : list string) (w : list (string * Qc)) :
  PyList.sum (Dict.values w) = of_nat 100 -> renormalize valid w = w.
Proof.
  intros H100. exact (normalize_fixed (set_valid_tickers valid (set_weights w init)) H100).
Qed.

Lemma renormalize_stable s :
  registry_ok s -> normalized (weights s) ->
  renormalize (valid_tickers s) (weights s) = weights s.
Proof.
  intros Hr Hn. rewrite <- (normalize_renormalize s). apply normalized_fixed; assumption.
Qed.

Lemma renormalize_first (t : string) :
  renormalize [t] [(t, of_nat 0 : Qc)] = [(t, of_nat 100)].
Proof.
  unfold renormalize. rewrite normalize_zero.
  - simpl. do 2 f_equal.
  - apply Qc_is_canon. reflexivity.
  - apply NoDup_singleton.
Qed.

Lemma sum_with_zero (w : list (string * Qc)) (t : string) :
  PyList.sum (Dict.values (w ++ [(t, of_nat 0)])) = PyList.sum (Dict.values w).
Proof.
  rewrite DictFacts.values_app, QcFacts.sum_app.
  assert (PyList.sum (Dict.values [(t, of_nat 0 : Qc)]) = 0) as ->
    by (apply Qc_is_canon; reflexivity).
  ring.
Qed.

(** Committing a Symbol that is not a key yet: the first entry gets 100, a
    later one joins at 0 and the entries before it keep their weights. *)
Lemma commit_fresh (i : nat) (raw : string) s :
  registry_ok s -> normalized (weights s) ->
  enable_ s i = true ->
  Text.letters_1_5 (Text.upper (Text.strip raw)) = true ->
  Text.upper (Text.strip raw) ∉ Dict.keys (weights s) ->
  valid_tickers (setSlotText i raw s).1 = valid_tickers s ++ [Text.upper (Text.strip raw)] /\
  weights (setSlotText i raw s).1 =
    match weights s with
    | [] => [(Text.upper (Text.strip raw), of_nat 100)]
    | _ => weights s ++ [(Text.upper (Text.strip raw), of_nat 0)]
    end.
Proof.
  intros Hr Hn Hen Hval Hfresh. unfold setSlotText.
  pose proof (handle_fresh i (with_ticker i raw s) (with_ticker_registry i raw s Hr)) as Hf.
  rewrite validate_committed, committed_with_ticker in Hf.
  simpl enable_ in Hf. simpl weights in Hf. simpl valid_tickers in Hf.
  rewrite Hen, Hval in Hf. simpl in Hf.
  destruct (Hf Hfresh) as [Hv Hw]. split; [exact Hv|].
  rewrite Hw, Hv. destruct Hr as [Hnd Hk Hsym].
  destruct (weights s) as [|p w] eqn:Ew.
  - rewrite <- Hk. simpl. apply renormalize_first.
  - apply renormalize_fixed. rewrite sum_with_zero.
    destruct Hn as [Hn|Hn]; [discriminate Hn | exact Hn].
Qed.

(** C5, as amended.  On an enabled row of a reachable session, an ASCII text
    whose stripped, upper-cased form is non-empty and is not one to five
    capitals is rejected.  On every arithmetic: no Symbol is committed for the
    row, the error names the normalised text, the registry and the keys of
    the weight table stay as they were, and the table is renormalised once
    more.  In exact arithmetic a table that was empty or summed to 100 is
    thereby left as it was.  The pattern is applied to the normalised text
    only, where it accepts exactly one to five capitals. *)
Theorem invalid_text_rejected :
  (forall (W : Type) (A : Arith W) (i : nat) (raw : string) (s : session W),
     reachable s ->
     enable_ s i = true ->
     Text.is_ascii raw ->
     Text.upper (Text.strip raw) <> "" ->
     Text.letters_1_5 (Text.upper (Text.strip raw)) = false ->
     (forall sym, ~ holds (setSlotText i raw s).1 i sym) /\
     (setSlotText i raw s).2
       = ["Invalid ticker format: " +:+ Text.upper (Text.strip raw)] /\
     valid_tickers (setSlotText i raw s).1 = valid_tickers s /\
     Dict.keys (weights (setSlotText i raw s).1) = Dict.keys (weights s) /\
     weights (setSlotText i raw s).1 = renormalize (valid_tickers s) (weights s)) /\
  (forall (i : nat) (raw : string) (s : session Qc),
     reachable s ->
     enable_ s i = true ->
     Text.is_ascii raw ->
     Text.upper (Text.strip raw) <> "" ->
     Text.letters_1_5 (Text.upper (Text.strip raw)) = false ->
     normalized (weights s) ->
     rejects i raw s) /\
  (forall text, Text.is_ascii text ->
     validate_ticker (Text.upper (Text.strip text))
     = Text.letters_1_5 (Text.upper (Text.strip text))).
Proof.
  split; [|split].
  - intros W A i raw s Hreach Hen _ Hne Hbad.
    exact (invalid_text_tables i raw s Hreach Hen Hne Hbad).
  - intros i raw s Hreach Hen _ Hne Hbad Hn.
    destruct (invalid_text_tables i raw s Hreach Hen Hne Hbad) as (Hh & He & _ & _ & Hw).
    destruct (reachable_ok s Hreach) as [Hr _].
    split; [exact Hh|]. split; [exact He|].
    rewrite Hw. apply renormalize_stable; assumption.
  - intros text _. apply TextFacts.re_match_normalized.
Qed.

(** Disabling a row removes nothing: the registry and the keys of the weight
    table stay, the table is renormalised, and a table that was empty or
    summed to 100 keeps every weight; the Symbol the row holds stays
    registered. *)
Lemma disable_changes_nothing (i : nat) s :
  reachable s ->
  valid_tickers (setSlotEnabled i false s).1 = valid_tickers s /\
  Dict.keys (weights (setSlotEnabled i false s).1) = Dict.keys (weights s) /\
  (normalized (weights s) -> weights (setSlotEnabled i false s).1 = weights s).
Proof.
  intros Hreach. destruct (reachable_ok s Hreach) as [Hr [Hst Hda Hli Hln]].
  unfold setSlotEnabled.
  assert (Dict.keys (weights (with_enable i false s)) = valid_tickers (with_enable i false s))
    as Hk by (destruct Hr; assumption).
  pose proof (handle_valid_tickers i _ Hk) as Hv. cbv zeta in Hv.
  pose proof (handle_weights i _ Hk) as Hw.
  assert (committed (with_enable i false s) i = stored_value i (with_enable i false s)) as Hsame.
  { symmetry. apply Hst. }
  rewrite (bool_decide_eq_true_2 _ Hsame) in Hv, Hw.
  simpl enable_ in Hv, Hw. rewrite decide_True in Hv, Hw by reflexivity.
  simpl in Hv, Hw.
  pose proof (handle_registry i (with_enable i false s) (with_enable_registry i false s Hr))
    as [_ Hk' _].
  split; [exact Hv|]. split.
  - rewrite Hk', Hv. symmetry. exact Hk.
  - intros Hn. rewrite Hw, Hv. apply renormalize_stable; assumption.
Qed.

(** On an enabled row 0 of a reachable session, the text [" aapl "] is
    accepted without an error and commits the Symbol AAPL; when AAPL has no
    entry yet, one is added with weight 0 and the table is renormalised (an
    empty table becomes AAPL at 100, a non-empty one that summed to 100 keeps
    its weights next to the new 0); and whenever AAPL ends up as the only
    entry, its weight is 100. *)
Lemma fresh_text_committed s :
  reachable s ->
  enable_ s 0 = true ->
  (setSlotText 0 " aapl " s).2 = [] /\
  holds (setSlotText 0 " aapl " s).1 0 "AAPL" /\
  "AAPL" ∈ valid_tickers (setSlotText 0 " aapl " s).1 /\
  (Dict.mem "AAPL" (weights s) = false ->
     weights (setSlotText 0 " aapl " s).1
       = renormalize (valid_tickers s ++ ["AAPL"]) (weights s ++ [("AAPL", of_nat 0)]) /\
     (weights s = [] -> weights (setSlotText 0 " aapl " s).1 = [("AAPL", of_nat 100)]) /\
     (weights s <> [] -> normalized (weights s) ->
      weights (setSlotText 0 " aapl " s).1 = weights s ++ [("AAPL", of_nat 0)])) /\
  (forall v, weights (setSlotText 0 " aapl " s).1 = [("AAPL", v)] -> v = of_nat 100).
Proof.
  intros Hreach Hen.
  destruct (reachable_ok s Hreach) as [Hr Hs].
  assert (Text.upper (Text.strip " aapl ") = "AAPL") as Hnorm by reflexivity.
  assert (reachable (setSlotText 0 " aapl " s).1) as Hreach'.
  { apply (reachable_step s); [exact Hreach|].
    apply step_text; [lia | exact Hen |].
    unfold Text.single_line. refine (bool_decide_unpack _ _). vm_compute. exact I. }
  pose proof (handle_normalized 0 (with_ticker 0 " aapl " s)
                (with_ticker_registry 0 " aapl " s Hr)) as Hn'.
  unfold setSlotText in *.
  destruct (handle_frame 0 (with_ticker 0 " aapl " s)) as (_ & He & Hd).
  rewrite committed_with_ticker, Hnorm in Hd. simpl enable_ in Hd. rewrite Hen in Hd.
  split; [|split; [|split; [|split]]].
  - rewrite handle_errors, committed_with_ticker, Hnorm. simpl enable_.
    rewrite Hen. reflexivity.
  - unfold holds. rewrite Hd, lookup_insert_eq. reflexivity.
  - destruct (reachable_ok _ Hreach') as [_ [_ _ Hli _]].
    specialize (Hli 0%nat). rewrite committed_handle, committed_with_ticker, Hnorm, He in Hli.
    apply Hli; [exact Hen | reflexivity].
  - intros Hfresh. apply DictFacts.mem_false in Hfresh.
    pose proof (handle_fresh 0 (with_ticker 0 " aapl " s)
                  (with_ticker_registry 0 " aapl " s Hr)) as Hf.
    rewrite committed_with_ticker, Hnorm in Hf.
    simpl enable_ in Hf. simpl weights in Hf. simpl valid_tickers in Hf.
    rewrite Hen in Hf. destruct (Hf Hfresh) as [Hv' Hw'].
    split; [|split].
    + rewrite Hw', Hv'. reflexivity.
    + intros He0.
      destruct (commit_fresh 0 " aapl " s Hr (or_introl He0) Hen eq_refl Hfresh) as [_ Hw].
      unfold setSlotText in Hw. rewrite Hnorm in Hw. rewrite Hw, He0. reflexivity.
    + intros Hne Hn.
      destruct (commit_fresh 0 " aapl " s Hr Hn Hen eq_refl Hfresh) as [_ Hw].
      unfold setSlotText in Hw. rewrite Hnorm in Hw.
      rewrite Hw. destruct (weights s); [contradiction | reflexivity].
  - intros v Hv. destruct Hn' as [Hnil|H100].
    + rewrite Hv in Hnil. discriminate Hnil.
    + rewrite Hv in H100. rewrite <- H100. simpl.
      rewrite QcFacts.sum_cons, QcFacts.sum_nil. ring.
Qed.

(** Committing a new Symbol into a row of a reachable session whose table is
    not empty and sums to 100 keeps every weight already there; the new entry
    starts at 0. *)
Lemma commit_keeps_weights (i : nat) (raw : string) s :
  reachable s ->
  weights s <> [] ->
  normalized (weights s) ->
  enable_ s i = true ->
  Text.letters_1_5 (Text.upper (Text.strip raw)) = true ->
  Text.upper (Text.strip raw) ∉ Dict.keys (weights s) ->
  weights (setSlotText i raw s).1 = weights s ++ [(Text.upper (Text.strip raw), of_nat 0)].
Proof.
  intros Hreach Hne Hn Hen Hval Hfresh.
  destruct (reachable_ok s Hreach) as [Hr _].
  destruct (commit_fresh i raw s Hr Hn Hen Hval Hfresh) as [_ Hw].
  rewrite Hw. destruct (weights s); [contradiction | reflexivity].
Qed.

(** The sum invariant on app_v3.py: after every callback the weight table is
    empty or sums to exactly 100, and so it is in every reachable session in
    which no two enabled rows show the same ticker (where they do, Streamlit
    ends the run of the script before it renormalises). *)
Lemma reachable_sum_100 s :
  reachable s ->
  (forall i, normalized (weights (handle_ticker_change i s).1)) /\
  normalized (weights (normalize_weights s)) /\
  (NoDup (shown_tickers s) -> weights s <> [] ->
   PyList.sum (Dict.values (weights s)) = of_nat 100).
Proof.
  intros Hreach. destruct (reachable_ok s Hreach) as [Hr _].
  split; [intros i; apply handle_normalized, Hr|].
  split; [apply normalize_normalized, Hr|].
  intros Hnd Hne.
  destruct (reachable_normalized s Hreach Hnd); [contradiction | assumption].
Qed.

(** *** Runs of the program *)

(** Row 0 enabled, nothing typed yet. *)
Definition on0 {W : Type} `{Arith W} : session W := (setSlotEnabled 0 true init).1.

Lemma on0_reachable {W : Type} `{Arith W} : reachable (W:=W) on0.
Proof.
  apply (reachable_step init); [apply reachable_init|].
  apply (step_enable 0 true init). lia.
Qed.

Ltac one_line :=
  unfold Text.single_line; refine (bool_decide_unpack _ _); vm_compute; exact I.

(** The last step of a run, read off the session it produced. *)
Ltac after_text :=
  eapply reachable_step; [|apply step_text; [lia | vm_compute; reflexivity | one_line]].
Ltac after_enable := eapply reachable_step; [|apply step_enable; lia].
Ltac after_script := eapply reachable_step; [|apply step_script].

(** C5, the example as the specification has it: ["abcde"] upper-cases to the
    well-formed Symbol ABCDE, so the text is committed, not rejected (run on
    binary64). *)
Lemma abcde_not_rejected : ~ rejects (W:=float) 0 "abcde" on0.
Proof. intros (_ & Herr & _). vm_compute in Herr. discriminate Herr. Qed.

Example abcde_committed :
  (setSlotText (W:=float) 0 "abcde" on0).2 = [] /\
  holds (setSlotText (W:=float) 0 "abcde" on0).1 0 "ABCDE" /\
  weights (setSlotText (W:=float) 0 "abcde" on0).1 = [("ABCDE", 100%float)].
Proof. repeat split; vm_compute; reflexivity. Qed.

(** Two rows, both enabled, both committing AAPL (binary64). *)
Definition aapl_twice : session float :=
  (setSlotText 1 "AAPL" (setSlotEnabled 1 true (setSlotText 0 "AAPL" on0).1).1).1.

Lemma aapl_twice_reachable : reachable aapl_twice.
Proof.
  unfold aapl_twice. after_text. after_enable. after_text. apply on0_reachable.
Qed.

(** C2, as the specification has it, fails in a reachable session: AAPL is a
    key and two enabled rows hold it. *)
Lemma shared_symbol_not_held_once : reachable aapl_twice /\ ~ held_once aapl_twice.
Proof.
  split; [exact aapl_twice_reachable|]. intros Hc.
  destruct (Hc "AAPL") as [i [_ Huniq]].
  { refine (bool_decide_unpack _ _). vm_compute. exact I. }
  assert (holds aapl_twice 0 "AAPL") as H0 by (vm_compute; reflexivity).
  assert (holds aapl_twice 1 "AAPL") as H1 by (vm_compute; reflexivity).
  apply Huniq in H0. apply Huniq in H1. congruence.
Qed.

Lemma registry_consistency_witness :
  Dict.wf (weights aapl_twice) /\
  Dict.keys (weights aapl_twice) = valid_tickers aapl_twice /\
  Forall (fun sym => Text.letters_1_5 sym = true) (Dict.keys (weights aapl_twice)) /\
  (forall i sym, holds aapl_twice i sym -> sym ∈ Dict.keys (weights aapl_twice)).
Proof. exact (registry_consistency aapl_twice aapl_twice_reachable). Defined.

(** The second commit wiped the weight the first row had: the shared entry is
    deleted and inserted again at 0 before the table is renormalised. *)
Example aapl_twice_tables :
  weights aapl_twice = [("AAPL", 100%float)] /\ valid_tickers aapl_twice = ["AAPL"].
Proof. split; vm_compute; reflexivity. Qed.

(** Row 0 first commits AAPL, then is edited to MSFT: the comparison in
    [clear_changed] looks the new text up, not the one it replaces, so AAPL
    keeps its entry (and all of the weight) although no row holds it. *)
Definition edited_away : session float :=
  (setSlotText 0 "MSFT" (setSlotText 0 "AAPL" on0).1).1.

Example stale_entry_after_edit :
  weights edited_away = [("AAPL", 100%float); ("MSFT", 0%float)] /\
  valid_tickers edited_away = ["AAPL"; "MSFT"] /\
  map_to_list (ticker_data edited_away)
    = [(0%nat, {| ts_enabled := true; ts_value := "MSFT"; ts_valid := true |})].
Proof. repeat split; vm_compute; reflexivity. Qed.

(** AAPL at 60 and MSFT at 40, each held by an enabled row: the two commits,
    then a run of the script with the weight inputs at 60 and 40 (binary64). *)
Definition aapl_msft : session float :=
  (setSlotText 1 "MSFT" (setSlotEnabled 1 true (setSlotText 0 "AAPL" on0).1).1).1.

Definition inputs_60_40 (ticker : string) : float :=
  if decide (ticker = "AAPL") then 60%float else 40%float.

Definition sixty_forty : session float := script inputs_60_40 aapl_msft.

Lemma sixty_forty_reachable : reachable sixty_forty.
Proof.
  unfold sixty_forty, aapl_msft.
  after_script. after_text. after_enable. after_text. apply on0_reachable.
Qed.

(** C3 on app_v3.py: from allocations AAPL 60, MSFT 40 held by rows 0 and 1,
    disabling row 0 leaves both tables as they were; AAPL is not removed. *)
Theorem disable_leaves_allocation :
  reachable sixty_forty /\
  weights sixty_forty = [("AAPL", 60%float); ("MSFT", 40%float)] /\
  holds sixty_forty 0 "AAPL" /\ holds sixty_forty 1 "MSFT" /\
  weights (setSlotEnabled 0 false sixty_forty).1
    = [("AAPL", 60%float); ("MSFT", 40%float)] /\
  valid_tickers (setSlotEnabled 0 false sixty_forty).1 = ["AAPL"; "MSFT"] /\
  (setSlotEnabled 0 false sixty_forty).2 = [].
Proof.
  split; [exact sixty_forty_reachable|].
  repeat split; vm_compute; reflexivity.
Qed.

(** A, B and C committed in rows 0 to 2, row 3 enabled, and a run of the
    script with the weight inputs at 0.1, 0.2 and 0.3 (binary64). *)
Definition inputs_tenths (ticker : string) : float :=
  if decide (ticker = "A") then 0x1.999999999999ap-4%float
  else if decide (ticker = "B") then 0x1.999999999999ap-3%float
  else 0x1.3333333333333p-2%float.

Definition abc : session float :=
  script inputs_tenths
    (setSlotEnabled 3 true
       (setSlotText 2 "C" (setSlotEnabled 2 true
          (setSlotText 1 "B" (setSlotEnabled 1 true
             (setSlotText 0 "A" on0).1).1).1).1).1).1.

Lemma abc_reachable : reachable abc.
Proof.
  unfold abc. after_script. after_enable.
  after_text. after_enable. after_text. after_enable. after_text. apply on0_reachable.
Qed.

(** The rejection on binary64: the rejected text leaves the keys, and the
    table is renormalised once more, which moves the last bits of the
    weights. *)
Example rejected_text_rounds_again :
  (setSlotText 3 "abcdef" abc).2 = ["Invalid ticker format: ABCDEF"] /\
  Dict.keys (weights (setSlotText 3 "abcdef" abc).1) = Dict.keys (weights abc) /\
  zip_with eqb (Dict.values (weights (setSlotText 3 "abcdef" abc).1))
    (Dict.values (weights abc)) <> [true; true; true].
Proof.
  split; [vm_compute; reflexivity|].
  split; [vm_compute; reflexivity|]. vm_compute. discriminate.
Qed.

(** AAPL and MSFT committed in rows 0 and 1, the weight inputs then set to 60
    and 40 (exact arithmetic). *)
Definition inputs_exact (ticker : string) : Qc :=
  if decide (ticker = "AAPL") then of_nat 60 else of_nat 40.

Definition aapl_msft_exact : session Qc :=
  (setSlotText 1 "MSFT" (setSlotEnabled 1 true (setSlotText 0 "AAPL" on0).1).1).1.

Definition sixty_forty_exact : session Qc := script inputs_exact aapl_msft_exact.

Lemma aapl_msft_exact_reachable : reachable aapl_msft_exact.
Proof.
  unfold aapl_msft_exact. after_text. after_enable. after_text. apply on0_reachable.
Qed.

Lemma sixty_forty_exact_reachable : reachable sixty_forty_exact.
Proof.
  unfold sixty_forty_exact. after_script. apply aapl_msft_exact_reachable.
Qed.

Lemma sixty_forty_exact_shown : NoDup (shown_tickers sixty_forty_exact).
Proof. refine (bool_decide_unpack _ _). vm_compute. exact I. Qed.

Lemma invalid_text_rejected_witness :
  ((forall sym, ~ holds (setSlotText 3 "abcdef" abc).1 3 sym) /\
   (setSlotText 3 "abcdef" abc).2
     = ["Invalid ticker format: " +:+ Text.upper (Text.strip "abcdef")] /\
   valid_tickers (setSlotText 3 "abcdef" abc).1 = valid_tickers abc /\
   Dict.keys (weights (setSlotText 3 "abcdef" abc).1) = Dict.keys (weights abc) /\
   weights (setSlotText 3 "abcdef" abc).1
     = renormalize (valid_tickers abc) (weights abc)) /\
  rejects 1 "abcdef" sixty_forty_exact.
Proof.
  assert (Text.is_ascii "abcdef") as Hascii.
  { unfold Text.is_ascii. refine (bool_decide_unpack _ _). vm_compute. exact I. }
  split.
  - apply (proj1 invalid_text_rejected float _ 3%nat "abcdef" abc).
    + apply abc_reachable.
    + vm_compute. reflexivity.
    + exact Hascii.
    + vm_compute. discriminate.
    + vm_compute. reflexivity.
  - apply (proj1 (proj2 invalid_text_rejected) 1%nat "abcdef" sixty_forty_exact).
    + apply sixty_forty_exact_reachable.
    + vm_compute. reflexivity.
    + exact Hascii.
    + vm_compute. discriminate.
    + vm_compute. reflexivity.
    + apply reachable_normalized;
        [apply sixty_forty_exact_reachable | apply sixty_forty_exact_shown].
Defined.

(** MSFT at 40 and AAPL at 60, held by rows 0 and 1: the two commits, then a
    run of the script with the weight inputs at 40 and 60 (binary64). *)
Definition msft_aapl : session float :=
  (setSlotText 1 "AAPL" (setSlotEnabled 1 true (setSlotText 0 "MSFT" on0).1).1).1.

Definition inputs_40_60 (ticker : string) : float :=
  if decide (ticker = "MSFT") then 40%float else 60%float.

Definition forty_sixty : session float := script inputs_40_60 msft_aapl.

Lemma forty_sixty_reachable : reachable forty_sixty.
Proof.
  unfold forty_sixty, msft_aapl.
  after_script. after_text. after_enable. after_text. apply on0_reachable.
Qed.

(** C6 on app_v3.py: row 0 is enabled and holds MSFT, AAPL has an entry at 60
    through row 1.  The text [" aapl "] in row 0 is accepted and commits
    AAPL, but the entry that exists is not kept: "Clear invalid data when
    ticker changes" removes the entry of the new text, the guards of
    "Validate new ticker" then find none and insert AAPL again at 0, and the
    renormalisation leaves MSFT at 100 and AAPL at 0. *)
Theorem existing_entry_reset :
  reachable forty_sixty /\
  enable_ forty_sixty 0 = true /\
  holds forty_sixty 0 "MSFT" /\ holds forty_sixty 1 "AAPL" /\
  weights forty_sixty = [("MSFT", 40%float); ("AAPL", 60%float)] /\
  (setSlotText 0 " aapl " forty_sixty).2 = [] /\
  holds (setSlotText 0 " aapl " forty_sixty).1 0 "AAPL" /\
  weights (setSlotText 0 " aapl " forty_sixty).1
    = [("MSFT", 100%float); ("AAPL", 0%float)] /\
  valid_tickers (setSlotText 0 " aapl " forty_sixty).1 = ["MSFT"; "AAPL"].
Proof.
  split; [exact forty_sixty_reachable|].
  repeat split; vm_compute; reflexivity.
Qed.

End SlotOperations.

(** ** app.py: weight edits, the reset block and the auto-balance block *)

Module AppFacts.
Import App.
Local Open Scope Qc_scope.

Section Generic.
Context {W : Type} `{Arith W}.
Variable float_of_str : string -> option W.
Implicit Types (s : session W).

(** The specification's reading of a weight edit for a Symbol that is not a
    key: nothing happens to the weight table. *)
Definition unknown_symbol_noop : Prop :=
  forall ticker s,
    Dict.mem ticker (weights s) = false ->
    weights (update_weight_from_text float_of_str ticker s) = weights s.

(** C7, as amended: [update_weight_from_text] returns a session on every input
    (the bare [except] swallows a missing text field and an unparsable text).
    For a Symbol that is not a key, the weight table is unchanged when the
    text field is missing or does not parse; when it parses, an entry for the
    Symbol is created, last, with the value clamped to [0, 100]. *)
Theorem unknown_symbol_upsert (ticker : string) s :
  Dict.mem ticker (weights s) = false ->
  weights (update_weight_from_text float_of_str ticker s) =
    match Dict.get ticker (text_ s) with
    | None => weights s
    | Some x =>
        match py_float float_of_str x with
        | inl _ => weights s
        | inr value => weights s ++ [(ticker, clamp value)]
        end
    end.
Proof.
  intros Hfresh. apply DictFacts.mem_false in Hfresh.
  unfold update_weight_from_text, update_weight_try.
  destruct (Dict.get ticker (text_ s)) as [x|]; [|reflexivity].
  destruct (py_float float_of_str x) as [e|value]; [reflexivity|].
  simpl. apply DictFacts.set_fresh, Hfresh.
Qed.

(** The reset block: when the selected tickers differ from those of the run
    before, every weight is replaced by the equal split. *)
Lemma reset_weights_changed (selected : list string) s :
  prev_tickers s <> Some selected ->
  NoDup selected ->
  selected <> [] ->
  weights (reset_weights selected s)
    = (fun t => (t, div (of_nat 100) (of_nat (length selected)))) <$> selected.
Proof.
  intros Hprev Hnd Hne. unfold reset_weights.
  rewrite (bool_decide_eq_false_2 _ Hprev). simpl.
  destruct selected as [|t r]; [contradiction|].
  simpl Nat.ltb. cbv iota. simpl weights.
  apply DictFacts.comprehension_nodup, Hnd.
Qed.

Lemma reset_weights_same (selected : list string) s :
  prev_tickers s = Some selected -> reset_weights selected s = s.
Proof.
  intros Hprev. unfold reset_weights.
  rewrite (bool_decide_eq_true_2 _ Hprev). reflexivity.
Qed.

End Generic.

(** A stand-in for the builtin [float] that reads the one text of an example. *)
Definition reads {W : Type} (text : string) (value : W) (t : string) : option W :=
  if decide (t = text) then Some value else None.

(** The weight table does not depend on how [f"{v:.1f}"] prints. *)
Definition unformatted {W : Type} (v : W) : string := "".

(** The sidebar with the first rows enabled and filled in, the rest off. *)
Definition enabled_rows (n : nat) (i : nat) : bool := bool_decide (i < n)%nat.
Definition row_texts (l : list string) (i : nat) : string := default "" (l !! i).

(** C7, as the specification has it, fails: a weight edit for a Symbol without
    an entry, whose text field reads 50, creates the entry (binary64). *)
Lemma unknown_symbol_entry_created : ~ unknown_symbol_noop (reads "50" 50%float).
Proof.
  intros Hc.
  specialize (Hc "AAPL" (set_text [("AAPL", PStr "50")] init) eq_refl).
  vm_compute in Hc. discriminate Hc.
Qed.

Lemma unknown_symbol_upsert_witness :
  weights (update_weight_from_text (reads "50" 50%float) "AAPL"
             (set_text [("AAPL", PStr "50")] init))
  = match Dict.get "AAPL" (text_ (set_text [("AAPL", PStr "50")] (init (W:=float)))) with
    | None => weights (set_text [("AAPL", PStr "50")] (init (W:=float)))
    | Some x =>
        match py_float (reads "50" 50%float) x with
        | inl _ => weights (set_text [("AAPL", PStr "50")] (init (W:=float)))
        | inr value =>
            weights (set_text [("AAPL", PStr "50")] (init (W:=float)))
              ++ [("AAPL", clamp value)]
        end
    end.
Proof.
  apply (unknown_symbol_upsert (reads "50" 50%float) "AAPL"
           (set_text [("AAPL", PStr "50")] init)).
  vm_compute. reflexivity.
Defined.

(** *** The auto-balance block on a zero total *)

(** With a zero total the block divides by zero at the first selected ticker
    and the exception leaves the session as it was (exact arithmetic). *)
Lemma auto_balance_zero_total (format_1f : Qc -> string) (drawn : list string)
  (ticker : string) (rest : list string) (s : session Qc) :
  Dict.mem ticker (weights s) = true ->
  PyList.sum (Dict.values (weights s)) = 0 ->
  auto_balance format_1f drawn (ticker :: rest) s = Raised ZeroDivisionError s.
Proof.
  intros Hin Hz. unfold auto_balance. rewrite Hz.
  assert (ltb tenth (absv (sub (0 : Qc) (of_nat 100))) = true) as -> by (vm_compute; reflexivity).
  cbn [balance_loop]. destruct (Dict.get ticker (weights s)) as [w|] eqn:Hg.
  - unfold py_div.
    rewrite (proj2 (QcFacts.eqb_eq 0 (of_nat 0))) by reflexivity. reflexivity.
  - apply DictFacts.get_none in Hg. apply DictFacts.mem_true in Hin. contradiction.
Qed.

(** One ticker, AAPL, in row 0; then the user types 0 into its weight field. *)
Definition one_ticker : session float :=
  final (script unformatted (enabled_rows 1) (row_texts ["aapl"]) init).2.

Definition typed_zero : session float :=
  update_weight_from_text (reads "0" 0%float) "AAPL"
    (set_text (Dict.set "AAPL" (PStr "0") (text_ one_ticker)) one_ticker).

(** C1 on app.py: after that edit the run of the script ends in
    [ZeroDivisionError] inside the auto-balance block, and the session is left
    with the non-empty table AAPL 0, whose sum is further than 0.1 from 100;
    every later run with the same tickers ends the same way (binary64). *)
Theorem zero_weight_breaks_sum :
  weights one_ticker = [("AAPL", 100%float)] /\
  weights typed_zero = [("AAPL", 0%float)] /\
  script unformatted (enabled_rows 1) (row_texts ["aapl"]) typed_zero
    = (["AAPL"], Raised ZeroDivisionError typed_zero) /\
  ltb tenth (absv (sub (PyList.sum (Dict.values (weights typed_zero))) (of_nat 100))) = true.
Proof. repeat split; vm_compute; reflexivity. Qed.

(** *** Disabling a row *)

(** AAPL 60 and MSFT 40 selected in rows 0 and 1. *)
Definition selected_60_40 : session float := {|
  weights := [("AAPL", 60%float); ("MSFT", 40%float)];
  tickers := ["AAPL"; "MSFT"; ""; ""; ""];
  prev_tickers := Some ["AAPL"; "MSFT"];
  text_ := [];
  slider_ := []
|}.

(** The script of app.py, run with row 0 unchecked, rebuilds the table from the
    rows that are still enabled: MSFT alone, at 100. *)
Example disable_rebuilds_table :
  let run := script unformatted (fun i => bool_decide (i = 1%nat))
               (row_texts ["aapl"; "msft"]) selected_60_40 in
  run.1 = ["MSFT"] /\ weights (final run.2) = [("MSFT", 100%float)].
Proof. split; vm_compute; reflexivity. Qed.

End AppFacts.

(** ** app_v3.py: laws of the callbacks *)

Module HandlerLaws.
Import AppV3 V3Facts V3Exact SlotOperations.

Section Generic.
Context {W : Type} `{Arith W}.
Implicit Types (s : session W).

Lemma script_valid_tickers (weight_ : string -> W) s :
  valid_tickers (script weight_ s) = valid_tickers s.
Proof. destruct (script_frame weight_ s) as (_ & _ & _ & Hv). exact Hv. Qed.

(** X1.  Nothing the user can do takes a Symbol out of the registry: a Symbol that
    is in [valid_tickers] (and so in the weight table) before a step of the
    user interface is still there after it. *)
Theorem registered_stays s s' :
  reachable s -> step s s' ->
  valid_tickers s ⊆ valid_tickers s' /\
  Dict.keys (weights s) ⊆ Dict.keys (weights s').
Proof.
  intros Hreach Hstep.
  destruct (reachable_ok s Hreach) as [Hr Hs].
  destruct (reachable_ok s' (reachable_step s s' Hreach Hstep)) as [[_ Hk' _] _].
  assert (valid_tickers s ⊆ valid_tickers s') as Hsub.
  { destruct Hr as [Hnd Hk Hsym]. destruct Hs as [Hst Hda Hli Hln].
    destruct Hstep as [i b s _ | i raw s _ Hen Hraw | s | weight_ s].
    - unfold setSlotEnabled.
      rewrite (handle_valid_tickers i (with_enable i b s) Hk). cbv zeta.
      assert (committed (with_enable i b s) i = stored_value i (with_enable i b s)) as Hsame
        by (symmetry; apply Hst).
      rewrite (bool_decide_eq_true_2 _ Hsame).
      destruct (_ && _); [|reflexivity].
      intros k Hin. apply elem_of_app. left. exact Hin.
    - unfold setSlotText.
      rewrite (handle_valid_tickers i (with_ticker i raw s) Hk). cbv zeta.
      rewrite validate_committed, committed_with_ticker.
      simpl enable_. simpl valid_tickers. rewrite Hen.
      set (t := Text.upper (Text.strip raw)).
      set (cleared := if bool_decide (t = stored_value i (with_ticker i raw s))
                      then valid_tickers s else PyList.remove t (valid_tickers s)).
      intros k Hin.
      destruct (decide (k = t)) as [->|Hne].
      + rewrite Forall_forall in Hsym. rewrite (Hsym _ Hin).
        rewrite (bool_decide_eq_false_2 (t = ""))
          by (apply TextFacts.letters_nonempty, Hsym, Hin).
        simpl. destruct (bool_decide (t ∈ cleared)) eqn:E; simpl.
        * apply bool_decide_eq_true in E. exact E.
        * apply elem_of_app. right. left.
      + assert (k ∈ cleared) as Hc.
        { unfold cleared. destruct (bool_decide _); [exact Hin|].
          apply DictFacts.elem_of_remove; [exact Hnd | split; assumption]. }
        destruct (_ && _); [|exact Hc]. apply elem_of_app. left. exact Hc.
    - rewrite normalize_valid_tickers. reflexivity.
    - rewrite script_valid_tickers. reflexivity. }
  split; [exact Hsub|].
  destruct Hr as [_ Hk _]. rewrite Hk, Hk'. exact Hsub.
Qed.

Lemma elem_of_remove_other (x y : string) (l : list string) :
  y <> x -> (y ∈ PyList.remove x l <-> y ∈ l).
Proof.
  intros Hne. induction l as [|z r IH]; simpl; [reflexivity|].
  destruct (decide (x = z)) as [->|Hxz].
  - rewrite elem_of_cons. split; [intros ?; right; assumption|].
    intros [?|?]; [contradiction | assumption].
  - rewrite !elem_of_cons, IH. reflexivity.
Qed.

(** X3.  The callback for one row leaves the widget values alone, leaves the
    stored state of every other row alone, and neither adds nor removes any
    Symbol other than the text of its own row. *)
Theorem other_rows_untouched (index : nat) s :
  Dict.keys (weights s) = valid_tickers s ->
  ticker_ (handle_ticker_change index s).1 = ticker_ s /\
  enable_ (handle_ticker_change index s).1 = enable_ s /\
  (forall j, j <> index ->
     ticker_data (handle_ticker_change index s).1 !! j = ticker_data s !! j) /\
  (forall k, k <> committed s index ->
     (k ∈ valid_tickers (handle_ticker_change index s).1 <-> k ∈ valid_tickers s)).
Proof.
  intros Hk. destruct (handle_frame index s) as (Ht & He & Hd).
  split; [exact Ht|]. split; [exact He|]. split.
  - intros j Hne. rewrite Hd. apply lookup_insert_ne. congruence.
  - intros k Hne. rewrite (handle_valid_tickers index s Hk). cbv zeta.
    set (cleared := if bool_decide (committed s index = stored_value index s)
                    then valid_tickers s
                    else PyList.remove (committed s index) (valid_tickers s)).
    assert (k ∈ cleared <-> k ∈ valid_tickers s) as Hc.
    { unfold cleared. destruct (bool_decide _); [reflexivity|].
      apply elem_of_remove_other, Hne. }
    destruct (_ && _); [|exact Hc].
    rewrite elem_of_app, Hc, list_elem_of_singleton. tauto.
Qed.

Lemma session_ext s s' :
  ticker_ s = ticker_ s' -> enable_ s = enable_ s' ->
  ticker_data s = ticker_data s' -> weights s = weights s' ->
  valid_tickers s = valid_tickers s' -> s = s'.
Proof.
  destruct s, s'. simpl. intros -> -> -> -> ->. reflexivity.
Qed.

End Generic.

(** *** Exact arithmetic *)

Local Open Scope Qc_scope.
Implicit Types (s : session Qc).

(** X4.  In every reachable session in which no two enabled rows show the
    same ticker, both tables are empty, or neither is and the weights sum to
    exactly 100.  (Where two rows do, Streamlit ends every run of the script
    in the rows, before it renormalises, and the sum is whatever the weight
    inputs drawn until then returned.) *)
Theorem weights_sum_to_100 s :
  reachable s ->
  NoDup (shown_tickers s) ->
  (valid_tickers s = [] /\ weights s = []) \/
  (valid_tickers s <> [] /\ PyList.sum (Dict.values (weights s)) = of_nat 100).
Proof.
  intros Hreach Hshown. destruct (reachable_ok s Hreach) as [[_ Hk _] _].
  destruct (reachable_normalized s Hreach Hshown) as [Hnil|H100].
  - left. rewrite <- Hk, Hnil. split; reflexivity.
  - right. split; [|exact H100]. intros Hv. rewrite Hv in Hk.
    destruct (weights s); [|discriminate Hk].
    apply QcFacts.of_nat_100_neq_0. rewrite <- H100. reflexivity.
Qed.

Lemma weights_sum_to_100_witness :
  (valid_tickers sixty_forty_exact = [] /\ weights sixty_forty_exact = []) \/
  (valid_tickers sixty_forty_exact <> [] /\
   PyList.sum (Dict.values (weights sixty_forty_exact)) = of_nat 100).
Proof.
  apply (weights_sum_to_100 sixty_forty_exact).
  - apply sixty_forty_exact_reachable.
  - apply sixty_forty_exact_shown.
Defined.

(** Two enabled rows showing AAPL, the weight input of the first at 30: the
    run stores the 30 and is ended at the second row (binary64). *)
Example shared_ticker_ends_run :
  weight_rows (fun _ => 30%float) aapl_twice
    = (set_weights [("AAPL", 30%float)] aapl_twice, Some DuplicateWidgetID) /\
  weights (script (fun _ => 30%float) aapl_twice) = [("AAPL", 30%float)].
Proof. split; vm_compute; reflexivity. Qed.

(** Running the callback of a row a second time, with nothing edited in
    between, changes nothing and reports the same. *)
Lemma handle_twice (index : nat) s :
  registry_ok s ->
  handle_ticker_change index (handle_ticker_change index s).1
  = handle_ticker_change index s.
Proof.
  intros Hr.
  pose proof (handle_registry index s Hr) as Hr1.
  pose proof (handle_normalized index s Hr) as Hn1.
  destruct (handle_frame index s) as (Ht & He & Hd).
  pose proof (stored_value_handle index index s) as Hst.
  rewrite decide_True in Hst by reflexivity.
  pose proof (committed_handle index index s) as Hc.
  set (r1 := (handle_ticker_change index s).1) in *.
  assert (committed r1 index = stored_value index r1) as Hsame by congruence.
  assert (Dict.keys (weights r1) = valid_tickers r1) as Hk1 by (destruct Hr1; assumption).
  assert (enable_ r1 index && negb (bool_decide (committed r1 index = ""))
          && validate_ticker (committed r1 index) = true ->
          committed r1 index ∈ valid_tickers r1) as Hacc.
  { intros Ha. destruct Hr as [_ Hk _]. unfold r1 at 2.
    rewrite (handle_valid_tickers index s Hk). cbv zeta.
    rewrite Hc, He in Ha. rewrite Hc, Ha. simpl.
    destruct (bool_decide (committed s index ∈ _)) eqn:E; simpl.
    - apply bool_decide_eq_true in E. exact E.
    - apply elem_of_app. right. left. }
  assert (valid_tickers (handle_ticker_change index r1).1 = valid_tickers r1) as Hv2.
  { rewrite (handle_valid_tickers index r1 Hk1). cbv zeta.
    rewrite (bool_decide_eq_true_2 _ Hsame).
    destruct (enable_ r1 index && negb (bool_decide (committed r1 index = ""))
              && validate_ticker (committed r1 index)) eqn:Ea; [|reflexivity].
    rewrite (bool_decide_eq_true_2 _ (Hacc eq_refl)). reflexivity. }
  apply injective_projections.
  - apply session_ext.
    + destruct (handle_frame index r1) as (Ht2 & _ & _). exact Ht2.
    + destruct (handle_frame index r1) as (_ & He2 & _). exact He2.
    + destruct (handle_frame index r1) as (_ & _ & Hd2).
      rewrite Hd2, Hc, He, Hd. rewrite insert_insert_eq. symmetry. exact Hd.
    + rewrite (handle_weights index r1 Hk1), Hv2.
      rewrite (bool_decide_eq_true_2 _ Hsame). unfold Dict.mem. rewrite Hk1.
      destruct (enable_ r1 index && negb (bool_decide (committed r1 index = ""))
                && validate_ticker (committed r1 index)) eqn:Ea.
      * rewrite (bool_decide_eq_true_2 _ (Hacc eq_refl)). simpl.
        apply renormalize_stable; assumption.
      * simpl. apply renormalize_stable; assumption.
    + exact Hv2.
  - rewrite !handle_errors, Hc, He. reflexivity.
Qed.

(** X5.  The slot operations are idempotent: after [setSlotText] or
    [setSlotEnabled] on a reachable session, the callback of the same row can
    run again and the session and the messages stay the same. *)
Theorem callback_idempotent (i : nat) (raw : string) (b : bool) s :
  reachable s ->
  handle_ticker_change i (setSlotText i raw s).1 = setSlotText i raw s /\
  handle_ticker_change i (setSlotEnabled i b s).1 = setSlotEnabled i b s.
Proof.
  intros Hreach. destruct (reachable_ok s Hreach) as [Hr _].
  split; apply handle_twice.
  - apply with_ticker_registry, Hr.
  - apply with_enable_registry, Hr.
Qed.

Lemma callback_idempotent_witness :
  handle_ticker_change 0 (setSlotText 0 "goog" sixty_forty_exact).1
    = setSlotText 0 "goog" sixty_forty_exact /\
  handle_ticker_change 0 (setSlotEnabled 0 false sixty_forty_exact).1
    = setSlotEnabled 0 false sixty_forty_exact.
Proof.
  apply (callback_idempotent 0 "goog" false sixty_forty_exact).
  apply sixty_forty_exact_reachable.
Defined.

Lemma registered_stays_witness :
  valid_tickers aapl_msft_exact ⊆ valid_tickers (setSlotText 0 "goog" aapl_msft_exact).1 /\
  Dict.keys (weights aapl_msft_exact)
    ⊆ Dict.keys (weights (setSlotText 0 "goog" aapl_msft_exact).1).
Proof.
  apply (registered_stays aapl_msft_exact).
  - apply aapl_msft_exact_reachable.
  - apply step_text; [lia | vm_compute; reflexivity | one_line].
Defined.

Lemma other_rows_untouched_witness :
  ticker_ (handle_ticker_change 1 aapl_msft_exact).1 = ticker_ aapl_msft_exact /\
  enable_ (handle_ticker_change 1 aapl_msft_exact).1 = enable_ aapl_msft_exact /\
  (forall j, j <> 1%nat ->
     ticker_data (handle_ticker_change 1 aapl_msft_exact).1 !! j
     = ticker_data aapl_msft_exact !! j) /\
  (forall k, k <> committed aapl_msft_exact 1 ->
     (k ∈ valid_tickers (handle_ticker_change 1 aapl_msft_exact).1
      <-> k ∈ valid_tickers aapl_msft_exact)).
Proof.
  apply (other_rows_untouched 1 aapl_msft_exact). vm_compute. reflexivity.
Defined.

Lemma get_app_absent {V : Type} (k : string) (d d' : list (string * V)) :
  k ∉ Dict.keys d -> Dict.get k (d ++ d') = Dict.get k d'.
Proof.
  induction d as [|[k0 v0] r IH]; simpl; [reflexivity|].
  intros [Hne Hr]%not_elem_of_cons. rewrite decide_False by exact Hne. exact (IH Hr).
Qed.

Lemma remove_gone (x : string) (l : list string) : NoDup l -> x ∉ PyList.remove x l.
Proof.
  intros Hnd Hin. apply (DictFacts.elem_of_remove x x l Hnd) in Hin as [_ Hne].
  contradiction.
Qed.

Lemma renormalize_nonzero (valid : list string) (w : list (string * Qc)) :
  PyList.sum (Dict.values w) <> 0 ->
  renormalize valid w = rescale (PyList.sum (Dict.values w)) w.
Proof.
  intros Hsum.
  exact (proj1 (normalize_nonzero_sum (set_valid_tickers valid (set_weights w init)) Hsum)).
Qed.

(** X6.  Committing, through one row, a Symbol that already has an entry but is not
    the text stored for that row discards the entry and registers the Symbol
    anew, last and with weight 0, before the table is renormalised: whatever
    weight the Symbol had is lost, and it ends at 0 unless all the other
    weights sum to 0. *)
Theorem recommit_resets_weight (i : nat) (raw : string) s :
  reachable s ->
  enable_ s i = true ->
  Text.upper (Text.strip raw) ∈ Dict.keys (weights s) ->
  stored_value i s <> Text.upper (Text.strip raw) ->
  valid_tickers (setSlotText i raw s).1
    = PyList.remove (Text.upper (Text.strip raw)) (valid_tickers s)
      ++ [Text.upper (Text.strip raw)] /\
  weights (setSlotText i raw s).1
    = renormalize (valid_tickers (setSlotText i raw s).1)
        (Dict.del (Text.upper (Text.strip raw)) (weights s)
         ++ [(Text.upper (Text.strip raw), of_nat 0)]) /\
  (PyList.sum (Dict.values (Dict.del (Text.upper (Text.strip raw)) (weights s))) <> 0 ->
   Dict.get (Text.upper (Text.strip raw)) (weights (setSlotText i raw s).1)
   = Some (of_nat 0)).
Proof.
  intros Hreach Hen Hin Hst.
  destruct (reachable_ok s Hreach) as [[Hnd Hk Hsym] _].
  set (t := Text.upper (Text.strip raw)) in *.
  assert (Text.letters_1_5 t = true) as Hval.
  { rewrite Forall_forall in Hsym. apply Hsym. rewrite <- Hk. exact Hin. }
  assert (t <> "") as Hne by (apply TextFacts.letters_nonempty, Hval).
  assert (t ∉ Dict.keys (Dict.del t (weights s))) as Hgone.
  { rewrite DictFacts.keys_del, Hk. apply remove_gone, Hnd. }
  unfold setSlotText.
  pose proof (handle_valid_tickers i (with_ticker i raw s) Hk) as Hv. cbv zeta in Hv.
  pose proof (handle_weights i (with_ticker i raw s) Hk) as Hw.
  rewrite validate_committed, committed_with_ticker in Hv, Hw. fold t in Hv, Hw.
  simpl enable_ in Hv, Hw. simpl valid_tickers in Hv. simpl weights in Hw.
  rewrite stored_with_ticker in Hv, Hw.
  assert (bool_decide (t = stored_value i s) = false) as Hb
    by (apply bool_decide_eq_false_2; congruence).
  rewrite Hb, Hen, Hval, (bool_decide_eq_false_2 _ Hne) in Hv, Hw.
  rewrite (bool_decide_eq_false_2 _ (remove_gone t _ Hnd)) in Hv.
  unfold Dict.mem in Hw. rewrite (bool_decide_eq_false_2 _ Hgone) in Hw.
  simpl in Hv, Hw. split; [exact Hv|]. split; [exact Hw|].
  intros Hsum.
  assert (PyList.sum (Dict.values (Dict.del t (weights s) ++ [(t, of_nat 0)])) <> 0) as Hsum'.
  { rewrite sum_with_zero. exact Hsum. }
  rewrite Hw, (renormalize_nonzero _ _ Hsum').
  unfold rescale at 1. rewrite fmap_app, get_app_absent.
  - simpl. rewrite decide_True by reflexivity.
    f_equal; rewrite ?QcFacts.of_nat_0; unfold Qcdiv; ring.
  - fold (rescale (PyList.sum (Dict.values (Dict.del t (weights s) ++ [(t, of_nat 0)])))
            (Dict.del t (weights s))).
    rewrite keys_rescale. exact Hgone.
Qed.

Lemma recommit_resets_weight_witness :
  valid_tickers (setSlotText 1 "aapl" sixty_forty_exact).1
    = PyList.remove (Text.upper (Text.strip "aapl")) (valid_tickers sixty_forty_exact)
      ++ [Text.upper (Text.strip "aapl")] /\
  weights (setSlotText 1 "aapl" sixty_forty_exact).1
    = renormalize (valid_tickers (setSlotText 1 "aapl" sixty_forty_exact).1)
        (Dict.del (Text.upper (Text.strip "aapl")) (weights sixty_forty_exact)
         ++ [(Text.upper (Text.strip "aapl"), of_nat 0)]) /\
  (PyList.sum (Dict.values (Dict.del (Text.upper (Text.strip "aapl"))
                              (weights sixty_forty_exact))) <> 0 ->
   Dict.get (Text.upper (Text.strip "aapl")) (weights (setSlotText 1 "aapl" sixty_forty_exact).1)
   = Some (of_nat 0)).
Proof.
  apply (recommit_resets_weight 1 "aapl" sixty_forty_exact).
  - apply sixty_forty_exact_reachable.
  - vm_compute. reflexivity.
  - refine (bool_decide_unpack _ _). vm_compute. exact I.
  - vm_compute. discriminate.
Defined.

(** AAPL stood at 60; committed once more through row 1 it stands at 0 and
    MSFT has everything. *)
Example recommit_60_becomes_0 :
  weights (setSlotText 1 "aapl" sixty_forty).1 = [("MSFT", 100%float); ("AAPL", 0%float)].
Proof. vm_compute. reflexivity. Qed.

Lemma set_same {V : Type} (k : string) (v : V) (d : list (string * V)) :
  Dict.get k d = Some v -> Dict.set k v d = d.
Proof.
  induction d as [|[k0 v0] r IH]; simpl; [discriminate|].
  destruct (decide (k = k0)) as [->|Hne].
  - intros [= ->]. reflexivity.
  - intros Hg. f_equal. exact (IH Hg).
Qed.

Lemma get_present {V : Type} (k : string) (d : list (string * V)) :
  k ∈ Dict.keys d -> exists v, Dict.get k d = Some v.
Proof.
  intros Hin. destruct (Dict.get k d) as [v|] eqn:E; [exists v; reflexivity|].
  apply DictFacts.get_none in E. contradiction.
Qed.

Lemma weight_row_unedited (weight_ : string -> Qc) s (i : nat) :
  registry_ok s -> slots_ok s ->
  (forall t v, Dict.get t (weights s) = Some v -> weight_ t = v) ->
  weights (weight_row weight_ s i) = weights s.
Proof.
  intros [Hnd Hk Hsym] [Hst Hda Hli Hln] Hsame. unfold weight_row.
  destruct (enable_ s i) eqn:Hen; simpl; [|reflexivity].
  destruct (bool_decide (ticker_ s i = "")); simpl; [reflexivity|].
  destruct (validate_ticker (ticker_ s i)) eqn:Hval; [|reflexivity].
  unfold validate_ticker in Hval.
  rewrite (TextFacts.single_line_match _ (Hln i)) in Hval.
  assert (committed s i = ticker_ s i) as Hc by (apply TextFacts.letters_normal, Hval).
  assert (ticker_ s i ∈ Dict.keys (weights s)) as Hin.
  { rewrite Hk, <- Hc. apply Hli; [exact Hen|]. rewrite validate_committed, Hc. exact Hval. }
  destruct (get_present _ _ Hin) as [v Hv]. simpl.
  rewrite (Hsame _ _ Hv). apply set_same, Hv.
Qed.

Lemma weight_rows_unedited (weight_ : string -> Qc) (rows : list nat)
  (drawn : list string) s :
  registry_ok s -> slots_ok s ->
  (forall t v, Dict.get t (weights s) = Some v -> weight_ t = v) ->
  weights (weight_rows_from weight_ rows drawn s).1 = weights s.
Proof.
  revert drawn s. induction rows as [|i r IH]; intros drawn s Hr Hs Hsame; simpl;
    [reflexivity|].
  destruct (shows_weight s i); [|apply IH; assumption].
  destruct (bool_decide (ticker_ s i ∈ drawn)); [reflexivity|].
  pose proof (weight_row_unedited weight_ s i Hr Hs Hsame) as Hw.
  destruct (weight_row_frame weight_ s i) as (Ht & He & Hd & Hv).
  rewrite IH; [exact Hw | | |].
  - apply weight_row_registry; assumption.
  - exact (slots_ok_frame s _ Ht He Hd Hv Hs).
  - rewrite Hw. exact Hsame.
Qed.

(** X7.  A run of the script in which every weight input shows the weight the
    table already has changes neither table: weights the user entered survive
    the reruns that other interactions cause. *)
Theorem rerun_keeps_weights (weight_ : string -> Qc) s :
  reachable s ->
  (forall t v, Dict.get t (weights s) = Some v -> weight_ t = v) ->
  weights (script weight_ s) = weights s /\
  valid_tickers (script weight_ s) = valid_tickers s.
Proof.
  intros Hreach Hsame. destruct (reachable_ok s Hreach) as [Hr Hs].
  split; [|apply script_valid_tickers].
  pose proof (weight_rows_unedited weight_ (seq 0 5) [] s Hr Hs Hsame) as Hw.
  fold (weight_rows weight_ s) in Hw.
  destruct (weight_rows_ok weight_ s Hr Hs) as [Hr' _].
  pose proof (weight_rows_end weight_ s) as Hend.
  unfold script. destruct (weight_rows weight_ s) as [s1 [e|]]; simpl in *; [exact Hw|].
  unfold main_area. destruct (valid_tickers s1); [exact Hw|].
  rewrite normalized_fixed; [exact Hw | exact Hr' |].
  rewrite Hw. apply reachable_normalized; [exact Hreach | apply Hend; reflexivity].
Qed.

Definition shown_60_40 (ticker : string) : Qc :=
  default (of_nat 0) (Dict.get ticker (weights sixty_forty_exact)).

Lemma rerun_keeps_weights_witness :
  weights (script shown_60_40 sixty_forty_exact) = weights sixty_forty_exact /\
  valid_tickers (script shown_60_40 sixty_forty_exact) = valid_tickers sixty_forty_exact.
Proof.
  apply (rerun_keeps_weights shown_60_40 sixty_forty_exact).
  - apply sixty_forty_exact_reachable.
  - intros t v Hv. unfold shown_60_40. rewrite Hv. reflexivity.
Defined.

(** X8.  Symbols are registered in the order in which they were committed, not in
    row order, and a Symbol stays registered when its row is retyped: after
    two commits of new Symbols, into any two enabled rows or twice into the
    same row, both are registered and both have an entry, the first before
    the second. *)
Theorem registry_in_commit_order (i j : nat) (raw1 raw2 : string) s :
  reachable s ->
  (i < 5)%nat -> enable_ s i = true -> Text.single_line raw1 ->
  enable_ s j = true ->
  Text.letters_1_5 (Text.upper (Text.strip raw1)) = true ->
  Text.letters_1_5 (Text.upper (Text.strip raw2)) = true ->
  Text.upper (Text.strip raw1) ∉ Dict.keys (weights s) ->
  Text.upper (Text.strip raw2) ∉ Dict.keys (weights s) ->
  Text.upper (Text.strip raw1) <> Text.upper (Text.strip raw2) ->
  valid_tickers (setSlotText j raw2 (setSlotText i raw1 s).1).1
    = valid_tickers s ++ [Text.upper (Text.strip raw1); Text.upper (Text.strip raw2)] /\
  Dict.keys (weights (setSlotText j raw2 (setSlotText i raw1 s).1).1)
    = valid_tickers s ++ [Text.upper (Text.strip raw1); Text.upper (Text.strip raw2)].
Proof.
  intros Hreach Hi Hen1 Hline Hen2 Hv1 Hv2 Hf1 Hf2 Hne.
  set (t1 := Text.upper (Text.strip raw1)) in *.
  set (t2 := Text.upper (Text.strip raw2)) in *.
  destruct (reachable_ok s Hreach) as [Hr _].
  assert (forall (k : nat) (raw : string) (s0 : session Qc),
            registry_ok s0 -> enable_ s0 k = true ->
            Text.letters_1_5 (Text.upper (Text.strip raw)) = true ->
            Text.upper (Text.strip raw) ∉ Dict.keys (weights s0) ->
            valid_tickers (setSlotText k raw s0).1
              = valid_tickers s0 ++ [Text.upper (Text.strip raw)] /\
            registry_ok (setSlotText k raw s0).1 /\
            enable_ (setSlotText k raw s0).1 = enable_ s0) as Hcommit.
  { intros k raw s0 Hr0 Hen Hval Hfresh. unfold setSlotText.
    pose proof (handle_fresh k (with_ticker k raw s0) (with_ticker_registry k raw s0 Hr0))
      as Hf.
    rewrite validate_committed, committed_with_ticker in Hf.
    simpl enable_ in Hf. simpl weights in Hf. simpl valid_tickers in Hf.
    rewrite Hen, Hval in Hf. simpl in Hf. destruct (Hf Hfresh) as [Hv _].
    split; [exact Hv|]. split.
    - apply handle_registry, with_ticker_registry, Hr0.
    - destruct (handle_frame k (with_ticker k raw s0)) as (_ & He & _). exact He. }
  destruct (Hcommit i raw1 s Hr Hen1 Hv1 Hf1) as (Hvt1 & Hr1 & He1).
  fold t1 in Hvt1.
  set (s1 := (setSlotText i raw1 s).1) in *.
  assert (Dict.keys (weights s1) = valid_tickers s ++ [t1]) as Hk1.
  { destruct Hr1 as [_ Hk _]. rewrite Hk. exact Hvt1. }
  assert (t2 ∉ Dict.keys (weights s1)) as Hf2'.
  { rewrite Hk1. destruct Hr as [_ Hk _]. rewrite <- Hk.
    intros [Hin|Hin]%elem_of_app; [contradiction|].
    apply list_elem_of_singleton in Hin. congruence. }
  assert (enable_ s1 j = true) as Hen2' by (rewrite He1; exact Hen2).
  destruct (Hcommit j raw2 s1 Hr1 Hen2' Hv2 Hf2') as (Hvt2 & Hr2 & _).
  fold t2 in Hvt2.
  assert (valid_tickers (setSlotText j raw2 s1).1 = valid_tickers s ++ [t1; t2]) as Hvt.
  { rewrite Hvt2, Hvt1, <- app_assoc. reflexivity. }
  split; [exact Hvt|]. destruct Hr2 as [_ Hk _]. rewrite Hk. exact Hvt.
Qed.

(** Row 0 alone, typed over: AAPL, then MSFT. *)
Lemma registry_in_commit_order_witness :
  valid_tickers (setSlotText 0 "msft" (setSlotText 0 "aapl" (on0 (W:=Qc))).1).1
    = valid_tickers (on0 (W:=Qc))
        ++ [Text.upper (Text.strip "aapl"); Text.upper (Text.strip "msft")] /\
  Dict.keys (weights (setSlotText 0 "msft" (setSlotText 0 "aapl" (on0 (W:=Qc))).1).1)
    = valid_tickers (on0 (W:=Qc))
        ++ [Text.upper (Text.strip "aapl"); Text.upper (Text.strip "msft")].
Proof.
  apply (registry_in_commit_order 0 0 "aapl" "msft" on0).
  - apply on0_reachable.
  - lia.
  - vm_compute. reflexivity.
  - one_line.
  - vm_compute. reflexivity.
  - vm_compute. reflexivity.
  - vm_compute. reflexivity.
  - intros Hin. vm_compute in Hin. inversion Hin.
  - intros Hin. vm_compute in Hin. inversion Hin.
  - discriminate.
Defined.

End HandlerLaws.

(** ** app_v3.py: what the main area hands to the chart and the backtest *)

Module MainArea.
Import AppV3 V3Facts V3Exact.

Section Program.
Context {W : Type} `{Arith W}.

(** [{k: v/100 for k, v in st.session_state.weights.items()
         if k in st.session_state.valid_tickers}] *)
Definition valid_weights (s : session W) : list (string * W) :=
  prod_map id (fun v => div v (of_nat 100))
    <$> filter (fun kv => kv.1 ∈ valid_tickers s) (weights s).

End Program.

Local Open Scope Qc_scope.

Lemma filter_all {A : Type} (P : A -> Prop) `{forall x, Decision (P x)} (l : list A) :
  Forall P l -> filter P l = l.
Proof.
  induction 1 as [|x r Hx Hr IH]; [reflexivity|].
  rewrite filter_cons_True by exact Hx. f_equal. exact IH.
Qed.

Lemma fractions_of_normalized (s : session Qc) :
  registry_ok s -> valid_tickers s <> [] -> normalized (weights s) ->
  Dict.keys (valid_weights s) = valid_tickers s /\
  PyList.sum (Dict.values (valid_weights s)) = 1.
Proof.
  intros [Hnd Hk Hsym] Hne Hn.
  assert (filter (fun kv : string * Qc => kv.1 ∈ valid_tickers s) (weights s) = weights s)
    as Hall.
  { apply filter_all. apply Forall_forall. intros [k v] Hin. simpl.
    rewrite <- Hk. apply list_elem_of_fmap. exists (k, v). split; [reflexivity | exact Hin]. }
  unfold valid_weights. rewrite Hall. split.
  - unfold Dict.keys. rewrite <- list_fmap_compose. exact Hk.
  - destruct Hn as [Hnil|H100].
    { rewrite Hnil in Hk. symmetry in Hk. contradiction. }
    unfold Dict.values. rewrite <- list_fmap_compose.
    change (snd ∘ prod_map id (fun v : Qc => div v (of_nat 100)))
      with ((fun v : Qc => v * / of_nat 100) ∘ (snd : string * Qc -> Qc)).
    rewrite list_fmap_compose, QcFacts.sum_scale.
    fold (Dict.values (weights s)). rewrite H100.
    apply Qcmult_inv_r, QcFacts.of_nat_100_neq_0.
Qed.

(** X9.  The fractions of the main area.  In every reachable session they
    list exactly the registered Symbols, in the order of [valid_tickers] (the
    order of the tabs).  The dictionary is built in a run that reaches the
    main area, from the session as it is then: in every such run from a
    reachable session with a registered Symbol its values sum to exactly 1;
    and so they do in every reachable session with a registered Symbol in
    which no two enabled rows show the same ticker. *)
Theorem fractions_sum_to_1 (s : session Qc) :
  reachable s ->
  Dict.keys (valid_weights s) = valid_tickers s /\
  (forall weight_,
     (weight_rows weight_ s).2 = None -> valid_tickers s <> [] ->
     Dict.keys (valid_weights (script weight_ s)) = valid_tickers s /\
     PyList.sum (Dict.values (valid_weights (script weight_ s))) = 1) /\
  (valid_tickers s <> [] -> NoDup (shown_tickers s) ->
   PyList.sum (Dict.values (valid_weights s)) = 1).
Proof.
  intros Hreach. destruct (reachable_ok s Hreach) as [Hr Hs].
  split; [|split].
  - destruct Hr as [Hnd Hk Hsym]. unfold valid_weights.
    rewrite filter_all.
    + unfold Dict.keys. rewrite <- list_fmap_compose. exact Hk.
    + apply Forall_forall. intros [k v] Hin. simpl.
      rewrite <- Hk. apply list_elem_of_fmap. exists (k, v). split; [reflexivity | exact Hin].
  - intros weight_ Hend Hne.
    destruct (script_ok weight_ s Hr Hs) as [Hr' _].
    destruct (script_frame weight_ s) as (_ & _ & _ & Hv).
    destruct (weight_rows_ok weight_ s Hr Hs) as [Hr1 _].
    assert (normalized (weights (script weight_ s))) as Hn.
    { unfold script. destruct (weight_rows weight_ s) as [s1 [e|]]; [discriminate Hend|].
      apply main_area_normalized, Hr1. }
    rewrite <- Hv in Hne |- *.
    exact (fractions_of_normalized _ Hr' Hne Hn).
  - intros Hne Hshown.
    exact (proj2 (fractions_of_normalized s Hr Hne (reachable_normalized s Hreach Hshown))).
Qed.

Lemma fractions_sum_to_1_witness :
  Dict.keys (valid_weights SlotOperations.sixty_forty_exact)
    = valid_tickers SlotOperations.sixty_forty_exact /\
  (forall weight_,
     (weight_rows weight_ SlotOperations.sixty_forty_exact).2 = None ->
     valid_tickers SlotOperations.sixty_forty_exact <> [] ->
     Dict.keys (valid_weights (script weight_ SlotOperations.sixty_forty_exact))
       = valid_tickers SlotOperations.sixty_forty_exact /\
     PyList.sum (Dict.values (valid_weights (script weight_ SlotOperations.sixty_forty_exact)))
       = 1) /\
  (valid_tickers SlotOperations.sixty_forty_exact <> [] ->
   NoDup (shown_tickers SlotOperations.sixty_forty_exact) ->
   PyList.sum (Dict.values (valid_weights SlotOperations.sixty_forty_exact)) = 1).
Proof.
  apply (fractions_sum_to_1 SlotOperations.sixty_forty_exact).
  apply SlotOperations.sixty_forty_exact_reachable.
Defined.

(** The same run on binary64: the fractions 0.6 and 0.4. *)
Example fractions_60_40 :
  valid_weights SlotOperations.sixty_forty
  = [("AAPL", 0x1.3333333333333p-1%float); ("MSFT", 0x1.999999999999ap-2%float)].
Proof. vm_compute. reflexivity. Qed.

End MainArea.

(** ** Text: the normal form of a ticker text *)

Module TextLaws.
Import Text.

Lemma upper_char_space (c : ascii) : is_space (upper_char c) = is_space c.
Proof. destruct c as [[] [] [] [] [] [] [] []]; reflexivity. Qed.

Lemma upper_char_twice (c : ascii) : upper_char (upper_char c) = upper_char c.
Proof. destruct c as [[] [] [] [] [] [] [] []]; reflexivity. Qed.

Lemma upper_char_is_upper (c : ascii) :
  is_upper (upper_char c) = is_upper c || is_lower c.
Proof. destruct c as [[] [] [] [] [] [] [] []]; reflexivity. Qed.

(** A text with no white space at either end. *)
Definition trimmed (l : list ascii) : Prop :=
  match head l with Some c => is_space c = false | None => True end /\
  match last l with Some c => is_space c = false | None => True end.

Lemma lstrip_chars_trimmed_head (l : list ascii) :
  match head l with Some c => is_space c = false | None => True end ->
  lstrip_chars l = l.
Proof.
  destruct l as [|c r]; simpl; [reflexivity|]. intros ->. reflexivity.
Qed.

Lemma strip_chars_of_trimmed (l : list ascii) : trimmed l -> strip_chars l = l.
Proof.
  intros [Hh Hl]. unfold strip_chars.
  rewrite (lstrip_chars_trimmed_head l Hh).
  rewrite lstrip_chars_trimmed_head by (rewrite head_reverse; exact Hl).
  apply reverse_involutive.
Qed.

(** What [lstrip_chars] drops is a prefix. *)
Lemma lstrip_chars_suffix (l : list ascii) : exists pre, l = pre ++ lstrip_chars l.
Proof.
  induction l as [|c r [pre IH]]; [exists []; reflexivity|].
  simpl. destruct (is_space c).
  - exists (c :: pre). simpl. f_equal. exact IH.
  - exists []. reflexivity.
Qed.

Lemma strip_chars_trimmed (l : list ascii) : trimmed (strip_chars l).
Proof.
  unfold strip_chars, trimmed. rewrite head_reverse, last_reverse.
  set (a := lstrip_chars l). set (b := lstrip_chars (reverse a)).
  split.
  - destruct (last b) as [c|] eqn:E; [|exact I].
    destruct (lstrip_chars_suffix (reverse a)) as [pre Hpre]. fold b in Hpre.
    assert (last (reverse a) = Some c) as Hlast.
    { rewrite Hpre, last_app, E. reflexivity. }
    rewrite last_reverse in Hlast.
    pose proof (TextFacts.lstrip_chars_head l) as Hh. fold a in Hh.
    destruct a as [|c0 r0]; [discriminate Hlast|].
    simpl in Hlast. injection Hlast as <-. exact Hh.
  - pose proof (TextFacts.lstrip_chars_head (reverse a)) as Hh. fold b in Hh.
    destruct b as [|c0 r0]; [exact I | exact Hh].
Qed.

Lemma trimmed_upper (l : list ascii) : trimmed l -> trimmed (upper_char <$> l).
Proof.
  intros [Hh Hl]. split.
  - destruct l as [|c r]; [exact I|]. simpl in *. rewrite upper_char_space. exact Hh.
  - rewrite fmap_last. destruct (last l) as [c|]; [|exact I].
    simpl. rewrite upper_char_space. exact Hl.
Qed.

(** X10.  Normalising twice is normalising once: the text [handle_ticker_change]
    stores for a row is its own normal form, so showing it back in the text
    field and running the callback again commits the same text.  The stored
    text has no white space at either end and no lower-case letter. *)
Theorem normal_form_stable (raw : string) :
  upper (strip (upper (strip raw))) = upper (strip raw) /\
  trimmed (list_ascii_of_string (upper (strip raw))) /\
  Forall (fun c => is_lower c = false) (list_ascii_of_string (upper (strip raw))).
Proof.
  unfold upper, strip. rewrite !list_ascii_of_string_of_list_ascii.
  set (x := strip_chars (list_ascii_of_string raw)).
  assert (trimmed (upper_char <$> x)) as Htrim by apply trimmed_upper, strip_chars_trimmed.
  split; [|split; [exact Htrim|]].
  - rewrite (strip_chars_of_trimmed _ Htrim). f_equal.
    rewrite <- list_fmap_compose. apply list_fmap_ext.
    intros _ c _. apply upper_char_twice.
  - apply Forall_fmap, Forall_true. intros c. simpl.
    destruct c as [[] [] [] [] [] [] [] []]; reflexivity.
Qed.

End TextLaws.

(** ** app.py: the weight callbacks *)

Module WeightEdit.
Import App.

Section Generic.
Context {W : Type} `{Arith W}.
Variable float_of_str : string -> option W.
Implicit Types (s : session W).

Lemma get_set_same {V : Type} (k : string) (v : V) (d : list (string * V)) :
  Dict.get k (Dict.set k v d) = Some v.
Proof.
  induction d as [|[k0 v0] r IH]; simpl.
  - rewrite decide_True by reflexivity. reflexivity.
  - destruct (decide (k = k0)) as [->|Hne]; simpl.
    + rewrite decide_True by reflexivity. reflexivity.
    + rewrite decide_False by exact Hne. exact IH.
Qed.

Lemma get_set_other {V : Type} (k k' : string) (v : V) (d : list (string * V)) :
  k' <> k -> Dict.get k' (Dict.set k v d) = Dict.get k' d.
Proof.
  intros Hne. induction d as [|[k0 v0] r IH]; simpl.
  - rewrite decide_False by exact Hne. reflexivity.
  - destruct (decide (k = k0)) as [->|Hk]; simpl.
    + rewrite !decide_False by exact Hne. reflexivity.
    + destruct (decide (k' = k0)); [reflexivity | exact IH].
Qed.

(** X11.  A weight edit that parses, for a Symbol that has an entry: the
    entry takes the clamped value and so does the slider of the Symbol.
    Nothing else changes: the keys of the weight table and their order, every
    other weight, every other slider, the text fields, [tickers] and
    [prev_tickers] stay as they were. *)
Theorem edit_known_weight (ticker : string) (x : pyval W) (value : W) s :
  ticker ∈ Dict.keys (weights s) ->
  Dict.get ticker (text_ s) = Some x ->
  py_float float_of_str x = inr value ->
  Dict.keys (weights (update_weight_from_text float_of_str ticker s))
    = Dict.keys (weights s) /\
  Dict.get ticker (weights (update_weight_from_text float_of_str ticker s))
    = Some (clamp value) /\
  (forall k, k <> ticker ->
     Dict.get k (weights (update_weight_from_text float_of_str ticker s))
     = Dict.get k (weights s)) /\
  Dict.get ticker (slider_ (update_weight_from_text float_of_str ticker s))
    = Some (clamp value) /\
  (forall k, k <> ticker ->
     Dict.get k (slider_ (update_weight_from_text float_of_str ticker s))
     = Dict.get k (slider_ s)) /\
  text_ (update_weight_from_text float_of_str ticker s) = text_ s /\
  tickers (update_weight_from_text float_of_str ticker s) = tickers s /\
  prev_tickers (update_weight_from_text float_of_str ticker s) = prev_tickers s.
Proof.
  intros Hin Hx Hv. unfold update_weight_from_text, update_weight_try.
  rewrite Hx, Hv. simpl. repeat split.
  - apply DictFacts.keys_set_present, Hin.
  - apply get_set_same.
  - intros k Hne. apply get_set_other, Hne.
  - apply get_set_same.
  - intros k Hne. apply get_set_other, Hne.
Qed.

End Generic.

Local Open Scope Qc_scope.

Lemma ltb_true (a b : Qc) : ltb a b = true <-> a < b.
Proof. simpl. unfold Qc_ltb. apply bool_decide_eq_true. Qed.

Lemma ltb_false (a b : Qc) : ltb a b = false <-> b <= a.
Proof.
  simpl. unfold Qc_ltb. rewrite bool_decide_eq_false. split.
  - apply Qcnot_lt_le.
  - apply Qcle_not_lt.
Qed.

(** X12.  Whatever number a weight edit parses to, the weight it stores lies in
    [0, 100], and a number already in that range is stored as it is. *)
Theorem stored_weight_in_range (float_of_str : string -> option Qc)
  (ticker : string) (x : pyval Qc) (value : Qc) (s : session Qc) :
  Dict.get ticker (text_ s) = Some x ->
  py_float float_of_str x = inr value ->
  exists w,
    Dict.get ticker (weights (update_weight_from_text float_of_str ticker s)) = Some w /\
    of_nat 0 <= w /\ w <= of_nat 100 /\
    (of_nat 0 <= value -> value <= of_nat 100 -> w = value).
Proof.
  intros Hx Hv. exists (clamp value). split.
  - unfold update_weight_from_text, update_weight_try. rewrite Hx, Hv. simpl.
    apply get_set_same.
  - unfold clamp.
    destruct (ltb value (of_nat 0)) eqn:E0.
    + apply ltb_true in E0. repeat split.
      * apply Qcle_refl.
      * apply QcFacts.of_nat_nonneg.
      * intros Hge _. exfalso. exact (Qcle_not_lt _ _ Hge E0).
    + apply ltb_false in E0.
      destruct (ltb (of_nat 100) value) eqn:E100.
      * apply ltb_true in E100. repeat split.
        -- apply QcFacts.of_nat_nonneg.
        -- apply Qcle_refl.
        -- intros _ Hle. exfalso. exact (Qcle_not_lt _ _ Hle E100).
      * apply ltb_false in E100. repeat split; assumption || reflexivity.
Qed.

(** AAPL and MSFT selected in rows 0 and 1, at 50 each; [typed] is the user
    typing into the weight field of a ticker. *)
Definition typed {W : Type} (ticker text : string) (s : session W) : session W :=
  set_text (Dict.set ticker (PStr text) (text_ s)) s.

Definition halves : session Qc :=
  final (script AppFacts.unformatted (AppFacts.enabled_rows 2)
           (AppFacts.row_texts ["aapl"; "msft"]) init).2.

Example halves_weights :
  Dict.get "AAPL" (weights halves) = Some (of_nat 50) /\
  Dict.get "MSFT" (weights halves) = Some (of_nat 50).
Proof. split; refine (bool_decide_unpack _ _); vm_compute; exact I. Qed.

Lemma edit_known_weight_witness :
  let s := typed "AAPL" "150" halves in
  let s' := update_weight_from_text (AppFacts.reads "150" (of_nat 150)) "AAPL" s in
  Dict.keys (weights s') = Dict.keys (weights s) /\
  Dict.get "AAPL" (weights s') = Some (clamp (of_nat 150)) /\
  (forall k, k <> "AAPL" -> Dict.get k (weights s') = Dict.get k (weights s)) /\
  Dict.get "AAPL" (slider_ s') = Some (clamp (of_nat 150)) /\
  (forall k, k <> "AAPL" -> Dict.get k (slider_ s') = Dict.get k (slider_ s)) /\
  text_ s' = text_ s /\
  tickers s' = tickers s /\
  prev_tickers s' = prev_tickers s.
Proof.
  apply (edit_known_weight (AppFacts.reads "150" (of_nat 150)) "AAPL"
           (PStr "150") (of_nat 150) (typed "AAPL" "150" halves)).
  - apply DictFacts.mem_true. vm_compute. reflexivity.
  - vm_compute. reflexivity.
  - reflexivity.
Defined.

Lemma stored_weight_in_range_witness :
  exists w,
    Dict.get "AAPL"
      (weights (update_weight_from_text (AppFacts.reads "150" (of_nat 150)) "AAPL"
                  (typed "AAPL" "150" halves))) = Some w /\
    of_nat 0 <= w /\ w <= of_nat 100 /\
    (of_nat 0 <= of_nat 150 -> of_nat 150 <= of_nat 100 -> w = of_nat 150).
Proof.
  apply (stored_weight_in_range (AppFacts.reads "150" (of_nat 150)) "AAPL"
           (PStr "150") (of_nat 150) (typed "AAPL" "150" halves)).
  - vm_compute. reflexivity.
  - reflexivity.
Defined.

(** The two values of the specification's clamping example, on binary64. *)
Example clamp_150_and_minus_5 :
  clamp 150%float = 100%float /\ clamp (-5)%float = 0%float.
Proof. split; vm_compute; reflexivity. Qed.

(** The range is a fact of the exact numbers.  On binary64 the builtin [float]
    also accepts the text nan; NaN fails both comparisons and is stored. *)
Example nan_is_stored :
  PrimFloat.is_nan (clamp PrimFloat.nan) = true.
Proof. vm_compute. reflexivity. Qed.

End WeightEdit.

(** ** app.py: one run of the script *)

Module ScriptRun.
Import App.

Section Generic.
Context {W : Type} `{Arith W}.
Variable format_1f : W -> string.
Implicit Types (s : session W).

(** *** The ticker rows *)

Section Rows.
Variable enable_ : nat -> bool.
Variable ticker_ : nat -> string.

(** What row [i] yields: the text of its input, trimmed and upper-cased. *)
Definition row_ticker (i : nat) : string := Text.upper (Text.strip (ticker_ i)).

(** The writes of the rows [l] to [st.session_state.tickers]. *)
Definition store_rows (l : list nat) (t : list string) : list string :=
  fold_left (fun t i => if enable_ i then <[i := row_ticker i]> t else t) l t.

Lemma set_tickers_same s : set_tickers (tickers s) s = s.
Proof. destruct s; reflexivity. Qed.

Lemma ticker_rows_fold (l : list nat) (acc : list string) s :
  fold_left (ticker_row enable_ ticker_) l (acc, s)
  = (acc ++ filter (fun t => t <> "")
              (row_ticker <$> filter (fun i => enable_ i = true) l),
     set_tickers (store_rows l (tickers s)) s).
Proof.
  revert acc s. induction l as [|i r IH]; intros acc s.
  - simpl. rewrite app_nil_r. unfold store_rows. simpl.
    rewrite set_tickers_same. reflexivity.
  - change (fold_left (ticker_row enable_ ticker_) (i :: r) (acc, s))
      with (fold_left (ticker_row enable_ ticker_) r
              (ticker_row enable_ ticker_ (acc, s) i)).
    change (store_rows (i :: r) (tickers s))
      with (store_rows r (if enable_ i then <[i := row_ticker i]> (tickers s)
                          else tickers s)).
    destruct (enable_ i) eqn:E.
    + rewrite filter_cons_True by exact E. rewrite fmap_cons.
      assert (ticker_row enable_ ticker_ (acc, s) i
              = (if decide (row_ticker i = "") then acc else acc ++ [row_ticker i],
                 set_tickers (<[i := row_ticker i]> (tickers s)) s)) as ->.
      { unfold ticker_row. rewrite E. fold (row_ticker i).
        destruct (decide (row_ticker i = "")) as [He|Hne].
        - rewrite (bool_decide_eq_true_2 _ He). reflexivity.
        - rewrite (bool_decide_eq_false_2 _ Hne). reflexivity. }
      rewrite IH. f_equal.
      destruct (decide (row_ticker i = "")) as [He|Hne].
      * rewrite filter_cons_False by (intros Hc; exact (Hc He)). reflexivity.
      * rewrite filter_cons_True by exact Hne. rewrite <- app_assoc. reflexivity.
    + rewrite filter_cons_False by (rewrite E; discriminate).
      assert (ticker_row enable_ ticker_ (acc, s) i = (acc, s)) as ->
        by (unfold ticker_row; rewrite E; reflexivity).
      apply IH.
Qed.

Lemma store_rows_length (l : list nat) (t : list string) :
  length (store_rows l t) = length t.
Proof.
  revert t. induction l as [|i r IH]; intros t; [reflexivity|].
  change (store_rows (i :: r) t)
    with (store_rows r (if enable_ i then <[i := row_ticker i]> t else t)).
  rewrite IH. destruct (enable_ i); [apply length_insert | reflexivity].
Qed.

Lemma store_rows_lookup (l : list nat) (t : list string) (j : nat) :
  (j < length t)%nat ->
  store_rows l t !! j
  = if enable_ j && bool_decide (j ∈ l) then Some (row_ticker j) else t !! j.
Proof.
  revert t. induction l as [|i r IH]; intros t Hj.
  - rewrite andb_false_r. reflexivity.
  - change (store_rows (i :: r) t)
      with (store_rows r (if enable_ i then <[i := row_ticker i]> t else t)).
    rewrite IH by (destruct (enable_ i); [rewrite length_insert|]; exact Hj).
    destruct (enable_ j) eqn:Ej; simpl.
    + destruct (decide (j ∈ r)) as [Hin|Hnin].
      * rewrite (bool_decide_eq_true_2 _ Hin).
        rewrite bool_decide_eq_true_2 by (right; exact Hin). reflexivity.
      * rewrite (bool_decide_eq_false_2 _ Hnin).
        destruct (decide (j = i)) as [->|Hne].
        -- rewrite Ej, bool_decide_eq_true_2 by left.
           apply list_lookup_insert_eq, Hj.
        -- rewrite bool_decide_eq_false_2
             by (intros [?|?]%elem_of_cons; contradiction).
           destruct (enable_ i); [|reflexivity].
           apply list_lookup_insert_ne. congruence.
    + destruct (decide (j = i)) as [->|Hne].
      * rewrite Ej. reflexivity.
      * destruct (enable_ i); [|reflexivity].
        apply list_lookup_insert_ne. congruence.
Qed.

Lemma store_rows_twice (l : list nat) (t : list string) :
  store_rows l (store_rows l t) = store_rows l t.
Proof.
  apply list_eq. intros j.
  destruct (decide (j < length t)%nat) as [Hj|Hj].
  - rewrite store_rows_lookup by (rewrite store_rows_length; exact Hj).
    rewrite store_rows_lookup by exact Hj.
    destruct (enable_ j && bool_decide (j ∈ l)); reflexivity.
  - rewrite !lookup_ge_None_2; [reflexivity | |];
      rewrite ?store_rows_length; lia.
Qed.

Lemma ticker_loop_rows s :
  ticker_loop enable_ ticker_ s
  = (filter (fun t => t <> "")
       (row_ticker <$> filter (fun i => enable_ i = true) (seq 0 5)),
     set_tickers (store_rows (seq 0 5) (tickers s)) s).
Proof. unfold ticker_loop. rewrite ticker_rows_fold. reflexivity. Qed.

(** X13.  The ticker loop on a session whose [tickers] list has its five entries:
    [selected_tickers] holds the normalised, non-empty texts of the checked
    rows in row order, whatever the session; the session keeps its tables, and
    [tickers] takes the text of every checked row (also an empty one) and
    keeps the entry of every unchecked row. *)
Theorem selected_in_row_order s :
  length (tickers s) = 5%nat ->
  (ticker_loop enable_ ticker_ s).1
    = filter (fun t => t <> "")
        (row_ticker <$> filter (fun i => enable_ i = true) [0; 1; 2; 3; 4]%nat) /\
  weights (ticker_loop enable_ ticker_ s).2 = weights s /\
  prev_tickers (ticker_loop enable_ ticker_ s).2 = prev_tickers s /\
  length (tickers (ticker_loop enable_ ticker_ s).2) = 5%nat /\
  forall j, (j < 5)%nat ->
    tickers (ticker_loop enable_ ticker_ s).2 !! j
    = if enable_ j then Some (row_ticker j) else tickers s !! j.
Proof.
  intros Hlen. rewrite ticker_loop_rows.
  cbn [fst snd set_tickers weights prev_tickers tickers].
  split; [reflexivity|]. split; [reflexivity|]. split; [reflexivity|].
  split; [rewrite store_rows_length; exact Hlen|].
  intros j Hj. rewrite store_rows_lookup by (rewrite Hlen; exact Hj).
  rewrite bool_decide_eq_true_2 by (apply elem_of_seq; lia).
  rewrite andb_true_r. reflexivity.
Qed.

End Rows.

(** *** The reset block, the weight controls and the auto-balance block *)

(** What the session remembers of the run before: the keys of the weight
    table are the tickers selected then. *)
Definition tables_agree s : Prop :=
  forall selected, prev_tickers s = Some selected -> Dict.keys (weights s) = selected.

Lemma keys_fmap_pair {V : Type} (f : string -> V) (l : list string) :
  Dict.keys ((fun k => (k, f k)) <$> l) = l.
Proof.
  unfold Dict.keys. induction l as [|k r IH]; [reflexivity|].
  rewrite !fmap_cons. simpl. f_equal. exact IH.
Qed.

Lemma reset_weights_frame (selected : list string) s :
  tickers (reset_weights selected s) = tickers s /\
  text_ (reset_weights selected s) = text_ s /\
  slider_ (reset_weights selected s) = slider_ s /\
  prev_tickers (reset_weights selected s) = Some selected.
Proof.
  unfold reset_weights.
  destruct (decide (prev_tickers s = Some selected)) as [Hp|Hp].
  - rewrite (bool_decide_eq_true_2 _ Hp). simpl. repeat split. exact Hp.
  - rewrite (bool_decide_eq_false_2 _ Hp). simpl.
    destruct (0 <? length selected)%nat; repeat split.
Qed.

Lemma reset_weights_keys (selected : list string) s :
  tables_agree s -> NoDup selected ->
  Dict.keys (weights (reset_weights selected s)) = selected.
Proof.
  intros Hagree Hnd. unfold reset_weights.
  destruct (decide (prev_tickers s = Some selected)) as [Hp|Hp].
  - rewrite (bool_decide_eq_true_2 _ Hp). simpl. apply Hagree, Hp.
  - rewrite (bool_decide_eq_false_2 _ Hp). simpl.
    destruct selected as [|t r]; [reflexivity|].
    simpl Nat.ltb. cbv iota. simpl.
    rewrite DictFacts.comprehension_nodup by exact Hnd.
    apply keys_fmap_pair.
Qed.

(** The reset block on tickers that differ from those of the run before. *)
Lemma reset_weights_split (selected : list string) s :
  prev_tickers s <> Some selected -> selected <> [] ->
  weights (reset_weights selected s)
  = Dict.comprehension (fun _ => div (of_nat 100) (of_nat (length selected))) selected.
Proof.
  intros Hp Hne. unfold reset_weights.
  rewrite (bool_decide_eq_false_2 _ Hp). simpl.
  destruct selected as [|t r]; [contradiction | reflexivity].
Qed.

(** The weight controls read the text fields only; they come to their end
    exactly when no selected ticker repeats, or has been drawn, or holds a
    number in its text field. *)
Lemma weight_controls_end (selected drawn : list string) s :
  weight_controls selected drawn s = None <->
  NoDup selected /\
  (forall t, t ∈ selected -> t ∉ drawn) /\
  (forall t v, t ∈ selected -> Dict.get t (text_ s) <> Some (PNum v)).
Proof.
  revert drawn. induction selected as [|t r IH]; intros drawn; simpl.
  - split; [|reflexivity]. intros _. split; [constructor|].
    split; intros t; intros; exfalso; eapply not_elem_of_nil; eassumption.
  - destruct (decide (t ∈ drawn)) as [Hin|Hnin].
    + rewrite (bool_decide_eq_true_2 _ Hin). split; [discriminate|].
      intros (_ & Hd & _). exfalso. apply (Hd t); [left | exact Hin].
    + rewrite (bool_decide_eq_false_2 _ Hnin).
      assert (weight_controls r (t :: drawn) s = None <->
              NoDup (t :: r) /\ (forall t0, t0 ∈ t :: r -> t0 ∉ drawn) /\
              (forall t0 v, t0 ∈ r -> Dict.get t0 (text_ s) <> Some (PNum v))) as Hrest.
      { rewrite IH, NoDup_cons. split.
        - intros (Hnd & Hd & Hnum). split; [split; [|exact Hnd]|split; [|exact Hnum]].
          + intros Hc. apply (Hd _ Hc). left.
          + intros t0 [->|Hc]%elem_of_cons; [exact Hnin|].
            intros Hc'. apply (Hd _ Hc). right. exact Hc'.
        - intros ([Hfirst Hnd] & Hd & Hnum). split; [exact Hnd|]. split; [|exact Hnum].
          intros t0 Hc [->|Hc']%elem_of_cons; [contradiction|].
          apply (Hd t0); [right; exact Hc | exact Hc']. }
      destruct (Dict.get t (text_ s)) as [[x|v]|] eqn:Hg.
      * rewrite Hrest. split.
        -- intros (Hnd & Hd & Hnum). split; [exact Hnd|]. split; [exact Hd|].
           intros t0 v [->|Hc]%elem_of_cons; [rewrite Hg; discriminate | apply Hnum, Hc].
        -- intros (Hnd & Hd & Hnum). split; [exact Hnd|]. split; [exact Hd|].
           intros t0 v Hc. apply Hnum. right. exact Hc.
      * split; [discriminate|]. intros (_ & _ & Hnum). exfalso.
        apply (Hnum t v); [left | exact Hg].
      * rewrite Hrest. split.
        -- intros (Hnd & Hd & Hnum). split; [exact Hnd|]. split; [exact Hd|].
           intros t0 v [->|Hc]%elem_of_cons; [rewrite Hg; discriminate | apply Hnum, Hc].
        -- intros (Hnd & Hd & Hnum). split; [exact Hnd|]. split; [exact Hd|].
           intros t0 v Hc. apply Hnum. right. exact Hc.
Qed.

(** Among distinct tickers not drawn yet, a number in the text field of one
    of them ends the controls with [TypeError]. *)
Lemma weight_controls_number (selected drawn : list string) (ticker : string) (v : W) s :
  NoDup selected -> (forall t, t ∈ selected -> t ∉ drawn) ->
  ticker ∈ selected -> Dict.get ticker (text_ s) = Some (PNum v) ->
  weight_controls selected drawn s = Some TypeError.
Proof.
  revert drawn. induction selected as [|t r IH]; intros drawn Hnd Hd Hin Hg.
  - inversion Hin.
  - simpl. apply NoDup_cons in Hnd as [Hfirst Hnd].
    rewrite bool_decide_eq_false_2 by (apply Hd; left).
    destruct (decide (ticker = t)) as [->|Hne]; [rewrite Hg; reflexivity|].
    assert (weight_controls r (t :: drawn) s = Some TypeError) as Hrest.
    { apply IH; [exact Hnd | | | exact Hg].
      - intros t0 Hc [->|Hc']%elem_of_cons; [contradiction|].
        apply (Hd t0); [right; exact Hc | exact Hc'].
      - apply elem_of_cons in Hin as [?|?]; [contradiction | assumption]. }
    destruct (Dict.get t (text_ s)) as [[x|v0]|]; [exact Hrest | reflexivity | exact Hrest].
Qed.

(** The loop never adds or drops a key, however it ends. *)
Lemma balance_loop_frame (drawn : list string) (total : W) (l : list string) s :
  Dict.keys (weights (final (balance_loop format_1f drawn total l s)))
    = Dict.keys (weights s) /\
  prev_tickers (final (balance_loop format_1f drawn total l s)) = prev_tickers s /\
  tickers (final (balance_loop format_1f drawn total l s)) = tickers s.
Proof.
  revert s. induction l as [|t r IH]; intros s; [repeat split|].
  cbn [balance_loop].
  destruct (Dict.get t (weights s)) as [w|] eqn:Hg; [|repeat split].
  destruct (py_div w total) as [e|q]; [repeat split|].
  assert (t ∈ Dict.keys (weights s)) as Hin.
  { destruct (decide (t ∈ Dict.keys (weights s))) as [Hin|Hnin]; [exact Hin|].
    apply DictFacts.get_none in Hnin. congruence. }
  destruct (bool_decide (t ∈ drawn)).
  - simpl. repeat split. apply DictFacts.keys_set_present, Hin.
  - match goal with |- context [balance_loop _ _ _ _ ?x] => destruct (IH x) as (Hk & Hp & Ht) end.
    rewrite Hk, Hp, Ht. simpl. repeat split.
    apply DictFacts.keys_set_present, Hin.
Qed.

Lemma auto_balance_frame (drawn selected : list string) s :
  Dict.keys (weights (final (auto_balance format_1f drawn selected s)))
    = Dict.keys (weights s) /\
  prev_tickers (final (auto_balance format_1f drawn selected s)) = prev_tickers s /\
  tickers (final (auto_balance format_1f drawn selected s)) = tickers s.
Proof.
  unfold auto_balance. destruct (ltb _ _); [apply balance_loop_frame | repeat split].
Qed.

(** Entered with a ticker whose controls are drawn, the loop does not come to
    its end: it stops at the first ticker. *)
Lemma balance_loop_first (drawn : list string) (total : W) (t : string)
  (rest : list string) s :
  t ∈ drawn ->
  balance_loop format_1f drawn total (t :: rest) s
  = match Dict.get t (weights s) with
    | None => Raised KeyError s
    | Some w =>
        if eqb total (of_nat 0) then Raised ZeroDivisionError s
        else Raised StreamlitAPIException
               (set_weights (Dict.set t (mul (div w total) (of_nat 100)) (weights s)) s)
    end.
Proof.
  intros Hin. cbn [balance_loop]. destruct (Dict.get t (weights s)) as [w|]; [|reflexivity].
  unfold py_div. destruct (eqb total (of_nat 0)); [reflexivity|].
  rewrite (bool_decide_eq_true_2 _ Hin). reflexivity.
Qed.

Lemma script_blocks (enable_ : nat -> bool) (ticker_ : nat -> string) s :
  script format_1f enable_ ticker_ s
  = ((ticker_loop enable_ ticker_ s).1,
     match (ticker_loop enable_ ticker_ s).1 with
     | [] => Done (reset_weights (ticker_loop enable_ ticker_ s).1
                     (ticker_loop enable_ ticker_ s).2)
     | _ =>
         match weight_controls (ticker_loop enable_ ticker_ s).1 []
                 (reset_weights (ticker_loop enable_ ticker_ s).1
                    (ticker_loop enable_ ticker_ s).2) with
         | Some e => Raised e (reset_weights (ticker_loop enable_ ticker_ s).1
                                 (ticker_loop enable_ ticker_ s).2)
         | None => auto_balance format_1f (ticker_loop enable_ ticker_ s).1
                     (ticker_loop enable_ ticker_ s).1
                     (reset_weights (ticker_loop enable_ ticker_ s).1
                        (ticker_loop enable_ ticker_ s).2)
         end
     end).
Proof.
  unfold script. destruct (ticker_loop enable_ ticker_ s) as [selected s1].
  destruct selected; [reflexivity|]. cbn [fst snd].
  destruct (weight_controls _ _ _); reflexivity.
Qed.

Lemma ticker_loop_agree (enable_ : nat -> bool) (ticker_ : nat -> string) s :
  tables_agree s -> tables_agree (ticker_loop enable_ ticker_ s).2.
Proof. intros Hagree. rewrite ticker_loop_rows. exact Hagree. Qed.

(** The session a run leaves before the weight controls are drawn: the rows
    read and the reset block done. *)
Definition before_controls (enable_ : nat -> bool) (ticker_ : nat -> string) s
  : session W :=
  reset_weights (ticker_loop enable_ ticker_ s).1 (ticker_loop enable_ ticker_ s).2.

Lemma before_controls_text (enable_ : nat -> bool) (ticker_ : nat -> string) s :
  text_ (before_controls enable_ ticker_ s) = text_ s.
Proof.
  unfold before_controls.
  destruct (reset_weights_frame (ticker_loop enable_ ticker_ s).1
              (ticker_loop enable_ ticker_ s).2) as (_ & Ht & _).
  rewrite Ht, ticker_loop_rows. reflexivity.
Qed.

(** X15.  After a run of the script on distinct selected tickers, however it
    ends, the keys of the weight table are the selected tickers in row order
    and [prev_tickers] holds them; so the next run starts from agreeing
    tables. *)
Theorem run_keys_selected (enable_ : nat -> bool) (ticker_ : nat -> string) s :
  tables_agree s ->
  NoDup (script format_1f enable_ ticker_ s).1 ->
  Dict.keys (weights (final (script format_1f enable_ ticker_ s).2))
    = (script format_1f enable_ ticker_ s).1 /\
  prev_tickers (final (script format_1f enable_ ticker_ s).2)
    = Some (script format_1f enable_ ticker_ s).1 /\
  tables_agree (final (script format_1f enable_ ticker_ s).2).
Proof.
  rewrite script_blocks. cbn [fst snd]. intros Hagree Hnd.
  apply (ticker_loop_agree enable_ ticker_) in Hagree.
  pose proof (reset_weights_keys _ _ Hagree Hnd) as Hk.
  destruct (reset_weights_frame (ticker_loop enable_ ticker_ s).1
              (ticker_loop enable_ ticker_ s).2) as (_ & _ & _ & Hp).
  set (selected := (ticker_loop enable_ ticker_ s).1) in *.
  set (s2 := reset_weights selected (ticker_loop enable_ ticker_ s).2) in *.
  set (o := match selected with
            | [] => Done s2
            | _ => match weight_controls selected [] s2 with
                   | Some e => Raised e s2
                   | None => auto_balance format_1f selected selected s2
                   end
            end).
  assert (Dict.keys (weights (final o)) = selected /\
          prev_tickers (final o) = Some selected) as [Hk' Hp'].
  { unfold o. destruct selected as [|t r] eqn:E; [split; assumption|].
    destruct (weight_controls (t :: r) [] s2); [split; assumption|].
    destruct (auto_balance_frame (t :: r) (t :: r) s2) as (Hk2 & Hp2 & _).
    rewrite Hk2, Hp2. split; assumption. }
  split; [exact Hk'|]. split; [exact Hp'|].
  intros sel Hsel. rewrite Hp' in Hsel. injection Hsel as <-. exact Hk'.
Qed.

(** X14.  The auto-balance block does not bring the table to 100.  In a run
    on distinct selected tickers, none of whose text fields holds a number,
    that finds the total after the reset block further than 0.1 from 100, the
    block raises: [ZeroDivisionError] at the first division when the total is
    zero, and otherwise [StreamlitAPIException] at the assignment to the text
    field of the first selected ticker, whose weight alone has been rescaled;
    every other weight and both widget tables stay as they were. *)
Theorem auto_balance_cut_short (enable_ : nat -> bool) (ticker_ : nat -> string) s :
  tables_agree s ->
  NoDup (script format_1f enable_ ticker_ s).1 ->
  (forall t v, t ∈ (script format_1f enable_ ticker_ s).1 ->
               Dict.get t (text_ s) <> Some (PNum v)) ->
  (script format_1f enable_ ticker_ s).1 <> [] ->
  ltb tenth (absv (sub (PyList.sum (Dict.values
                                      (weights (before_controls enable_ ticker_ s))))
                       (of_nat 100))) = true ->
  exists t rest w,
    (script format_1f enable_ ticker_ s).1 = t :: rest /\
    Dict.get t (weights (before_controls enable_ ticker_ s)) = Some w /\
    (script format_1f enable_ ticker_ s).2
    = if eqb (PyList.sum (Dict.values (weights (before_controls enable_ ticker_ s))))
             (of_nat 0)
      then Raised ZeroDivisionError (before_controls enable_ ticker_ s)
      else Raised StreamlitAPIException
             (set_weights
                (Dict.set t
                   (mul (div w (PyList.sum (Dict.values
                                              (weights (before_controls enable_ ticker_ s)))))
                        (of_nat 100))
                   (weights (before_controls enable_ ticker_ s)))
                (before_controls enable_ ticker_ s)).
Proof.
  pose proof (before_controls_text enable_ ticker_ s) as Htext.
  rewrite script_blocks. cbn [fst snd]. unfold before_controls in *.
  intros Hagree Hnd Hnum Hne Hfar.
  apply (ticker_loop_agree enable_ ticker_) in Hagree.
  pose proof (reset_weights_keys _ _ Hagree Hnd) as Hk.
  set (selected := (ticker_loop enable_ ticker_ s).1) in *.
  set (s2 := reset_weights selected (ticker_loop enable_ ticker_ s).2) in *.
  assert (weight_controls selected [] s2 = None) as Hcontrols.
  { apply weight_controls_end. split; [exact Hnd|]. split.
    - intros t _. apply not_elem_of_nil.
    - intros t v Hin. rewrite Htext. apply Hnum, Hin. }
  destruct selected as [|t rest] eqn:E; [contradiction|].
  assert (exists w, Dict.get t (weights s2) = Some w) as [w Hw].
  { destruct (Dict.get t (weights s2)) as [w|] eqn:Hg; [exists w; reflexivity|].
    apply DictFacts.get_none in Hg. exfalso. apply Hg. rewrite Hk. left. }
  exists t, rest, w. split; [reflexivity|]. split; [exact Hw|].
  rewrite Hcontrols. unfold auto_balance. rewrite Hfar.
  rewrite balance_loop_first by left. rewrite Hw. reflexivity.
Qed.

(** X16.  Moving a slider changes no weight and breaks the next run: the
    callback copies the slider value, a number, into the text field of the
    ticker, and a run that selects the ticker, among distinct tickers, is
    ended by [TypeError] at the text input of the weight controls, after the
    reset block and before the auto-balance block. *)
Theorem slider_move_breaks_run (enable_ : nat -> bool) (ticker_ : nat -> string)
  (ticker : string) s s1 :
  update_weight_from_slider ticker s = inr s1 ->
  weights s1 = weights s /\
  (NoDup (script format_1f enable_ ticker_ s1).1 ->
   ticker ∈ (script format_1f enable_ ticker_ s1).1 ->
   (script format_1f enable_ ticker_ s1).2
   = Raised TypeError (before_controls enable_ ticker_ s1)).
Proof.
  unfold update_weight_from_slider.
  destruct (Dict.get ticker (slider_ s)) as [v|]; [|discriminate].
  intros [= <-]. split; [reflexivity|].
  set (s1 := set_text _ s).
  pose proof (before_controls_text enable_ ticker_ s1) as Htext.
  rewrite script_blocks. cbn [fst snd]. unfold before_controls in *.
  intros Hnd Hin.
  set (selected := (ticker_loop enable_ ticker_ s1).1) in *.
  set (s2 := reset_weights selected (ticker_loop enable_ ticker_ s1).2) in *.
  assert (weight_controls selected [] s2 = Some TypeError) as Hcontrols.
  { apply (weight_controls_number selected [] ticker v); [exact Hnd | | exact Hin |].
    - intros t _. apply not_elem_of_nil.
    - rewrite Htext. unfold s1. simpl. apply WeightEdit.get_set_same. }
  rewrite Hcontrols. destruct selected; [inversion Hin | reflexivity].
Qed.

(** X18.  A run that ended normally is not changed by running the script
    again with the same rows: the same tickers are selected and the session,
    weights, text fields and sliders included, stays as it is. *)
Theorem rerun_changes_nothing (enable_ : nat -> bool) (ticker_ : nat -> string) s s' :
  (script format_1f enable_ ticker_ s).2 = Done s' ->
  script format_1f enable_ ticker_ s'
  = ((script format_1f enable_ ticker_ s).1, Done s').
Proof.
  rewrite !script_blocks, !ticker_loop_rows. cbn [fst snd].
  set (selected := filter _ _). intros Hrun.
  set (s1 := set_tickers (store_rows enable_ ticker_ (seq 0 5) (tickers s)) s) in *.
  destruct (reset_weights_frame selected s1) as (Ht & _ & _ & Hp).
  set (s2 := reset_weights selected s1) in *.
  assert (s' = s2 /\
          (selected <> [] ->
           weight_controls selected [] s2 = None /\
           ltb tenth (absv (sub (PyList.sum (Dict.values (weights s2))) (of_nat 100)))
           = false)) as [-> Hpass].
  { destruct selected as [|t r] eqn:E.
    - injection Hrun as <-. split; [reflexivity|]. intros Hc. contradiction.
    - destruct (weight_controls (t :: r) [] s2) as [e|]; [discriminate Hrun|].
      unfold auto_balance in Hrun.
      destruct (ltb tenth _) eqn:Et.
      + rewrite balance_loop_first in Hrun by left.
        destruct (Dict.get t (weights s2)); [|discriminate Hrun].
        destruct (eqb _ _); discriminate Hrun.
      + injection Hrun as <-. split; [reflexivity|]. intros _. split; reflexivity. }
  assert (set_tickers (store_rows enable_ ticker_ (seq 0 5) (tickers s2)) s2 = s2) as ->.
  { assert (tickers s2 = store_rows enable_ ticker_ (seq 0 5) (tickers s)) as Hts
      by (rewrite Ht; reflexivity).
    rewrite Hts, store_rows_twice, <- Hts. apply set_tickers_same. }
  rewrite (AppFacts.reset_weights_same selected s2 Hp).
  f_equal. destruct selected as [|t r]; [reflexivity|].
  destruct Hpass as [Hc Htol]; [discriminate|].
  rewrite Hc. unfold auto_balance. rewrite Htol. reflexivity.
Qed.

End Generic.

(** *** Runs *)

(** Rows 0 to 2 checked: a padded lower-case text, an empty text, a plain one. *)
Definition three_rows : nat -> string := AppFacts.row_texts [" aapl "; ""; "msft"].

Lemma selected_in_row_order_witness :
  let run := ticker_loop (AppFacts.enabled_rows 3) three_rows (init (W:=float)) in
  run.1 = filter (fun t => t <> "")
            (row_ticker three_rows
               <$> filter (fun i => AppFacts.enabled_rows 3 i = true) [0; 1; 2; 3; 4]%nat) /\
  weights run.2 = weights (init (W:=float)) /\
  prev_tickers run.2 = prev_tickers (init (W:=float)) /\
  length (tickers run.2) = 5%nat /\
  forall j, (j < 5)%nat ->
    tickers run.2 !! j
    = if AppFacts.enabled_rows 3 j then Some (row_ticker three_rows j)
      else tickers (init (W:=float)) !! j.
Proof.
  apply (selected_in_row_order (AppFacts.enabled_rows 3) three_rows (init (W:=float))).
  reflexivity.
Defined.

Example three_rows_selected :
  let run := ticker_loop (AppFacts.enabled_rows 3) three_rows (init (W:=float)) in
  run.1 = ["AAPL"; "MSFT"] /\ tickers run.2 = ["AAPL"; ""; "MSFT"; ""; ""].
Proof. split; vm_compute; reflexivity. Qed.

(** Rows 0 and 1 checked with AAPL and MSFT; the first run (binary64) and,
    after it, the weight field of AAPL edited to 80. *)
Definition two_rows : nat -> string := AppFacts.row_texts ["aapl"; "msft"].

Definition fifty_fifty : session float :=
  final (script AppFacts.unformatted (AppFacts.enabled_rows 2) two_rows init).2.

Definition edited : session float :=
  update_weight_from_text (AppFacts.reads "80" 80%float) "AAPL"
    (WeightEdit.typed "AAPL" "80" fifty_fifty).

Lemma edited_agree : tables_agree edited.
Proof.
  intros selected Hsel. vm_compute in Hsel. injection Hsel as <-.
  vm_compute. reflexivity.
Qed.

Lemma edited_selected :
  (script AppFacts.unformatted (AppFacts.enabled_rows 2) two_rows edited).1
  = ["AAPL"; "MSFT"].
Proof. vm_compute. reflexivity. Qed.

Lemma run_keys_selected_witness :
  let run := script AppFacts.unformatted (AppFacts.enabled_rows 2) two_rows edited in
  Dict.keys (weights (final run.2)) = run.1 /\
  prev_tickers (final run.2) = Some run.1 /\
  tables_agree (final run.2).
Proof.
  apply (run_keys_selected AppFacts.unformatted (AppFacts.enabled_rows 2) two_rows edited).
  - exact edited_agree.
  - rewrite edited_selected. refine (bool_decide_unpack _ _). vm_compute. exact I.
Defined.

Lemma auto_balance_cut_short_witness :
  exists t rest w,
    (script AppFacts.unformatted (AppFacts.enabled_rows 2) two_rows edited).1 = t :: rest /\
    Dict.get t (weights (before_controls (AppFacts.enabled_rows 2) two_rows edited))
      = Some w /\
    (script AppFacts.unformatted (AppFacts.enabled_rows 2) two_rows edited).2
    = if eqb (PyList.sum (Dict.values
                            (weights (before_controls (AppFacts.enabled_rows 2) two_rows
                                        edited))))
             (of_nat 0)
      then Raised ZeroDivisionError (before_controls (AppFacts.enabled_rows 2) two_rows edited)
      else Raised StreamlitAPIException
             (set_weights
                (Dict.set t
                   (mul (div w (PyList.sum (Dict.values
                                              (weights (before_controls
                                                          (AppFacts.enabled_rows 2) two_rows
                                                          edited)))))
                        (of_nat 100))
                   (weights (before_controls (AppFacts.enabled_rows 2) two_rows edited)))
                (before_controls (AppFacts.enabled_rows 2) two_rows edited)).
Proof.
  apply (auto_balance_cut_short AppFacts.unformatted (AppFacts.enabled_rows 2) two_rows
           edited).
  - exact edited_agree.
  - rewrite edited_selected. refine (bool_decide_unpack _ _). vm_compute. exact I.
  - rewrite edited_selected. intros t v Hin.
    apply elem_of_cons in Hin as [->|Hin]; [vm_compute; discriminate|].
    apply list_elem_of_singleton in Hin as ->. vm_compute. discriminate.
  - rewrite edited_selected. discriminate.
  - vm_compute. reflexivity.
Defined.

(** That run on binary64: AAPL is rescaled to 80/130 of 100, MSFT stays at
    50, and the table sums to 111.5. *)
Example edited_cut_short :
  (script AppFacts.unformatted (AppFacts.enabled_rows 2) two_rows edited).2
  = Raised StreamlitAPIException
      (set_weights [("AAPL", 0x1.ec4ec4ec4ec4fp+5%float); ("MSFT", 50%float)] edited).
Proof. vm_compute. reflexivity. Qed.

(** The slider of AAPL dragged to 30 in the session of the first run. *)
Definition dragged : session float :=
  set_slider (Dict.set "AAPL" 30%float (slider_ fifty_fifty)) fifty_fifty.

Lemma slider_move_breaks_run_witness :
  let s1 := set_text (Dict.set "AAPL" (PNum 30%float) (text_ dragged)) dragged in
  weights s1 = weights dragged /\
  (NoDup (script AppFacts.unformatted (AppFacts.enabled_rows 2) two_rows s1).1 ->
   "AAPL" ∈ (script AppFacts.unformatted (AppFacts.enabled_rows 2) two_rows s1).1 ->
   (script AppFacts.unformatted (AppFacts.enabled_rows 2) two_rows s1).2
   = Raised TypeError (before_controls (AppFacts.enabled_rows 2) two_rows s1)).
Proof.
  apply (slider_move_breaks_run AppFacts.unformatted (AppFacts.enabled_rows 2) two_rows
           "AAPL" dragged).
  vm_compute. reflexivity.
Defined.

Example dragged_run :
  (script AppFacts.unformatted (AppFacts.enabled_rows 2) two_rows
     (set_text (Dict.set "AAPL" (PNum 30%float) (text_ dragged)) dragged)).2
  = Raised TypeError (set_text [("AAPL", PNum 30%float)] dragged) /\
  weights dragged = [("AAPL", 50%float); ("MSFT", 50%float)].
Proof. split; vm_compute; reflexivity. Qed.

Lemma first_run_done :
  (script AppFacts.unformatted (AppFacts.enabled_rows 2) two_rows (init (W:=float))).2
  = Done fifty_fifty.
Proof. vm_compute. reflexivity. Qed.

Lemma rerun_changes_nothing_witness :
  script AppFacts.unformatted (AppFacts.enabled_rows 2) two_rows fifty_fifty
  = ((script AppFacts.unformatted (AppFacts.enabled_rows 2) two_rows (init (W:=float))).1,
     Done fifty_fifty).
Proof.
  apply (rerun_changes_nothing AppFacts.unformatted (AppFacts.enabled_rows 2) two_rows
           init fifty_fifty).
  exact first_run_done.
Defined.

End ScriptRun.

(** ** Adding a Symbol: rescale or reset *)

Module NewSymbol.
Import V3Facts V3Exact SlotOperations AppFacts.
Local Open Scope Qc_scope.

(** Relative proportions: any two Symbols that have weights before and after
    have them in the same ratio. *)
Definition proportions_kept (w w' : list (string * Qc)) : Prop :=
  forall k1 k2 v1 v2 v1' v2',
    Dict.get k1 w = Some v1 -> Dict.get k2 w = Some v2 ->
    Dict.get k1 w' = Some v1' -> Dict.get k2 w' = Some v2' ->
    v1 * v2' = v2 * v1'.

Lemma get_app_present {V : Type} (k : string) (v : V) (d d' : list (string * V)) :
  Dict.get k d = Some v -> Dict.get k (d ++ d') = Some v.
Proof.
  induction d as [|[k0 v0] r IH]; simpl; [discriminate|].
  destruct (decide (k = k0)); [trivial | exact IH].
Qed.

Lemma get_rescale (total : Qc) (w : list (string * Qc)) (k : string) (v : Qc) :
  Dict.get k w = Some v ->
  Dict.get k (AppV3.rescale total w) = Some (v / total * of_nat 100).
Proof.
  unfold AppV3.rescale. induction w as [|[k0 v0] r IH]; simpl; [discriminate|].
  destruct (decide (k = k0)); [intros [= ->]; reflexivity | exact IH].
Qed.

Lemma proportions_kept_rescale (total : Qc) (w d : list (string * Qc)) :
  proportions_kept w (AppV3.rescale total w ++ d).
Proof.
  intros k1 k2 v1 v2 v1' v2' H1 H2 H1' H2'.
  rewrite (get_app_present _ _ _ d (get_rescale total w k1 v1 H1)) in H1'.
  rewrite (get_app_present _ _ _ d (get_rescale total w k2 v2 H2)) in H2'.
  injection H1' as <-. injection H2' as <-. unfold Qcdiv. ring.
Qed.

(** [handle_ticker_change] for a new Symbol, on any arithmetic: the Symbol is
    registered last and joins the table at 0, and the table is renormalised. *)
Lemma commit_new_tables {W : Type} `{Arith W} (i : nat) (raw : string)
  (s : AppV3.session W) :
  registry_ok s ->
  AppV3.enable_ s i = true ->
  Text.letters_1_5 (Text.upper (Text.strip raw)) = true ->
  Text.upper (Text.strip raw) ∉ Dict.keys (AppV3.weights s) ->
  AppV3.valid_tickers (AppV3.setSlotText i raw s).1
    = AppV3.valid_tickers s ++ [Text.upper (Text.strip raw)] /\
  AppV3.weights (AppV3.setSlotText i raw s).1
    = renormalize (AppV3.valid_tickers s ++ [Text.upper (Text.strip raw)])
        (AppV3.weights s ++ [(Text.upper (Text.strip raw), of_nat 0)]).
Proof.
  intros Hr Hen Hval Hfresh. unfold AppV3.setSlotText.
  pose proof (handle_fresh i (AppV3.with_ticker i raw s) (with_ticker_registry i raw s Hr))
    as Hf.
  rewrite validate_committed, committed_with_ticker in Hf.
  simpl AppV3.enable_ in Hf. simpl AppV3.weights in Hf. simpl AppV3.valid_tickers in Hf.
  rewrite Hen, Hval in Hf. simpl in Hf. destruct (Hf Hfresh) as [Hv Hw].
  split; [exact Hv|]. rewrite Hw, Hv. reflexivity.
Qed.

(** app.py: the reset block and the tolerance test, on an arithmetic on which
    the equal split among one to five tickers passes the test of the
    auto-balance block. *)
Section Reset.
Context {W : Type} `{Arith W}.
Hypothesis split_passes : forall n, (1 <= n <= 5)%nat ->
  ltb tenth
    (absv (sub (PyList.sum (replicate n (div (of_nat 100) (of_nat n)))) (of_nat 100)))
  = false.

Lemma values_const (c : W) (l : list string) :
  NoDup l -> Dict.values (Dict.comprehension (fun _ => c) l) = replicate (length l) c.
Proof.
  intros Hnd. rewrite DictFacts.comprehension_nodup by exact Hnd.
  unfold Dict.values. rewrite <- list_fmap_compose.
  clear Hnd. induction l as [|k r IH]; [reflexivity|].
  rewrite fmap_cons. simpl. f_equal. exact IH.
Qed.

Lemma selected_at_most_5 (enable_ : nat -> bool) (ticker_ : nat -> string)
  (s : App.session W) :
  (length (App.ticker_loop enable_ ticker_ s).1 <= 5)%nat.
Proof.
  rewrite ScriptRun.ticker_loop_rows. cbn [fst].
  etransitivity; [apply length_filter|]. rewrite length_fmap.
  etransitivity; [apply length_filter|]. reflexivity.
Qed.

(** A run in which the selected tickers are not those of the run before ends
    with every selected ticker at the equal split, however the run ends. *)
Lemma run_resets_weights (format_1f : W -> string) (enable_ : nat -> bool)
  (ticker_ : nat -> string) (s : App.session W) :
  App.prev_tickers s <> Some (App.script format_1f enable_ ticker_ s).1 ->
  (App.script format_1f enable_ ticker_ s).1 <> [] ->
  App.weights (App.final (App.script format_1f enable_ ticker_ s).2)
  = Dict.comprehension
      (fun _ => div (of_nat 100)
                  (of_nat (length (App.script format_1f enable_ ticker_ s).1)))
      (App.script format_1f enable_ ticker_ s).1.
Proof.
  rewrite ScriptRun.script_blocks. cbn [fst snd]. intros Hp Hne.
  assert (App.prev_tickers (App.ticker_loop enable_ ticker_ s).2
          <> Some (App.ticker_loop enable_ ticker_ s).1) as Hp1.
  { rewrite ScriptRun.ticker_loop_rows in Hp |- *. exact Hp. }
  pose proof (ScriptRun.reset_weights_split _ _ Hp1 Hne) as Hw.
  pose proof (selected_at_most_5 enable_ ticker_ s) as Hlen.
  set (selected := (App.ticker_loop enable_ ticker_ s).1) in *.
  set (s2 := App.reset_weights selected (App.ticker_loop enable_ ticker_ s).2) in *.
  destruct selected as [|t r] eqn:E; [contradiction|].
  destruct (App.weight_controls (t :: r) [] s2) as [e|] eqn:Hc; [exact Hw|].
  apply ScriptRun.weight_controls_end in Hc as (Hnd & _).
  unfold App.auto_balance. rewrite Hw, (values_const _ _ Hnd).
  rewrite split_passes; [exact Hw|]. simpl length in *. lia.
Qed.

End Reset.

Lemma split_passes_exact (n : nat) :
  (1 <= n <= 5)%nat ->
  ltb tenth
    (absv (sub (PyList.sum (replicate n (div (of_nat 100) (of_nat n : Qc)))) (of_nat 100)))
  = false.
Proof.
  intros Hn.
  assert (n = 1 \/ n = 2 \/ n = 3 \/ n = 4 \/ n = 5)%nat as Hcases by lia.
  destruct Hcases as [->|[->|[->|[->| ->]]]]; vm_compute; reflexivity.
Qed.

(** On binary64 the five sums are 100, 100, 100, 100 and 100. *)
Lemma split_passes_float (n : nat) :
  (1 <= n <= 5)%nat ->
  ltb tenth
    (absv (sub (PyList.sum (replicate n (div (of_nat 100) (of_nat n : float)))) (of_nat 100)))
  = false.
Proof.
  intros Hn.
  assert (n = 1 \/ n = 2 \/ n = 3 \/ n = 4 \/ n = 5)%nat as Hcases by lia.
  destruct Hcases as [->|[->|[->|[->| ->]]]]; vm_compute; reflexivity.
Qed.

(** app.py: AAPL and MSFT selected, the weight field of AAPL edited to 50.05
    and the script run; then a third row is enabled with GOOG. *)
Definition two_selected : App.session Qc :=
  App.final (App.script unformatted (enabled_rows 2) (row_texts ["aapl"; "msft"]) App.init).2.

Definition aapl_edited : App.session Qc :=
  App.final
    (App.script unformatted (enabled_rows 2) (row_texts ["aapl"; "msft"])
       (App.update_weight_from_text (reads "50.05" (Q2Qc (1001 # 20))) "AAPL"
          (WeightEdit.typed "AAPL" "50.05" two_selected))).2.

Definition goog_added : App.session Qc :=
  App.final
    (App.script unformatted (enabled_rows 3) (row_texts ["aapl"; "msft"; "goog"])
       aapl_edited).2.

(** The three runs end normally: no exception is involved. *)
Example three_runs_end :
  (App.script unformatted (enabled_rows 2) (row_texts ["aapl"; "msft"]) App.init).2
    = App.Done two_selected /\
  (App.script unformatted (enabled_rows 2) (row_texts ["aapl"; "msft"])
     (App.update_weight_from_text (reads "50.05" (Q2Qc (1001 # 20))) "AAPL"
        (WeightEdit.typed "AAPL" "50.05" two_selected))).2
    = App.Done aapl_edited /\
  (App.script unformatted (enabled_rows 3) (row_texts ["aapl"; "msft"; "goog"])
     aapl_edited).2
    = App.Done goog_added.
Proof. repeat split; vm_compute; reflexivity. Qed.

Lemma aapl_edited_weights :
  App.weights aapl_edited = [("AAPL", Q2Qc (1001 # 20)); ("MSFT", Q2Qc (50 # 1))].
Proof. refine (bool_decide_unpack _ _). vm_compute. exact I. Qed.

Lemma goog_added_weights :
  App.weights goog_added
  = [("AAPL", Q2Qc (100 # 3)); ("MSFT", Q2Qc (100 # 3)); ("GOOG", Q2Qc (100 # 3))].
Proof. refine (bool_decide_unpack _ _). vm_compute. exact I. Qed.

(** C8, as the specification has it, fails on app.py: AAPL and MSFT stood at
    50.05 and 50; adding GOOG puts all three at 100/3. *)
Lemma new_symbol_resets_weights :
  ~ proportions_kept (App.weights aapl_edited) (App.weights goog_added).
Proof.
  rewrite aapl_edited_weights, goog_added_weights. intros Hc.
  pose proof (Hc "AAPL" "MSFT" _ _ _ _ eq_refl eq_refl eq_refl eq_refl) as E.
  apply (f_equal this) in E. vm_compute in E. discriminate E.
Qed.

(** C8, as amended.  In app_v3.py, committing a Symbol that is not a key yet
    into an enabled row of a reachable session registers it last and adds it
    to the table at 0, and the table is renormalised (any arithmetic).  In
    exact arithmetic: when the weights there do not sum to zero, every one of
    them is divided by their sum and multiplied by 100 and the new Symbol
    stays at 0, so proportions are kept, and a table that summed to 100 keeps
    every weight; when they sum to zero, all Symbols, the new one included,
    get the equal split.  In app.py, in exact arithmetic and on binary64, a
    run of the script in which the selected tickers are not those of the run
    before leaves every selected ticker at the equal split [100 / n], [n] the
    number of rows selected. *)
Theorem new_symbol_weights :
  (forall (W : Type) (A : Arith W) (i : nat) (raw : string) (s : AppV3.session W),
     AppV3.reachable s ->
     AppV3.enable_ s i = true ->
     Text.letters_1_5 (Text.upper (Text.strip raw)) = true ->
     Text.upper (Text.strip raw) ∉ Dict.keys (AppV3.weights s) ->
     AppV3.valid_tickers (AppV3.setSlotText i raw s).1
       = AppV3.valid_tickers s ++ [Text.upper (Text.strip raw)] /\
     AppV3.weights (AppV3.setSlotText i raw s).1
       = renormalize (AppV3.valid_tickers s ++ [Text.upper (Text.strip raw)])
           (AppV3.weights s ++ [(Text.upper (Text.strip raw), of_nat 0)])) /\
  (forall (i : nat) (raw : string) (s : AppV3.session Qc),
     AppV3.reachable s ->
     AppV3.enable_ s i = true ->
     Text.letters_1_5 (Text.upper (Text.strip raw)) = true ->
     Text.upper (Text.strip raw) ∉ Dict.keys (AppV3.weights s) ->
     (PyList.sum (Dict.values (AppV3.weights s)) <> 0 ->
      AppV3.weights (AppV3.setSlotText i raw s).1
        = AppV3.rescale (PyList.sum (Dict.values (AppV3.weights s))) (AppV3.weights s)
          ++ [(Text.upper (Text.strip raw), of_nat 0)] /\
      proportions_kept (AppV3.weights s) (AppV3.weights (AppV3.setSlotText i raw s).1)) /\
     (PyList.sum (Dict.values (AppV3.weights s)) = of_nat 100 ->
      AppV3.weights (AppV3.setSlotText i raw s).1
        = AppV3.weights s ++ [(Text.upper (Text.strip raw), of_nat 0)]) /\
     (PyList.sum (Dict.values (AppV3.weights s)) = 0 ->
      AppV3.weights (AppV3.setSlotText i raw s).1
        = (fun t => (t, of_nat 100 / of_nat (S (length (AppV3.valid_tickers s)))))
            <$> (AppV3.valid_tickers s ++ [Text.upper (Text.strip raw)]))) /\
  (forall (format_1f : Qc -> string) (enable_ : nat -> bool) (ticker_ : nat -> string)
          (s : App.session Qc),
     App.prev_tickers s <> Some (App.script format_1f enable_ ticker_ s).1 ->
     (App.script format_1f enable_ ticker_ s).1 <> [] ->
     App.weights (App.final (App.script format_1f enable_ ticker_ s).2)
     = Dict.comprehension
         (fun _ => of_nat 100 / of_nat (length (App.script format_1f enable_ ticker_ s).1))
         (App.script format_1f enable_ ticker_ s).1) /\
  (forall (format_1f : float -> string) (enable_ : nat -> bool) (ticker_ : nat -> string)
          (s : App.session float),
     App.prev_tickers s <> Some (App.script format_1f enable_ ticker_ s).1 ->
     (App.script format_1f enable_ ticker_ s).1 <> [] ->
     App.weights (App.final (App.script format_1f enable_ ticker_ s).2)
     = Dict.comprehension
         (fun _ => div (of_nat 100)
                     (of_nat (length (App.script format_1f enable_ ticker_ s).1)))
         (App.script format_1f enable_ ticker_ s).1).
Proof.
  split; [|split; [|split]].
  - intros W A i raw s Hreach Hen Hval Hfresh.
    destruct (reachable_ok s Hreach) as [Hr _].
    exact (commit_new_tables i raw s Hr Hen Hval Hfresh).
  - intros i raw s Hreach Hen Hval Hfresh.
    destruct (reachable_ok s Hreach) as [Hr _].
    destruct (commit_new_tables i raw s Hr Hen Hval Hfresh) as [Hv Hw].
    set (t := Text.upper (Text.strip raw)) in *.
    split; [|split].
    + intros Hsum.
      assert (AppV3.weights (AppV3.setSlotText i raw s).1
              = AppV3.rescale (PyList.sum (Dict.values (AppV3.weights s))) (AppV3.weights s)
                ++ [(t, of_nat 0)]) as Hres.
      { rewrite Hw, HandlerLaws.renormalize_nonzero by (rewrite sum_with_zero; exact Hsum).
        rewrite sum_with_zero. unfold AppV3.rescale. rewrite fmap_app.
        f_equal; simpl; f_equal; f_equal; rewrite ?QcFacts.of_nat_0; unfold Qcdiv; ring. }
      split; [exact Hres|]. rewrite Hres. apply proportions_kept_rescale.
    + intros H100. rewrite Hw. apply renormalize_fixed.
      rewrite sum_with_zero. exact H100.
    + intros Hz. rewrite Hw. unfold renormalize.
      rewrite normalize_zero.
      * simpl. rewrite length_app. simpl. rewrite Nat.add_1_r. reflexivity.
      * simpl. rewrite sum_with_zero. exact Hz.
      * simpl. rewrite <- Hv.
        pose proof (handle_registry i (AppV3.with_ticker i raw s)
                      (with_ticker_registry i raw s Hr)) as [Hnd _ _].
        exact Hnd.
  - intros format_1f enable_ ticker_ s.
    apply (run_resets_weights split_passes_exact).
  - intros format_1f enable_ ticker_ s.
    apply (run_resets_weights split_passes_float).
Qed.

Lemma new_symbol_weights_witness :
  (AppV3.valid_tickers (AppV3.setSlotText 1 "goog" sixty_forty).1
     = AppV3.valid_tickers sixty_forty ++ [Text.upper (Text.strip "goog")] /\
   AppV3.weights (AppV3.setSlotText 1 "goog" sixty_forty).1
     = renormalize (AppV3.valid_tickers sixty_forty ++ [Text.upper (Text.strip "goog")])
         (AppV3.weights sixty_forty ++ [(Text.upper (Text.strip "goog"), of_nat 0)])) /\
  ((PyList.sum (Dict.values (AppV3.weights SlotOperations.sixty_forty_exact)) <> 0 ->
    AppV3.weights (AppV3.setSlotText 1 "goog" SlotOperations.sixty_forty_exact).1
      = AppV3.rescale (PyList.sum (Dict.values (AppV3.weights SlotOperations.sixty_forty_exact)))
          (AppV3.weights SlotOperations.sixty_forty_exact)
        ++ [(Text.upper (Text.strip "goog"), of_nat 0)] /\
    proportions_kept (AppV3.weights SlotOperations.sixty_forty_exact)
      (AppV3.weights (AppV3.setSlotText 1 "goog" SlotOperations.sixty_forty_exact).1)) /\
   (PyList.sum (Dict.values (AppV3.weights SlotOperations.sixty_forty_exact)) = of_nat 100 ->
    AppV3.weights (AppV3.setSlotText 1 "goog" SlotOperations.sixty_forty_exact).1
      = AppV3.weights SlotOperations.sixty_forty_exact
        ++ [(Text.upper (Text.strip "goog"), of_nat 0)]) /\
   (PyList.sum (Dict.values (AppV3.weights SlotOperations.sixty_forty_exact)) = 0 ->
    AppV3.weights (AppV3.setSlotText 1 "goog" SlotOperations.sixty_forty_exact).1
      = (fun t => (t, of_nat 100
                      / of_nat (S (length (AppV3.valid_tickers
                                             SlotOperations.sixty_forty_exact)))))
          <$> (AppV3.valid_tickers SlotOperations.sixty_forty_exact
               ++ [Text.upper (Text.strip "goog")]))) /\
  App.weights
    (App.final (App.script unformatted (enabled_rows 3)
                  (row_texts ["aapl"; "msft"; "goog"]) aapl_edited).2)
  = Dict.comprehension
      (fun _ => of_nat 100
                / of_nat (length (App.script unformatted (enabled_rows 3)
                                    (row_texts ["aapl"; "msft"; "goog"]) aapl_edited).1))
      (App.script unformatted (enabled_rows 3)
         (row_texts ["aapl"; "msft"; "goog"]) aapl_edited).1 /\
  App.weights
    (App.final (App.script unformatted (enabled_rows 3)
                  (row_texts ["aapl"; "msft"; "goog"]) ScriptRun.edited).2)
  = Dict.comprehension
      (fun _ => div (of_nat 100)
                  (of_nat (length (App.script unformatted (enabled_rows 3)
                                     (row_texts ["aapl"; "msft"; "goog"])
                                     ScriptRun.edited).1)))
      (App.script unformatted (enabled_rows 3)
         (row_texts ["aapl"; "msft"; "goog"]) ScriptRun.edited).1.
Proof.
  split; [|split; [|split]].
  - apply (proj1 new_symbol_weights float _ 1%nat "goog" sixty_forty).
    + exact sixty_forty_reachable.
    + vm_compute. reflexivity.
    + vm_compute. reflexivity.
    + refine (bool_decide_unpack _ _). vm_compute. exact I.
  - apply (proj1 (proj2 new_symbol_weights) 1%nat "goog" SlotOperations.sixty_forty_exact).
    + exact SlotOperations.sixty_forty_exact_reachable.
    + vm_compute. reflexivity.
    + vm_compute. reflexivity.
    + refine (bool_decide_unpack _ _). vm_compute. exact I.
  - apply (proj1 (proj2 (proj2 new_symbol_weights)) unformatted (enabled_rows 3)
             (row_texts ["aapl"; "msft"; "goog"]) aapl_edited).
    + vm_compute. discriminate.
    + vm_compute. discriminate.
  - apply (proj2 (proj2 (proj2 new_symbol_weights)) unformatted (enabled_rows 3)
             (row_texts ["aapl"; "msft"; "goog"]) ScriptRun.edited).
    + vm_compute. discriminate.
    + vm_compute. discriminate.
Defined.

(** The reset on binary64: AAPL 80 and MSFT 50 both become 100/3 when GOOG is
    added. *)
Example goog_added_float :
  App.script unformatted (enabled_rows 3) (row_texts ["aapl"; "msft"; "goog"])
    ScriptRun.edited
  = (["AAPL"; "MSFT"; "GOOG"],
     App.Done
       (App.set_tickers ["AAPL"; "MSFT"; "GOOG"; ""; ""]
          (App.set_prev_tickers (Some ["AAPL"; "MSFT"; "GOOG"])
             (App.set_weights
                [("AAPL", 0x1.0aaaaaaaaaaabp+5%float); ("MSFT", 0x1.0aaaaaaaaaaabp+5%float);
                 ("GOOG", 0x1.0aaaaaaaaaaabp+5%float)] ScriptRun.edited)))).
Proof. vm_compute. reflexivity. Qed.

(** The commit of GOOG on binary64, from AAPL 60 and MSFT 40: here the sum is
    100 on the nose and the weights stay. *)
Example goog_committed :
  AppV3.weights (AppV3.setSlotText 1 "goog" sixty_forty).1
  = [("AAPL", 60%float); ("MSFT", 40%float); ("GOOG", 0%float)].
Proof. vm_compute. reflexivity. Qed.

End NewSymbol.
